(** * The North Dakota "Approachable AI" notebooks, embedded in Rocq

    The two notebooks of [src/ndai_high_code_demo.ipynb] are embedded
    shallowly: every cell that the specification talks about becomes a
    definition that follows the cell line by line.

    Conventions of the embedding.
    - A NumPy [float64] that is a cell value or a fitted statistic is
      idealised as a real number; [NaN], which pandas uses as the
      missing-value marker, is kept as a value of its own.  The one
      float64 product that decides a count, [test_size * n_samples] in
      [train_test_split], is modelled with its rounding.
    - A pandas [DataFrame] is an ordered list of column names and an
      ordered list of rows; a row carries its index label and the cells,
      keyed by column name.
    - DataFrames are Python objects: they live in a store and variables
      hold references, so that in-place updates and aliasing are visible.
    - Python exceptions are results [Raise e].
    - Calls into pandas, NumPy and scikit-learn are modelled after the
      behaviour of those libraries for the arguments the notebook passes;
      the pseudo-random permutation behind [train_test_split] and the
      estimator behind [cross_validate] stay abstract. *)

From Stdlib Require Import Reals Lra Lia QArith Qround.
From Stdlib Require Lqa.
From stdpp Require Import gmap strings list fin_maps sorting.

(** ** Results and exceptions *)

Inductive exn := KeyError | ValueError | TypeError | NotFittedError.

Inductive res (A : Type) : Type :=
  | Ok (a : A)
  | Raise (e : exn).
Arguments Ok {A} a.
Arguments Raise {A} e.

#[global] Instance res_ret : MRet res := λ A a, Ok a.
#[global] Instance res_bind : MBind res := λ A B k m,
  match m with Ok a => k a | Raise e => Raise e end.

(** [res_mapM f l] runs [f] over [l] from left to right and stops at the
    first exception. *)
Fixpoint res_mapM {A B} (f : A → res B) (l : list A) : res (list B) :=
  match l with
  | [] => Ok []
  | a :: l' => b ← f a; bs ← res_mapM f l'; Ok (b :: bs)
  end.

(** ** Numbers *)

#[global] Instance R_eq_dec : EqDecision R := Req_dec_T.
#[global] Instance Rlt_decision (x y : R) : Decision (x < y)%R := Rlt_dec x y.
#[global] Instance Rgt_decision (x y : R) : Decision (x > y)%R := Rgt_dec x y.
#[global] Instance Rle_decision (x y : R) : Decision (x <= y)%R := Rle_dec x y.

#[global] Instance Qlt_decision (x y : Q) : Decision (x < y)%Q.
Proof. unfold Qlt. apply _. Defined.

(** A [float64]: a finite value or NaN. *)
Inductive float64 := Fin (x : R) | NaN.

#[global] Instance float64_eq_dec : EqDecision float64.
Proof. solve_decision. Defined.

(** A DataFrame cell: a number (possibly NaN) or a string. *)
Inductive cell := F (v : float64) | Str (s : string).

#[global] Instance cell_eq_dec : EqDecision cell.
Proof. solve_decision. Defined.

Module np.

(** [np.sum], [np.mean] and [np.sqrt] on arrays of finite values. *)
Definition sum (a : list R) : R := foldr Rplus 0%R a.
Definition mean (a : list R) : R := (sum a / INR (length a))%R.
Definition sqrt (x : R) : R := R_sqrt.sqrt x.

(** Arithmetic on [float64]: NaN is absorbing. *)
Definition sub (x y : float64) : float64 :=
  match x, y with Fin a, Fin b => Fin (a - b) | _, _ => NaN end.
Definition div (x y : float64) : float64 :=
  match x, y with Fin a, Fin b => Fin (a / b) | _, _ => NaN end.

(** The values of an array that are not NaN (a masked array's data). *)
Fixpoint compressed (a : list float64) : list R :=
  match a with
  | [] => []
  | Fin x :: a' => x :: compressed a'
  | NaN :: a' => compressed a'
  end.

(** [np.ma.mean] / [np.nanmean]: the mean of the values that are not
    NaN, and NaN when there is none. *)
Definition nanmean (a : list float64) : float64 :=
  match compressed a with
  | [] => NaN
  | x :: xs => Fin (mean (x :: xs))
  end.

(** [np.nanvar] (population variance, [ddof = 0]). *)
Definition nanvar (a : list float64) : float64 :=
  match compressed a with
  | [] => NaN
  | x :: xs =>
      let m := mean (x :: xs) in
      Fin (mean ((λ v, (v - m) * (v - m))%R <$> (x :: xs)))
  end.

(** [float(q)]: the float64 nearest to a rational number, ties to the
    even mantissa.  A float64 has a mantissa of 53 bits; the exponent is
    not bounded here, which changes nothing for the numbers this
    development rounds (fractions and their products with row counts,
    far from overflow and underflow).  [round_half_even num den] rounds
    [num / den] to the nearest integer; [scaled a b e] is [a / b] divided
    by [2^e], as a fraction; [exponent a b] is the [e] for which
    [2^52 ≤ (a / b) / 2^e < 2^53]. *)
Definition round_half_even (num den : Z) : Z :=
  let f := (num / den)%Z in
  match (2 * (num mod den) ?= den)%Z with
  | Lt => f
  | Gt => (f + 1)%Z
  | Eq => if Z.even f then f else (f + 1)%Z
  end.

Definition scaled (a b e : Z) : Z * Z :=
  (a * 2 ^ Z.max 0 (- e), b * 2 ^ Z.max 0 e)%Z.

Definition exponent (a b : Z) : Z :=
  let e := (Z.log2 a - Z.log2 b - 53)%Z in
  let '(n, d) := scaled a b e in
  if (n <? 2 ^ 53 * d)%Z then e else (e + 1)%Z.

Definition nearest_float64 (x : Q) : Q :=
  let a := Z.abs (Qnum x) in
  let b := Zpos (Qden x) in
  if (a =? 0)%Z then 0%Q
  else
    let e := exponent a b in
    let '(n, d) := scaled a b e in
    let m := round_half_even n d in
    Qmake (Z.sgn (Qnum x) * m * 2 ^ Z.max 0 e) (Z.to_pos (2 ^ Z.max 0 (- e))).

End np.

(** ** pandas *)

Module pd.

(** A row: its index label and its cells by column name. *)
Abbreviation row := (nat * gmap string cell)%type.

Record DataFrame := mkDataFrame {
  columns : list string;
  rows : list row
}.

#[global] Instance DataFrame_eq_dec : EqDecision DataFrame.
Proof. solve_decision. Defined.

(** A cell that a row does not hold reads as NaN, as in a frame built
    from records. *)
Definition cell_at (r : gmap string cell) (c : string) : cell :=
  default (F NaN) (r !! c).

Definition index (df : DataFrame) : list nat := (rows df).*1.

(** The cells of a row, in column order. *)
Definition row_values (cols : list string) (r : gmap string cell) : list cell :=
  cell_at r <$> cols.

(** [df[c]]: the column as a labelled Series; [KeyError] when there is
    no such column. *)
Definition getitem (df : DataFrame) (c : string) : res (list (nat * cell)) :=
  if decide (c ∈ columns df)
  then Ok ((λ ir : row, (ir.1, cell_at ir.2 c)) <$> rows df)
  else Raise KeyError.

(** [df[c] = values] for an array or a Series that carries the frame's
    own index: cells are assigned by position, a new column is appended,
    and a length mismatch raises [ValueError]. *)
Definition setitem (df : DataFrame) (c : string) (values : list cell) : res DataFrame :=
  if decide (length values = length (rows df))
  then Ok {| columns := if decide (c ∈ columns df) then columns df
                        else columns df ++ [c];
             rows := zip_with (λ (ir : row) v, (ir.1, <[c := v]> ir.2))
                              (rows df) values |}
  else Raise ValueError.

(** [df.duplicated()] followed by [df[~mask]], with [keep='first']:
    a row is dropped when a row with the same cells came before it.
    pandas compares cells by value and takes two NaNs for equal. *)
Fixpoint keep_first (cols : list string) (seen : list (list cell))
    (rs : list row) : list row :=
  match rs with
  | [] => []
  | ir :: rs' =>
      let k := row_values cols ir.2 in
      if decide (k ∈ seen) then keep_first cols seen rs'
      else ir :: keep_first cols (k :: seen) rs'
  end.

Definition drop_duplicates (df : DataFrame) : DataFrame :=
  {| columns := columns df; rows := keep_first (columns df) [] (rows df) |}.

(** [df.dropna()]: rows with a NaN in any column are removed. *)
Definition has_na (cols : list string) (r : gmap string cell) : Prop :=
  F NaN ∈ row_values cols r.

#[global] Instance has_na_dec cols r : Decision (has_na cols r).
Proof. unfold has_na. apply _. Defined.

Definition dropna (df : DataFrame) : DataFrame :=
  {| columns := columns df;
     rows := filter (λ ir : row, ¬ has_na (columns df) ir.2) (rows df) |}.

(** [df.drop(labels)]: every row whose index label is listed goes. *)
Definition drop (df : DataFrame) (labels : list nat) : DataFrame :=
  {| columns := columns df;
     rows := filter (λ ir : row, ir.1 ∉ labels) (rows df) |}.

(** [df[mask].index]: the labels of the rows a boolean Series selects. *)
Definition mask_index (mask : list (nat * bool)) : list nat :=
  (filter (λ ib : nat * bool, ib.2 = true) mask).*1.

(** [series > threshold], cell by cell: NaN compares false, a string
    against a number is a [TypeError]. *)
Definition gt (v : cell) (threshold : R) : res bool :=
  match v with
  | F (Fin x) => Ok (bool_decide (x > threshold)%R)
  | F NaN => Ok false
  | Str _ => Raise TypeError
  end.

(** [series == 0.0], cell by cell. *)
Definition eq_zero (v : cell) : bool :=
  match v with
  | F (Fin x) => bool_decide (x = 0%R)
  | _ => false
  end.

(** [series.where(cond, other)]: the value where [cond] holds, [other]
    elsewhere. *)
Definition where_ (cond : cell → bool) (other : cell) (v : cell) : cell :=
  if cond v then v else other.

(** [pd.get_dummies(df, columns=[c])]: the one-hot encoding of column
    [c].  The categories are the distinct values of the column that are
    not missing, sorted: numbers first, in ascending order, then strings
    in lexicographic order.  Every category [v] gives an indicator column
    named [c_v]; the indicator columns follow the other columns, in the
    order of the categories, and column [c] itself goes.  A row holds 1
    in the indicator column of its value and 0 in the others; a row whose
    value is missing holds 0 in all of them.  The index labels stay, and
    the result is a new frame.  There is a [KeyError] when the frame has
    no column [c].  [repr x] is the text Python prints for the number
    [x]; it stays abstract.  Rows are keyed by column name, so a frame
    with two columns of one name cannot be written down here: an
    indicator that takes the name of another column overwrites its
    cells. *)
Definition level_le (u v : cell) : Prop :=
  match u, v with
  | F (Fin x), F (Fin y) => (x <= y)%R
  | F NaN, F _ => True
  | F (Fin _), F NaN => False
  | F _, Str _ => True
  | Str _, F _ => False
  | Str s, Str t => String.leb s t = true
  end.

#[global] Instance level_le_dec : RelDecision level_le.
Proof. intros [[x|]|s] [[y|]|t]; cbn; apply _. Defined.

Definition levels (X : list cell) : list cell :=
  merge_sort level_le (remove_dups (filter (λ v, v ≠ F NaN) X)).

Definition level_name (repr : R → string) (v : cell) : string :=
  match v with
  | Str s => s
  | F (Fin x) => repr x
  | F NaN => "nan"
  end.

Definition dummy_name (repr : R → string) (c : string) (v : cell) : string :=
  c +:+ "_" +:+ level_name repr v.

Definition indicators (repr : R → string) (c : string) (lvls : list cell)
    (v : cell) (r : gmap string cell) : gmap string cell :=
  foldr (λ lv r',
           <[dummy_name repr c lv := F (Fin (if decide (v = lv) then 1 else 0))]> r')
        r lvls.

Definition get_dummies (repr : R → string) (df : DataFrame) (c : string)
    : res DataFrame :=
  if decide (c ∈ columns df)
  then
    let lvls := levels ((λ ir : row, cell_at ir.2 c) <$> rows df) in
    Ok {| columns := filter (λ c', c' ≠ c) (columns df)
                     ++ (dummy_name repr c <$> lvls);
          rows := (λ ir : row,
                     (ir.1, indicators repr c lvls (cell_at ir.2 c)
                              (delete c ir.2)))
                  <$> rows df |}
  else Raise KeyError.

End pd.

(** ** The object store

    A variable that holds a DataFrame holds a reference into the store.
    [M A] is a computation that may read and update the store and may
    raise. *)

Abbreviation store := (gmap nat pd.DataFrame).

Definition M (A : Type) : Type := store → res (A * store).

#[global] Instance M_ret : MRet M := λ A a h, Ok (a, h).
#[global] Instance M_bind : MBind M := λ A B k m h,
  match m h with Ok (a, h') => k a h' | Raise e => Raise e end.

Definition lift {A} (r : res A) : M A := λ h,
  match r with Ok a => Ok (a, h) | Raise e => Raise e end.

(** Dereferencing: Python has no dangling references, so the [KeyError]
    branch is taken by no well-formed state. *)
Definition load (l : nat) : M pd.DataFrame := λ h,
  match h !! l with Some df => Ok (df, h) | None => Raise KeyError end.

(** A new object gets a reference the store does not use yet. *)
Definition new (df : pd.DataFrame) : M nat := λ h,
  let l := fresh (dom h) in Ok (l, <[l := df]> h).

(** An in-place update of the object behind a reference. *)
Definition update (l : nat) (df : pd.DataFrame) : M unit := λ h,
  Ok ((), <[l := df]> h).

(** [df.drop_duplicates(inplace=True)] *)
Definition drop_duplicates_inplace (df : nat) : M unit :=
  d ← load df; update df (pd.drop_duplicates d).

(** [df.dropna(inplace=True)] *)
Definition dropna_inplace (df : nat) : M unit :=
  d ← load df; update df (pd.dropna d).

(** [df[c] = values] *)
Definition setitem_inplace (df : nat) (c : string) (values : list cell) : M unit :=
  d ← load df; d' ← lift (pd.setitem d c values); update df d'.

(** Cell [df = pd.get_dummies(df, columns=["month"])]: the encoded frame
    is a new object; the cell then binds [df] to it. *)
Definition get_dummies (repr : R → string) (df : nat) (c : string) : M nat :=
  d ← load df; d' ← lift (pd.get_dummies repr d c); new d'.

(** ** The functions of the first notebook *)

(** [outlier_removal(dframe, threshold)]:
<<
    rows_to_remove = dframe["FFMC"] > threshold
    return dframe.drop(dframe[rows_to_remove].index)
>> *)
Definition outlier_removal (dframe : nat) (threshold : R) : M nat :=
  d ← load dframe;
  ffmc ← lift (pd.getitem d "FFMC");
  rows_to_remove ← lift (res_mapM
     (λ iv : nat * cell, b ← pd.gt iv.2 threshold; Ok (iv.1, b)) ffmc);
  new (pd.drop d (pd.mask_index rows_to_remove)).

(** [add_did_it_rain(dframe)]:
<<
    dframe["did_it_rain"] = dframe["rain"].where(dframe["rain"] == 0.0, other = 1)
    return dframe
>> *)
Definition add_did_it_rain (dframe : nat) : M nat :=
  d ← load dframe;
  rain ← lift (pd.getitem d "rain");
  setitem_inplace dframe "did_it_rain"
    (pd.where_ pd.eq_zero (F (Fin 1)) <$> rain.*2);;
  mret dframe.

(** ** scikit-learn preprocessing *)

Module sklearn.

(** [check_array] on a one-column frame: the cells become [float64]
    values, text is refused, and so is an array without rows. *)
Definition to_float (v : cell) : res float64 :=
  match v with F x => Ok x | Str _ => Raise ValueError end.

Definition check_array (X : list cell) : res (list float64) :=
  a ← res_mapM to_float X;
  if decide (a = []) then Raise ValueError else Ok a.

(** [Imputer(missing_values=np.NaN, strategy="mean")]: [fit] stores the
    mean of the values that are not missing in [statistics_]. *)
Definition Imputer_fit (X : list cell) : res float64 :=
  a ← check_array X; Ok (np.nanmean a).

(** [Imputer.transform]: a missing value becomes the stored statistic.
    The result is two-dimensional; when the statistic is NaN (nothing
    was observed at [fit]) the column is dropped from it. *)
Definition impute (m : R) (x : float64) : float64 :=
  match x with NaN => Fin m | Fin _ => x end.

Definition Imputer_transform (statistics_ : option float64) (X : list cell)
    : res (list (list float64)) :=
  match statistics_ with
  | None => Raise NotFittedError
  | Some stat =>
      a ← check_array X;
      Ok ((λ x, match stat with Fin m => [impute m x] | NaN => [] end)
            <$> (a : list float64))
  end.

(** [ndarray.ravel()] *)
Definition ravel (a : list (list float64)) : list float64 := concat a.

(** [StandardScaler()]: [fit] stores [mean_] and [scale_], the standard
    deviation with zeros replaced by one ([_handle_zeros_in_scale]).
    The arithmetic is that of the real numbers: rounding and overflow of
    float64 are not modelled, so what is drawn from these definitions is
    which values the statistics are computed from and where they are
    used, not the digits of a result. *)
Record ScalerParams := mkScalerParams { mean_ : float64; scale_ : float64 }.

Definition fsqrt (v : float64) : float64 :=
  match v with Fin x => Fin (np.sqrt x) | NaN => NaN end.

Definition handle_zeros_in_scale (s : float64) : float64 :=
  match s with
  | Fin x => if decide (x = 0%R) then Fin 1 else Fin x
  | NaN => NaN
  end.

Definition StandardScaler_fit (X : list cell) : res ScalerParams :=
  a ← check_array X;
  Ok {| mean_ := np.nanmean a;
        scale_ := handle_zeros_in_scale (fsqrt (np.nanvar a)) |}.

(** [StandardScaler.transform]: [X -= mean_; X /= scale_]. *)
Definition standardize (p : ScalerParams) (x : float64) : float64 :=
  np.div (np.sub x (mean_ p)) (scale_ p).

Definition StandardScaler_transform (self : option ScalerParams) (X : list cell)
    : res (list (list float64)) :=
  match self with
  | None => Raise NotFittedError
  | Some p =>
      a ← check_array X;
      Ok ((λ x, [standardize p x]) <$> (a : list float64))
  end.

End sklearn.

(** ** The notebook state and the preparation cells

    The state holds the store and the global variables the cells use:
    [df_train] and [df_test] are references, [imp] is the [statistics_]
    attribute of the Imputer object and [normalizer] the fitted attributes
    of the StandardScaler object ([None] before [fit]). *)

Record Notebook := mkNotebook {
  objects : store;
  df_train : nat;
  df_test : nat;
  imp : option float64;
  normalizer : option sklearn.ScalerParams
}.

(** [df[[c]]] handed to scikit-learn: the cells of the column. *)
Definition column (l : nat) (c : string) : M (list cell) :=
  d ← load l; s ← lift (pd.getitem d c); mret s.*2.

(** Cell "imputing with the mean" (training set):
<<
    imp = Imputer(missing_values=np.NaN, strategy="mean")
    imp.fit(df_train[["DC"]])
    df_train["DC"] = imp.transform(df_train[["DC"]]).ravel()
>> *)
Definition cell_impute_train (nb : Notebook) : res Notebook :=
  '(X, h) ← column (df_train nb) "DC" (objects nb);
  statistics_ ← sklearn.Imputer_fit X;
  '(X', h) ← column (df_train nb) "DC" h;
  Xt ← sklearn.Imputer_transform (Some statistics_) X';
  '(_, h) ← setitem_inplace (df_train nb) "DC" (F <$> sklearn.ravel Xt) h;
  Ok (mkNotebook h (df_train nb) (df_test nb) (Some statistics_) (normalizer nb)).

(** Cell [df_train.dropna(inplace=True)]. *)
Definition cell_dropna_train (nb : Notebook) : res Notebook :=
  '(_, h) ← dropna_inplace (df_train nb) (objects nb);
  Ok (mkNotebook h (df_train nb) (df_test nb) (imp nb) (normalizer nb)).

(** Cell [df_train = outlier_removal(df_train, 120)]. *)
Definition cell_outliers_train (nb : Notebook) : res Notebook :=
  '(l, h) ← outlier_removal (df_train nb) 120 (objects nb);
  Ok (mkNotebook h l (df_test nb) (imp nb) (normalizer nb)).

(** Cell "normalize the DC column" (training set):
<<
    normalizer = StandardScaler()
    normalizer.fit(df_train[["DC"]])
    df_train["DC"] = normalizer.transform(df_train[["DC"]]).ravel()
>> *)
Definition cell_normalize_train (nb : Notebook) : res Notebook :=
  '(X, h) ← column (df_train nb) "DC" (objects nb);
  p ← sklearn.StandardScaler_fit X;
  '(X', h) ← column (df_train nb) "DC" h;
  Xt ← sklearn.StandardScaler_transform (Some p) X';
  '(_, h) ← setitem_inplace (df_train nb) "DC" (F <$> sklearn.ravel Xt) h;
  Ok (mkNotebook h (df_train nb) (df_test nb) (imp nb) (Some p)).

(** Cell [df_train = add_did_it_rain(df_train)]. *)
Definition cell_rain_train (nb : Notebook) : res Notebook :=
  '(l, h) ← add_did_it_rain (df_train nb) (objects nb);
  Ok (mkNotebook h l (df_test nb) (imp nb) (normalizer nb)).

(** The training-set cells, in notebook order. *)
Definition prepare_train (nb : Notebook) : res Notebook :=
  nb ← cell_impute_train nb;
  nb ← cell_dropna_train nb;
  nb ← cell_outliers_train nb;
  nb ← cell_normalize_train nb;
  cell_rain_train nb.

(** Cell "prepare the test set":
<<
    df_test["DC"] = imp.transform(df_test[["DC"]]).ravel()
    df_test.dropna(inplace=True)
    df_test = outlier_removal(df_test, 120)
    df_test["DC"] = normalizer.transform(df_test[["DC"]]).ravel()
    df_test = add_did_it_rain(df_test)
>> *)
Definition prepare_test (nb : Notebook) : res Notebook :=
  '(X, h) ← column (df_test nb) "DC" (objects nb);
  Xt ← sklearn.Imputer_transform (imp nb) X;
  '(_, h) ← setitem_inplace (df_test nb) "DC" (F <$> sklearn.ravel Xt) h;
  '(_, h) ← dropna_inplace (df_test nb) h;
  '(l, h) ← outlier_removal (df_test nb) 120 h;
  '(X, h) ← column l "DC" h;
  Xt ← sklearn.StandardScaler_transform (normalizer nb) X;
  '(_, h) ← setitem_inplace l "DC" (F <$> sklearn.ravel Xt) h;
  '(l, h) ← add_did_it_rain l h;
  Ok (mkNotebook h (df_train nb) l (imp nb) (normalizer nb)).

(** ** The splitter: [sklearn.model_selection.train_test_split]

    [train_test_split(df, test_size, random_state)] draws one permutation
    of the row positions from [RandomState(random_state)], takes the first
    [n_test] positions as the test set and the following [n_train] as the
    training set, and indexes the frame by position.  The generator is a
    parameter: [permutation seed n] stands for
    [RandomState(seed).permutation(n)]. *)

Module model_selection.

(** [n_test = ceil(test_size * n_samples)] for a fractional
    [test_size].  [test_size] is the number the call writes (0.2 in the
    notebook); Python reads it as the nearest float64, and the product
    with the row count is a float64 product, rounded once more, before
    [ceil] is taken. *)
Definition n_test (test_size : Q) (n_samples : nat) : nat :=
  Z.to_nat (Qceiling (np.nearest_float64
    (np.nearest_float64 test_size * inject_Z (Z.of_nat n_samples)))).

(** [df.iloc[positions]] *)
Definition iloc (df : pd.DataFrame) (positions : list nat) : pd.DataFrame :=
  {| pd.columns := pd.columns df;
     pd.rows := omap (λ i, pd.rows df !! i) positions |}.

(** The positions of the two parts, [(ind_train, ind_test)]. *)
Definition shuffle_split (permutation : Z → nat → list nat)
    (n_samples : nat) (test_size : Q) (random_state : Z) : list nat * list nat :=
  let n_test := n_test test_size n_samples in
  let n_train := n_samples - n_test in
  let perm := permutation random_state n_samples in
  (take n_train (drop n_test perm), take n_test perm).

(** A fractional [test_size] has to lie strictly between 0 and 1, and
    the training part must not come out empty. *)
Definition validate (n_samples : nat) (test_size : Q) : res unit :=
  if decide (0 < test_size ∧ test_size < 1)%Q
  then if decide (n_samples - n_test test_size n_samples = 0)
       then Raise ValueError else Ok ()
  else Raise ValueError.

End model_selection.

(** [df_train, df_test = train_test_split(df, test_size=…, random_state=…)]:
    both parts are new objects. *)
Definition train_test_split (permutation : Z → nat → list nat)
    (df : nat) (test_size : Q) (random_state : Z) : M (nat * nat) :=
  d ← load df;
  lift (model_selection.validate (length (pd.rows d)) test_size);;
  let '(ind_train, ind_test) :=
    model_selection.shuffle_split permutation (length (pd.rows d))
                                  test_size random_state in
  train ← new (model_selection.iloc d ind_train);
  test ← new (model_selection.iloc d ind_test);
  mret (train, test).

(** *** Where the permutation comes from

    A numpy [RandomState] object has a state.  [RandomState(seed)]
    builds a new object whose state the seed determines, and
    [permutation(n)] draws a permutation from an object and advances its
    state.  numpy keeps one global [RandomState], which scikit-learn's
    [check_random_state] hands out when [random_state] is [None]; for an
    integer it hands out a new [RandomState(seed)].  The algorithm of the
    generator stays abstract. *)
Record Generator := mkGenerator {
  rng_state : Type;
  RandomState : Z → rng_state;
  rng_permutation : rng_state → nat → list nat * rng_state
}.

(** [check_random_state(random_state).permutation(n)]; [g] is the state
    of the global generator, returned as the call leaves it. *)
Definition draw_permutation (G : Generator) (random_state : option Z)
    (g : rng_state G) (n : nat) : list nat * rng_state G :=
  match random_state with
  | Some seed => ((rng_permutation G (RandomState G seed) n).1, g)
  | None => rng_permutation G g n
  end.

(** The positions of the two parts in a drawn permutation. *)
Definition split_indices (perm : list nat) (n_samples : nat) (test_size : Q)
    : list nat * list nat :=
  let n_test := model_selection.n_test test_size n_samples in
  let n_train := n_samples - n_test in
  (take n_train (drop n_test perm), take n_test perm).

(** [train_test_split(df, test_size=…, random_state=…)] for any
    [random_state], an integer or [None], with the global generator made
    explicit.  The call of the notebook, [train_test_split] above, is the
    case of an integer seed, with [permutation seed n] standing for
    [RandomState(seed).permutation(n)]. *)
Definition train_test_split_any (G : Generator) (df : nat) (test_size : Q)
    (random_state : option Z) (g : rng_state G)
    : M (nat * nat * rng_state G) :=
  d ← load df;
  lift (model_selection.validate (length (pd.rows d)) test_size);;
  let '(perm, g') := draw_permutation G random_state g (length (pd.rows d)) in
  let '(ind_train, ind_test) :=
    split_indices perm (length (pd.rows d)) test_size in
  train ← new (model_selection.iloc d ind_train);
  test ← new (model_selection.iloc d ind_test);
  mret (train, test, g').


(** ** The hyperparameter sweep

    [cross_validate] fits and scores the estimator on five folds.  Its
    outcome depends on the estimator's hyperparameters and on the state of
    the pseudo-random generator behind the random forest, so it is a
    parameter that threads a [World]; the per-fold scores it returns are
    [test_r2] and [test_neg_mean_squared_error], the latter being the
    negated mean squared error of each fold. *)

Record cv_scores := mk_cv_scores {
  test_r2 : list R;
  test_neg_mean_squared_error : list R
}.

(** The mean squared error of each fold. *)
Definition fold_mse (result : cv_scores) : list R :=
  Ropp <$> test_neg_mean_squared_error result.

Section GridSearch.

Context {World : Type}.
Variable cross_validate : Z → Z → World → cv_scores * World.

(** The body of the inner loop:
<<
    rf_model = RandomForestRegressor(n_estimators=n_trees, max_depth=depth)
    result = cross_validate(rf_model, X_train, y_train, cv=5, scoring=[...])
    r2 = np.mean(result["test_r2"])
    RMSE = np.sqrt(-1 * np.mean(result["test_neg_mean_squared_error"]))
    results[(n_trees, depth)] = (r2, RMSE)
>> *)
Definition sweep_body (n_trees depth : Z)
    (st : gmap (Z * Z) (R * R) * World) : gmap (Z * Z) (R * R) * World :=
  let '(result, w) := cross_validate n_trees depth st.2 in
  let r2 := np.mean (test_r2 result) in
  let RMSE := np.sqrt (-1 * np.mean (test_neg_mean_squared_error result)) in
  (<[(n_trees, depth) := (r2, RMSE)]> st.1, w).

(** The two nested [for] loops, starting from [results = {}]. *)
Definition grid_search (tree_grid depth_grid : list Z) (w : World)
    : gmap (Z * Z) (R * R) * World :=
  foldl (λ st n_trees,
           foldl (λ st depth, sweep_body n_trees depth st) st depth_grid)
        (∅, w) tree_grid.

End GridSearch.

(** The grids of the notebook. *)
Definition tree_grid : list Z := [100; 200; 300]%Z.
Definition depth_grid : list Z := [1; 5; 10; 20]%Z.

(** ** The second notebook: [extract_info]

    The OCR response is a JSON value. *)

#[local] Set Warnings "-register-all".

Inductive json :=
  | JNull
  | JBool (b : bool)
  | JNum (x : R)
  | JStr (s : string)
  | JList (l : list json)
  | JDict (d : list (string * json)).

(** [d[k]] for a string key: only a dict can be subscripted by a string,
    and the key must be present. *)
Fixpoint dict_get (d : list (string * json)) (k : string) : option json :=
  match d with
  | [] => None
  | (k', v) :: d' => if decide (k' = k) then Some v else dict_get d' k
  end.

Definition json_getitem (j : json) (k : string) : res json :=
  match j with
  | JDict d => match dict_get d k with Some v => Ok v | None => Raise KeyError end
  | _ => Raise TypeError
  end.

(** [for x in j]: a list yields its items, a dict its keys, a string its
    characters; anything else is not iterable. *)
Definition json_iter (j : json) : res (list json) :=
  match j with
  | JList l => Ok l
  | JDict d => Ok (JStr <$> d.*1)
  | JStr s => Ok ((λ c, JStr (String c EmptyString)) <$> String.list_ascii_of_string s)
  | _ => Raise TypeError
  end.

(** A [for] loop over a list with a body that may raise. *)
Fixpoint res_foldM {A B} (f : B → A → res B) (b : B) (l : list A) : res B :=
  match l with
  | [] => Ok b
  | a :: l' => b' ← f b a; res_foldM f b' l'
  end.

(** [extract_info(analysis)]:
<<
    line_infos = [region["lines"] for region in analysis["regions"]]
    word_infos = []
    for line in line_infos:
        for word_metadata in line:
            for word_info in word_metadata["words"]:
                word_infos.append(word_info)
    return word_infos
>> *)
Definition extract_info (analysis : json) : res (list json) :=
  regions ← json_getitem analysis "regions" ≫= json_iter;
  line_infos ← res_mapM (λ region, json_getitem region "lines") regions;
  res_foldM (λ word_infos line,
    lines ← json_iter line;
    res_foldM (λ word_infos word_metadata,
      words ← json_getitem word_metadata "words" ≫= json_iter;
      res_foldM (λ word_infos word_info, Ok (word_infos ++ [word_info]))
                word_infos words)
      word_infos lines)
    [] line_infos.

(** ** Vocabulary of the statements *)

(** The value of a cell exceeds [τ] (a NaN never does), or is at most [τ]. *)
Definition exceeds (v : cell) (τ : R) : Prop :=
  ∃ x, v = F (Fin x) ∧ (x > τ)%R.
Definition at_most (v : cell) (τ : R) : Prop :=
  ∃ x, v = F (Fin x) ∧ (x <= τ)%R.

(** The cell holds a number or NaN, no text. *)
Definition numeric (v : cell) : Prop := ∃ x, v = F x.

(** A transform that is handed a Table leaves that Table as it was. *)
Definition leaves_argument_unchanged {A} (f : nat → M A) : Prop :=
  ∀ (h h' : store) (df : nat) (T : pd.DataFrame) (a : A),
    h !! df = Some T → f df h = Ok (a, h') → h' !! df = Some T.

(** A transform that returns a new Table: the reference it returns was
    not in use before, and every Table the store held, the one handed in
    included, is as it was. *)
Definition returns_new_table (f : nat → M nat) : Prop :=
  ∀ (h h' : store) (df l : nat),
    f df h = Ok (l, h') →
    is_Some (h !! df) ∧ h !! l = None ∧ is_Some (h' !! l)
    ∧ ∀ l', l' ≠ l → h' !! l' = h !! l'.

(** A transform that works in place: under the reference it is handed,
    the Table [T] is replaced by the Table [g T], and nothing else in the
    store changes. *)
Definition updates_in_place {A} (f : nat → M A)
    (g : pd.DataFrame → res pd.DataFrame) : Prop :=
  ∀ (h h' : store) (df : nat) (a : A),
    f df h = Ok (a, h') →
    ∃ T T' : pd.DataFrame,
      h !! df = Some T ∧ g T = Ok T' ∧ h' = <[df := T']> h.

(** A transform changes no Table but the one it is handed. *)
Definition leaves_others_unchanged {A} (f : nat → M A) : Prop :=
  ∀ (h h' : store) (df l : nat) (a : A),
    f df h = Ok (a, h') → l ≠ df → is_Some (h !! l) → h' !! l = h !! l.

(** The non-missing numbers of a column. *)
Definition observed (X : list cell) : list R :=
  omap (λ v, match v with F (Fin x) => Some x | _ => None end) X.

(** The column [c] of a Table, as cells. *)
Definition column_of (T : pd.DataFrame) (c : string) : list cell :=
  (λ ir : pd.row, pd.cell_at ir.2 c) <$> pd.rows T.

(** The Table with [f] applied to every number of column [c]. *)
Definition float_of (v : cell) : float64 :=
  match v with F x => x | Str _ => NaN end.

Definition map_column (c : string) (f : float64 → float64) (T : pd.DataFrame)
    : pd.DataFrame :=
  {| pd.columns := pd.columns T;
     pd.rows := (λ ir : pd.row,
                   (ir.1, <[c := F (f (float_of (pd.cell_at ir.2 c)))]> ir.2))
                <$> pd.rows T |}.

(** ** The preparation steps as functions of one Table

    What each step computes from the Table it works on, without the
    store: the cells above are shown to compute exactly this on the
    object their variable refers to. *)

Definition fit_imputer (T : pd.DataFrame) : res float64 :=
  X ← pd.getitem T "DC"; sklearn.Imputer_fit X.*2.

Definition impute_frame (statistics_ : option float64) (T : pd.DataFrame)
    : res pd.DataFrame :=
  X ← pd.getitem T "DC";
  Xt ← sklearn.Imputer_transform statistics_ X.*2;
  pd.setitem T "DC" (F <$> sklearn.ravel Xt).

Definition outliers_removed (T : pd.DataFrame) (threshold : R) : res pd.DataFrame :=
  ffmc ← pd.getitem T "FFMC";
  rows_to_remove ← res_mapM
     (λ iv : nat * cell, b ← pd.gt iv.2 threshold; Ok (iv.1, b)) ffmc;
  Ok (pd.drop T (pd.mask_index rows_to_remove)).

Definition fit_scaler (T : pd.DataFrame) : res sklearn.ScalerParams :=
  X ← pd.getitem T "DC"; sklearn.StandardScaler_fit X.*2.

Definition scale_frame (normalizer : option sklearn.ScalerParams)
    (T : pd.DataFrame) : res pd.DataFrame :=
  X ← pd.getitem T "DC";
  Xt ← sklearn.StandardScaler_transform normalizer X.*2;
  pd.setitem T "DC" (F <$> sklearn.ravel Xt).

Definition rain_frame (T : pd.DataFrame) : res pd.DataFrame :=
  rain ← pd.getitem T "rain";
  pd.setitem T "did_it_rain" (pd.where_ pd.eq_zero (F (Fin 1)) <$> rain.*2).

(** The statistics fitted on a training Table [T]: the imputation mean of
    its DC column, and the mean and scale of the DC column after
    imputation, [dropna] and outlier removal. *)
Definition train_statistics (T : pd.DataFrame)
    : res (float64 * sklearn.ScalerParams) :=
  statistics_ ← fit_imputer T;
  T1 ← impute_frame (Some statistics_) T;
  T2 ← outliers_removed (pd.dropna T1) 120;
  p ← fit_scaler T2;
  Ok (statistics_, p).

(** The prepared training Table, with the statistics fitted on the way. *)
Definition train_prepared (T : pd.DataFrame)
    : res (pd.DataFrame * float64 * sklearn.ScalerParams) :=
  statistics_ ← fit_imputer T;
  T1 ← impute_frame (Some statistics_) T;
  T2 ← outliers_removed (pd.dropna T1) 120;
  p ← fit_scaler T2;
  T3 ← scale_frame (Some p) T2;
  T4 ← rain_frame T3;
  Ok (T4, statistics_, p).

(** The prepared test Table, given the fitted objects. *)
Definition test_prepared (imp : option float64)
    (normalizer : option sklearn.ScalerParams) (T : pd.DataFrame)
    : res pd.DataFrame :=
  T1 ← impute_frame imp T;
  T2 ← outliers_removed (pd.dropna T1) 120;
  T3 ← scale_frame normalizer T2;
  rain_frame T3.


(** Every cell of column [c] holds a number or NaN. *)
Definition numeric_column (T : pd.DataFrame) (c : string) : Prop :=
  ∀ ir : pd.row, ir ∈ pd.rows T → numeric (pd.cell_at ir.2 c).

(** A Table the preparation steps accept: it has the columns they read,
    DC and FFMC hold numbers, its index labels are unique, and one row at
    least survives [dropna] and the outlier filter. *)
Definition preparable (T : pd.DataFrame) : Prop :=
  "DC" ∈ pd.columns T ∧ "FFMC" ∈ pd.columns T ∧ "rain" ∈ pd.columns T
  ∧ numeric_column T "DC" ∧ numeric_column T "FFMC"
  ∧ NoDup (pd.index T)
  ∧ ∃ ir : pd.row,
      ir ∈ pd.rows T
      ∧ (∀ c, c ∈ pd.columns T → c ≠ "DC" → pd.cell_at ir.2 c ≠ F NaN)
      ∧ at_most (pd.cell_at ir.2 "FFMC") 120.

(** ** Sample data *)

(** An OCR response with one region of two lines. *)
Definition word (box text : string) : json :=
  JDict [("boundingBox", JStr box); ("text", JStr text)].

Definition sample_line0 : json :=
  JDict [("boundingBox", JStr "28,16,288,41");
         ("words", JList [word "28,16,98,41" "NOTHING"; word "134,16,90,41" "EXISTS"])].

Definition sample_line1 : json :=
  JDict [("boundingBox", JStr "27,66,283,52");
         ("words", JList [word "27,66,71,52" "EXCEPT"])].

Definition sample_region : json :=
  JDict [("boundingBox", JStr "21,16,304,451");
         ("lines", JList [sample_line0; sample_line1])].

Definition sample_analysis : json :=
  JDict [("language", JStr "en"); ("textAngle", JNum 0);
         ("orientation", JStr "Up"); ("regions", JList [sample_region])].

(** A frame with the columns the preparation cells use. *)
Definition schema : list string := ["FFMC"; "DC"; "rain"; "area"].

Definition mkrow (ffmc dc rain area : float64) : gmap string cell :=
  <["FFMC" := F ffmc]> (<["DC" := F dc]> (<["rain" := F rain]>
    (<["area" := F area]> ∅))).

(** Row 2 repeats row 0, row 1 is an outlier, row 3 misses its DC. *)
Definition sample_df : pd.DataFrame :=
  {| pd.columns := schema;
     pd.rows := [(0, mkrow (Fin 90) (Fin 10) (Fin 0) (Fin 0));
                 (1, mkrow (Fin 130) (Fin 20) (Fin 2) (Fin 1));
                 (2, mkrow (Fin 90) (Fin 10) (Fin 0) (Fin 0));
                 (3, mkrow (Fin 120) NaN (Fin 0) (Fin 3))] |}.

(** A stub [cross_validate] whose five folds have the mean squared errors
    1, 4, 9, 16 and 25, and sample R² scores. *)
Definition stub_scores : cv_scores :=
  {| test_r2 := [0; 0; 0; 0; 0]%R;
     test_neg_mean_squared_error := [-1; -4; -9; -16; -25]%R |}.

Definition stub_cross_validate (n_trees depth : Z) (w : unit) : cv_scores * unit :=
  (stub_scores, w).

(** A stand-in for the pseudo-random generator: the identity permutation
    for an even seed, the reversed one for an odd seed. *)
Definition sample_permutation (seed : Z) (n : nat) : list nat :=
  if Z.even seed then seq 0 n else reverse (seq 0 n).

(** A stand-in for numpy's generators: the state is a counter, the
    seed sets it, and every draw advances it. *)
Definition sample_generator : Generator :=
  {| rng_state := Z;
     RandomState := λ seed, seed;
     rng_permutation := λ g n, (sample_permutation g n, (g + 1)%Z) |}.

(** Six rows, labelled 0 to 5. *)
Definition six_rows : pd.DataFrame :=
  {| pd.columns := ["area"];
     pd.rows := (λ i : nat, (i, {["area" := F (Fin (INR i))]})) <$> seq 0 6 |}.

(** A hundred rows, labelled 0 to 99. *)
Definition hundred_rows : pd.DataFrame :=
  {| pd.columns := ["area"];
     pd.rows := (λ i : nat, (i, {["area" := F (Fin (INR i))]})) <$> seq 0 100 |}.

(** Four rows with a text column, one of its values missing. *)
Definition months : pd.DataFrame :=
  {| pd.columns := ["month"; "area"];
     pd.rows := [(0, {["month" := Str "sep"; "area" := F (Fin 1)]});
                 (1, {["month" := Str "aug"; "area" := F (Fin 2)]});
                 (2, {["month" := F NaN; "area" := F (Fin 3)]});
                 (3, {["month" := Str "sep"; "area" := F (Fin 4)]})] |}.

(** Two test frames with different contents. *)
Definition sample_test : pd.DataFrame :=
  {| pd.columns := schema;
     pd.rows := [(4, mkrow (Fin 95) NaN (Fin 1) (Fin 2));
                 (5, mkrow (Fin 80) (Fin 400) (Fin 0) (Fin 0))] |}.

Definition other_test : pd.DataFrame :=
  {| pd.columns := schema;
     pd.rows := [(4, mkrow (Fin 70) (Fin 1000) (Fin 3) (Fin 9))] |}.


Definition constant_df : pd.DataFrame :=
  {| pd.columns := schema;
     pd.rows := [(0, mkrow (Fin 90) (Fin 5) (Fin 0) (Fin 0));
                 (1, mkrow (Fin 91) (Fin 5) (Fin 0) (Fin 1))] |}.

(** The notebook right after the split: the training Table is object 0,
    the test Table object 1, nothing is fitted yet. *)
Definition notebook (train test : pd.DataFrame) : Notebook :=
  mkNotebook {[0 := train; 1 := test]} 0 1 None None.

(** ** Further steps of the first notebook *)

(** [df.drop(labels=c, axis=1)]: the column goes, from the schema and
    from every row; a label that is no column is a [KeyError] (in old
    pandas releases it was a [ValueError]). *)
Definition drop_column (T : pd.DataFrame) (c : string) : res pd.DataFrame :=
  if decide (c ∈ pd.columns T)
  then Ok {| pd.columns := filter (λ c', c' ≠ c) (pd.columns T);
             pd.rows := (λ ir : pd.row, (ir.1, delete c ir.2)) <$> pd.rows T |}
  else Raise KeyError.

(** Cell [df.drop(labels="day", axis=1, inplace=True)]. *)
Definition drop_column_inplace (df : nat) (c : string) : M unit :=
  d ← load df; d' ← lift (drop_column d c); update df d'.

(** The cells that define the feature matrix and the target vector:
<<
    X_train = df_train.drop("area", axis=1)
    y_train = df_train["area"]
>>
    [drop] without [inplace] returns a new frame; the target is a Series
    that carries the index labels. *)
Definition features_target (df : nat) : M (nat * list (nat * cell)) :=
  d ← load df;
  X ← lift (drop_column d "area");
  X_ref ← new X;
  y ← lift (pd.getitem d "area");
  mret (X_ref, y).

(** An OCR response whose first region has a ['lines'] entry that is no
    list and whose second region has no ['lines'] entry at all. *)
Definition broken_analysis : json :=
  JDict [("regions",
          JList [JDict [("lines", JNum 1)];
                 JDict [("boundingBox", JStr "0,0,1,1")]])].

(** The bodies of the two outer loops of [extract_info]: the loop over the
    lines of one region, and the loop over the regions. *)
Definition words_of_line (word_infos : list json) (word_metadata : json)
    : res (list json) :=
  words ← json_getitem word_metadata "words" ≫= json_iter;
  res_foldM (λ word_infos word_info, Ok (word_infos ++ [word_info]))
            word_infos words.

Definition words_of_region (word_infos : list json) (line : json)
    : res (list json) :=
  lines ← json_iter line; res_foldM words_of_line word_infos lines.

(** A Table with a single row. *)
Definition one_row : pd.DataFrame :=
  {| pd.columns := ["area"]; pd.rows := [(0, {["area" := F (Fin 1)]})] |}.

(** * Properties *)

(** ** Generic facts about the loops *)

Lemma res_mapM_Forall2 {A B} (f : A → res B) (l : list A) (k : list B) :
  Forall2 (λ a b, f a = Ok b) l k → res_mapM f l = Ok k.
Proof.
  induction 1 as [|a b l k Hab _ IH]; [done|].
  cbn. rewrite Hab. cbn. rewrite IH. done.
Qed.

Lemma res_foldM_append {A} (acc l : list A) :
  res_foldM (λ word_infos word_info, Ok (word_infos ++ [word_info])) acc l
  = Ok (acc ++ l).
Proof.
  revert acc. induction l as [|a l IH]; intros acc; cbn.
  - by rewrite app_nil_r.
  - rewrite IH. by rewrite <- app_assoc.
Qed.

(** ** [extract_info] *)

(** The loop over the lines of one region. *)
Lemma extract_info_lines (acc : list json) (lines : list json)
    (wordss : list (list json)) :
  Forall2 (λ line words, json_getitem line "words" = Ok (JList words))
          lines wordss →
  res_foldM (λ word_infos word_metadata,
      words ← json_getitem word_metadata "words" ≫= json_iter;
      res_foldM (λ word_infos word_info, Ok (word_infos ++ [word_info]))
                word_infos words) acc lines
  = Ok (acc ++ concat wordss).
Proof.
  intros H. revert acc.
  induction H as [|line words lines wordss Hw _ IH]; intros acc; cbn.
  - by rewrite app_nil_r.
  - rewrite Hw. cbn. rewrite res_foldM_append. cbn.
    rewrite IH. by rewrite <- app_assoc.
Qed.

(** The loop over [line_infos]. *)
Lemma extract_info_regions (acc : list json) (liness : list (list json))
    (wordsss : list (list (list json))) :
  Forall2 (Forall2 (λ line words,
                      json_getitem line "words" = Ok (JList words)))
          liness wordsss →
  res_foldM (λ word_infos line,
    lines ← json_iter line;
    res_foldM (λ word_infos word_metadata,
      words ← json_getitem word_metadata "words" ≫= json_iter;
      res_foldM (λ word_infos word_info, Ok (word_infos ++ [word_info]))
                word_infos words)
      word_infos lines) acc (JList <$> liness)
  = Ok (acc ++ concat (concat wordsss)).
Proof.
  intros H. revert acc.
  induction H as [|lines wordss liness wordsss H _ IH]; intros acc; cbn.
  - by rewrite app_nil_r.
  - rewrite (extract_info_lines acc lines wordss H). cbn.
    rewrite IH, concat_app. by rewrite <- app_assoc.
Qed.

(** C10: when the analysis has a ['regions'] list, every region a
    ['lines'] list and every line a ['words'] list, [extract_info] returns
    the word entries of all lines of all regions, concatenated in region
    order, line order and word order; every word entry occurs in the
    result as often as in the input (the result has as many entries as
    there are word entries).  [analysis] is only read: the function
    builds a new list and returns nothing else. *)
Theorem extract_info_concat (analysis : json) (regions : list json)
    (liness : list (list json)) (wordsss : list (list (list json))) :
  json_getitem analysis "regions" = Ok (JList regions) →
  Forall2 (λ region lines, json_getitem region "lines" = Ok (JList lines))
          regions liness →
  Forall2 (Forall2 (λ line words,
                      json_getitem line "words" = Ok (JList words)))
          liness wordsss →
  extract_info analysis = Ok (concat (concat wordsss))
  ∧ length (concat (concat wordsss))
    = sum_list (sum_list <$> (fmap length <$> wordsss)).
Proof.
  intros Hr Hl Hw. split.
  - unfold extract_info. rewrite Hr. cbn.
    rewrite (res_mapM_Forall2 _ regions (JList <$> liness)).
    2:{ apply Forall2_fmap_r. exact Hl. }
    cbn. by rewrite (extract_info_regions [] liness wordsss Hw).
  - clear. induction wordsss as [|wordss wordsss IH]; [done|].
    cbn. rewrite concat_app, !length_app, IH. f_equal.
    clear. induction wordss as [|ws wordss IH]; [done|].
    cbn. by rewrite length_app, IH.
Qed.

Lemma extract_info_concat_witness :
  extract_info sample_analysis
  = Ok [word "28,16,98,41" "NOTHING"; word "134,16,90,41" "EXISTS";
        word "27,66,71,52" "EXCEPT"]
  ∧ length [word "28,16,98,41" "NOTHING"; word "134,16,90,41" "EXISTS";
            word "27,66,71,52" "EXCEPT"] = 3.
Proof.
  apply (extract_info_concat sample_analysis [sample_region]
           [[sample_line0; sample_line1]]
           [[[word "28,16,98,41" "NOTHING"; word "134,16,90,41" "EXISTS"];
             [word "27,66,71,52" "EXCEPT"]]]);
    repeat constructor.
Defined.

(** ** Running store computations *)

Lemma load_ok (h : store) (l : nat) (d : pd.DataFrame) :
  h !! l = Some d → load l h = Ok (d, h).
Proof. intros H. unfold load. by rewrite H. Qed.

Lemma bind_ok {A B} (m : M A) (k : A → M B) (h h' : store) (a : A) :
  m h = Ok (a, h') → (m ≫= k) h = k a h'.
Proof. intros H. unfold mbind, M_bind. by rewrite H. Qed.

Lemma bind_inv {A B} (m : M A) (k : A → M B) (h h'' : store) (b : B) :
  (m ≫= k) h = Ok (b, h'') →
  ∃ a h', m h = Ok (a, h') ∧ k a h' = Ok (b, h'').
Proof.
  unfold mbind, M_bind. destruct (m h) as [[a h']|e]; [|done].
  intros H. by exists a, h'.
Qed.

Lemma lift_ok {A} (r : res A) (a : A) (h : store) :
  r = Ok a → lift r h = Ok (a, h).
Proof. by intros ->. Qed.

Lemma lift_inv {A} (r : res A) (a : A) (h h' : store) :
  lift r h = Ok (a, h') → r = Ok a ∧ h' = h.
Proof. unfold lift. destruct r; [|done]. by intros [= -> ->]. Qed.

Lemma load_inv (h h' : store) (l : nat) (d : pd.DataFrame) :
  load l h = Ok (d, h') → h !! l = Some d ∧ h' = h.
Proof. unfold load. destruct (h !! l); [|done]. by intros [= -> ->]. Qed.

Lemma getitem_ok (d : pd.DataFrame) (c : string) :
  c ∈ pd.columns d →
  pd.getitem d c = Ok ((λ ir : pd.row, (ir.1, pd.cell_at ir.2 c)) <$> pd.rows d).
Proof. intros H. unfold pd.getitem. by rewrite decide_True. Qed.

Lemma getitem_inv (d : pd.DataFrame) (c : string) (s : list (nat * cell)) :
  pd.getitem d c = Ok s →
  c ∈ pd.columns d
  ∧ s = (λ ir : pd.row, (ir.1, pd.cell_at ir.2 c)) <$> pd.rows d.
Proof. unfold pd.getitem. case_decide; [|done]. by intros [= <-]. Qed.

Lemma drop_duplicates_inplace_ok (h : store) (df : nat) (T : pd.DataFrame) :
  h !! df = Some T →
  drop_duplicates_inplace df h = Ok ((), <[df := pd.drop_duplicates T]> h).
Proof.
  intros H. unfold drop_duplicates_inplace, mbind, M_bind.
  by rewrite (load_ok h df T H).
Qed.

Lemma dropna_inplace_ok (h : store) (df : nat) (T : pd.DataFrame) :
  h !! df = Some T →
  dropna_inplace df h = Ok ((), <[df := pd.dropna T]> h).
Proof.
  intros H. unfold dropna_inplace, mbind, M_bind.
  by rewrite (load_ok h df T H).
Qed.

Lemma setitem_inplace_ok (h : store) (df : nat) (T T' : pd.DataFrame)
    (c : string) (values : list cell) :
  h !! df = Some T → pd.setitem T c values = Ok T' →
  setitem_inplace df c values h = Ok ((), <[df := T']> h).
Proof.
  intros H HT. unfold setitem_inplace, mbind, M_bind.
  rewrite (load_ok h df T H). unfold lift. by rewrite HT.
Qed.

(** ** Cells of the sample rows *)

Lemma cell_at_insert_eq (r : gmap string cell) (c : string) (v : cell) :
  pd.cell_at (<[c := v]> r) c = v.
Proof. unfold pd.cell_at. by rewrite lookup_insert_eq. Qed.

Lemma cell_at_insert_ne (r : gmap string cell) (c c' : string) (v : cell) :
  c ≠ c' → pd.cell_at (<[c := v]> r) c' = pd.cell_at r c'.
Proof. intros H. unfold pd.cell_at. by rewrite lookup_insert_ne. Qed.

Lemma mkrow_FFMC (ffmc dc rain area : float64) :
  pd.cell_at (mkrow ffmc dc rain area) "FFMC" = F ffmc.
Proof. unfold mkrow. by rewrite cell_at_insert_eq. Qed.

Lemma mkrow_DC (ffmc dc rain area : float64) :
  pd.cell_at (mkrow ffmc dc rain area) "DC" = F dc.
Proof.
  unfold mkrow. rewrite cell_at_insert_ne by done.
  by rewrite cell_at_insert_eq.
Qed.

Lemma mkrow_rain (ffmc dc rain area : float64) :
  pd.cell_at (mkrow ffmc dc rain area) "rain" = F rain.
Proof.
  unfold mkrow. rewrite !cell_at_insert_ne by done.
  by rewrite cell_at_insert_eq.
Qed.

Lemma mkrow_area (ffmc dc rain area : float64) :
  pd.cell_at (mkrow ffmc dc rain area) "area" = F area.
Proof.
  unfold mkrow. rewrite !cell_at_insert_ne by done.
  by rewrite cell_at_insert_eq.
Qed.

Lemma mkrow_numeric (ffmc dc rain area : float64) (c : string) :
  numeric (pd.cell_at (mkrow ffmc dc rain area) c).
Proof.
  unfold numeric, pd.cell_at, mkrow.
  destruct (decide (c = "FFMC")) as [->|?]; [by eexists|].
  rewrite lookup_insert_ne by done.
  destruct (decide (c = "DC")) as [->|?]; [by eexists|].
  rewrite lookup_insert_ne by done.
  destruct (decide (c = "rain")) as [->|?]; [by eexists|].
  rewrite lookup_insert_ne by done.
  destruct (decide (c = "area")) as [->|?]; [by eexists|].
  rewrite lookup_insert_ne by done. by eexists.
Qed.

(** Frames built from [mkrow] rows have numeric columns. *)
Ltac numeric_rows :=
  let ir := fresh "ir" in let Hin := fresh "Hin" in
  intros ir Hin; cbn in Hin;
  repeat (apply elem_of_cons in Hin as [->|Hin]);
  [..|by apply elem_of_nil in Hin]; apply mkrow_numeric.

Lemma sample_df_numeric (c : string) : numeric_column sample_df c.
Proof. numeric_rows. Qed.

(** ** Deduplication *)

Section KeepFirst.

Variable cols : list string.

Let key (ir : pd.row) : list cell := pd.row_values cols ir.2.

Lemma keep_first_sublist (seen : list (list cell)) (rs : list pd.row) :
  pd.keep_first cols seen rs `sublist_of` rs.
Proof.
  revert seen. induction rs as [|ir rs IH]; intros seen; cbn; [done|].
  case_decide.
  - by apply sublist_cons.
  - by apply sublist_skip.
Qed.

Lemma keep_first_not_seen (seen : list (list cell)) (rs : list pd.row)
    (ir : pd.row) :
  ir ∈ pd.keep_first cols seen rs → key ir ∉ seen.
Proof.
  revert seen. induction rs as [|ir' rs IH]; intros seen; cbn.
  - by intros ?%elem_of_nil.
  - case_decide as Hseen.
    + apply IH.
    + intros [->|Hin]%elem_of_cons; [done|].
      apply IH in Hin. intros Hk. apply Hin. by right.
Qed.

Lemma keep_first_NoDup (seen : list (list cell)) (rs : list pd.row) :
  NoDup (key <$> pd.keep_first cols seen rs).
Proof.
  revert seen. induction rs as [|ir rs IH]; intros seen; cbn.
  - constructor.
  - case_decide as Hseen; [apply IH|].
    rewrite fmap_cons. constructor; [|apply IH].
    intros (ir' & Hk & Hin)%list_elem_of_fmap.
    apply keep_first_not_seen in Hin. apply Hin.
    fold (key ir) in Hk. rewrite <- Hk. by left.
Qed.

Lemma keep_first_complete (seen : list (list cell)) (rs : list pd.row)
    (ir : pd.row) :
  ir ∈ rs → key ir ∈ seen ∨ key ir ∈ key <$> pd.keep_first cols seen rs.
Proof.
  revert seen. induction rs as [|ir' rs IH]; intros seen; cbn.
  - by intros ?%elem_of_nil.
  - intros [->|Hin]%elem_of_cons.
    + case_decide as Hseen; [by left|].
      right. rewrite fmap_cons. by left.
    + case_decide as Hseen; [by apply IH|].
      destruct (IH (pd.row_values cols ir'.2 :: seen) Hin) as [Hs|Hk].
      * apply elem_of_cons in Hs as [Hs|Hs]; [|by left].
        right. rewrite fmap_cons. fold (key ir') in Hs. rewrite Hs. by left.
      * right. rewrite fmap_cons. by right.
Qed.

End KeepFirst.

(** C7: [df.drop_duplicates(inplace=True)] leaves in [df] a Table with
    the same columns in which no two rows hold the same cells, whose rows
    are rows of the Table it started from, in their original relative
    order (a subsequence); and every row of the old Table still has a row
    with its cells in the new one. *)
Theorem drop_duplicates_spec (h : store) (df : nat) (T : pd.DataFrame) :
  h !! df = Some T →
  ∃ T' : pd.DataFrame,
    drop_duplicates_inplace df h = Ok ((), <[df := T']> h)
    ∧ pd.columns T' = pd.columns T
    ∧ NoDup ((λ ir : pd.row, pd.row_values (pd.columns T) ir.2) <$> pd.rows T')
    ∧ pd.rows T' `sublist_of` pd.rows T
    ∧ (∀ ir : pd.row, ir ∈ pd.rows T' → ir ∈ pd.rows T)
    ∧ (∀ ir : pd.row, ir ∈ pd.rows T →
         pd.row_values (pd.columns T) ir.2
         ∈ (λ ir : pd.row, pd.row_values (pd.columns T) ir.2) <$> pd.rows T').
Proof.
  intros H. exists (pd.drop_duplicates T).
  split; [by apply drop_duplicates_inplace_ok|].
  split; [done|]. cbn.
  split; [apply keep_first_NoDup|].
  split; [apply keep_first_sublist|].
  split.
  - intros ir Hin. eapply elem_of_sublist; [exact Hin|].
    apply keep_first_sublist.
  - intros ir Hin.
    destruct (keep_first_complete (pd.columns T) [] (pd.rows T) ir Hin)
      as [Hs|Hk]; [by apply elem_of_nil in Hs|done].
Qed.

Lemma drop_duplicates_spec_witness :
  ∃ T' : pd.DataFrame,
    drop_duplicates_inplace 0 {[0 := sample_df]}
    = Ok ((), <[0 := T']> {[0 := sample_df]})
    ∧ pd.columns T' = pd.columns sample_df
    ∧ NoDup ((λ ir : pd.row, pd.row_values (pd.columns sample_df) ir.2)
               <$> pd.rows T')
    ∧ pd.rows T' `sublist_of` pd.rows sample_df
    ∧ (∀ ir : pd.row, ir ∈ pd.rows T' → ir ∈ pd.rows sample_df)
    ∧ (∀ ir : pd.row, ir ∈ pd.rows sample_df →
         pd.row_values (pd.columns sample_df) ir.2
         ∈ (λ ir : pd.row, pd.row_values (pd.columns sample_df) ir.2)
             <$> pd.rows T').
Proof.
  apply (drop_duplicates_spec {[0 := sample_df]} 0 sample_df).
  apply lookup_singleton_eq.
Defined.

(** ** Outlier filtering *)

Lemma gt_numeric (v : cell) (τ : R) :
  numeric v → ∃ b, pd.gt v τ = Ok b ∧ (b = true ↔ exceeds v τ).
Proof.
  intros [[x|] ->]; cbn.
  - eexists; split; [done|]. rewrite bool_decide_eq_true. split.
    + intros Hx. by exists x.
    + by intros (y & [= ->] & Hy).
  - eexists; split; [done|]. split; [done|]. by intros (y & [=] & _).
Qed.

(** The boolean Series [dframe["FFMC"] > threshold]. *)
Lemma rows_to_remove_ok (c : string) (τ : R) (rs : list pd.row) :
  (∀ ir : pd.row, ir ∈ rs → numeric (pd.cell_at ir.2 c)) →
  ∃ mask : list (nat * bool),
    res_mapM (λ iv : nat * cell, b ← pd.gt iv.2 τ; Ok (iv.1, b))
             ((λ ir : pd.row, (ir.1, pd.cell_at ir.2 c)) <$> rs) = Ok mask
    ∧ ∀ l, l ∈ pd.mask_index mask ↔
           ∃ ir : pd.row, ir ∈ rs ∧ ir.1 = l ∧ exceeds (pd.cell_at ir.2 c) τ.
Proof.
  induction rs as [|ir rs IH]; intros Hnum.
  - exists []. split; [done|]. intros l. split.
    + by intros ?%elem_of_nil.
    + by intros (ir & ?%elem_of_nil & _).
  - destruct IH as (mask & Hmask & Hlabels).
    { intros ir' Hin. apply Hnum. by right. }
    destruct (gt_numeric (pd.cell_at ir.2 c) τ) as (b & Hb & Hbe).
    { apply Hnum. by left. }
    exists ((ir.1, b) :: mask). split.
    + rewrite fmap_cons. cbn. rewrite Hb. cbn. by rewrite Hmask.
    + intros l. unfold pd.mask_index. rewrite filter_cons. cbn.
      fold (pd.mask_index mask). destruct (decide (b = true)) as [Hbt|Hbf].
      * rewrite fmap_cons, elem_of_cons, Hlabels. cbn. split.
        -- intros [->|(ir' & Hin & Hl & He)].
           ++ exists ir. split; [by left|]. split; [done|]. by apply Hbe.
           ++ exists ir'. split; [by right|]. done.
        -- intros (ir' & [->|Hin]%elem_of_cons & Hl & He).
           ++ by left.
           ++ right. by exists ir'.
      * rewrite Hlabels. split.
        -- intros (ir' & Hin & Hl & He). exists ir'. split; [by right|done].
        -- intros (ir' & [->|Hin]%elem_of_cons & Hl & He).
           ++ by apply Hbe in He.
           ++ by exists ir'.
Qed.

Lemma NoDup_index_inj (rs : list pd.row) (ir ir' : pd.row) :
  NoDup rs.*1 → ir ∈ rs → ir' ∈ rs → ir.1 = ir'.1 → ir = ir'.
Proof.
  induction rs as [|r rs IH]; [by intros _ ?%elem_of_nil|].
  rewrite fmap_cons. intros [Hr Hnd]%NoDup_cons.
  intros [->|Hin]%elem_of_cons [->|Hin']%elem_of_cons Heq; [done| | |by apply IH].
  - exfalso. apply Hr. rewrite Heq. apply list_elem_of_fmap. by exists ir'.
  - exfalso. apply Hr. rewrite <- Heq. apply list_elem_of_fmap. by exists ir.
Qed.

Lemma exceeds_at_most (v : cell) (τ : R) : exceeds v τ → at_most v τ → False.
Proof. intros (x & -> & Hx) (y & [= <-] & Hy). lra. Qed.

(** What [outlier_removal] computes, whatever the index looks like. *)
Lemma outlier_removal_ok (h : store) (dframe : nat) (T : pd.DataFrame) (τ : R) :
  h !! dframe = Some T →
  "FFMC" ∈ pd.columns T →
  (∀ ir : pd.row, ir ∈ pd.rows T → numeric (pd.cell_at ir.2 "FFMC")) →
  ∃ labels : list nat,
    outlier_removal dframe τ h
    = Ok (fresh (dom h), <[fresh (dom h) := pd.drop T labels]> h)
    ∧ ∀ l, l ∈ labels ↔
           ∃ ir : pd.row, ir ∈ pd.rows T ∧ ir.1 = l
                          ∧ exceeds (pd.cell_at ir.2 "FFMC") τ.
Proof.
  intros Hh Hc Hnum.
  destruct (rows_to_remove_ok "FFMC" τ (pd.rows T) Hnum) as (mask & Hmask & Hl).
  exists (pd.mask_index mask). split; [|done].
  unfold outlier_removal.
  erewrite bind_ok; [|by apply load_ok].
  erewrite bind_ok; [|by apply lift_ok, getitem_ok].
  erewrite bind_ok; [|by apply lift_ok, Hmask].
  done.
Qed.




(** On the sample frame the row with FFMC 130 goes and the row with FFMC
    exactly 120 stays. *)
Lemma outlier_removal_sample :
  ∃ (l : nat) (T' : pd.DataFrame),
    outlier_removal 0 120 {[0 := sample_df]}
    = Ok (l, <[l := T']> {[0 := sample_df]})
    ∧ pd.index T' = [0; 2; 3]
    ∧ (λ ir : pd.row, pd.cell_at ir.2 "FFMC") <$> pd.rows T'
      = [F (Fin 90); F (Fin 90); F (Fin 120)].
Proof.
  destruct (outlier_removal_ok {[0 := sample_df]} 0 sample_df 120)
    as (labels & Hrun & Hl).
  - apply lookup_singleton_eq.
  - cbn. unfold schema. set_solver.
  - apply sample_df_numeric.
  - assert (∀ l, l ∈ labels ↔ l = 1) as Hlabels.
    { intros l. rewrite Hl. split.
      - intros (ir & Hin & <- & x & Hx & Hgt). cbn in Hin.
        repeat (apply elem_of_cons in Hin as [->|Hin]);
          [..|by apply elem_of_nil in Hin]; cbn [fst snd] in *; try done;
          exfalso; rewrite mkrow_FFMC in Hx; injection Hx as <-; lra.
      - intros ->. exists (1, mkrow (Fin 130) (Fin 20) (Fin 2) (Fin 1)).
        split; [right; by left|]. split; [done|].
        exists 130%R. cbn [snd]. rewrite mkrow_FFMC. split; [done|lra]. }
    eexists _, _. split; [exact Hrun|].
    unfold pd.index, pd.drop, sample_df. cbn [pd.rows pd.columns].
    rewrite !filter_cons, filter_nil. cbn [fst].
    rewrite (decide_True (P := 0 ∉ labels)) by (rewrite Hlabels; lia).
    rewrite (decide_False (P := 1 ∉ labels)) by (rewrite Hlabels; tauto).
    rewrite (decide_True (P := 2 ∉ labels)) by (rewrite Hlabels; lia).
    rewrite (decide_True (P := 3 ∉ labels)) by (rewrite Hlabels; lia).
    split; [done|]. cbn [fmap list_fmap snd]. by rewrite !mkrow_FFMC.
Qed.

(** ** The derived feature *)

Lemma setitem_from_column (c c0 : string) (w : cell → cell) (rs : list pd.row) :
  zip_with (λ (ir : pd.row) v, (ir.1, <[c := v]> ir.2)) rs
    (w <$> ((λ ir : pd.row, (ir.1, pd.cell_at ir.2 c0)) <$> rs).*2)
  = (λ ir : pd.row, (ir.1, <[c := w (pd.cell_at ir.2 c0)]> ir.2)) <$> rs.
Proof.
  induction rs as [|ir rs IH]; [done|].
  rewrite !fmap_cons. cbn. by rewrite IH.
Qed.

(** What [add_did_it_rain] stores, and where. *)
Lemma add_did_it_rain_ok (h : store) (dframe : nat) (T : pd.DataFrame) :
  h !! dframe = Some T →
  "rain" ∈ pd.columns T →
  add_did_it_rain dframe h
  = Ok (dframe,
        <[dframe :=
           {| pd.columns := if decide ("did_it_rain" ∈ pd.columns T)
                            then pd.columns T
                            else pd.columns T ++ ["did_it_rain"];
              pd.rows := (λ ir : pd.row,
                (ir.1, <["did_it_rain" :=
                          pd.where_ pd.eq_zero (F (Fin 1))
                                    (pd.cell_at ir.2 "rain")]> ir.2))
                <$> pd.rows T |}]> h).
Proof.
  intros Hh Hc. unfold add_did_it_rain.
  erewrite bind_ok; [|by apply load_ok].
  erewrite bind_ok; [|by apply lift_ok, getitem_ok].
  erewrite bind_ok;
    [|eapply setitem_inplace_ok; [exact Hh|]; unfold pd.setitem;
      rewrite decide_True by (by rewrite !length_fmap); reflexivity].
  by rewrite setitem_from_column.
Qed.

Lemma where_eq_zero (v : cell) :
  (v = F (Fin 0) → pd.where_ pd.eq_zero (F (Fin 1)) v = F (Fin 0))
  ∧ (v ≠ F (Fin 0) → pd.where_ pd.eq_zero (F (Fin 1)) v = F (Fin 1)).
Proof.
  unfold pd.where_. split.
  - intros ->. cbn. by rewrite bool_decide_eq_true_2.
  - intros Hv. destruct v as [[x|]|s]; cbn; [|done..].
    rewrite bool_decide_eq_false_2; [done|]. by intros ->.
Qed.

(** C9: for a Table with a ['rain'] column, [add_did_it_rain] puts a
    ['did_it_rain'] column into that Table: row by row its value is 0 when
    the row's rain value equals 0.0 and 1 otherwise; the row keeps its
    index label and the cell of every other column, and every column that
    was there still is. *)
Theorem add_did_it_rain_spec (h : store) (dframe : nat) (T : pd.DataFrame) :
  h !! dframe = Some T →
  "rain" ∈ pd.columns T →
  ∃ T' : pd.DataFrame,
    add_did_it_rain dframe h = Ok (dframe, <[dframe := T']> h)
    ∧ "did_it_rain" ∈ pd.columns T'
    ∧ (∀ c, c ∈ pd.columns T → c ∈ pd.columns T')
    ∧ length (pd.rows T') = length (pd.rows T)
    ∧ ∀ (i : nat) (ir : pd.row), pd.rows T !! i = Some ir →
        ∃ ir' : pd.row,
          pd.rows T' !! i = Some ir'
          ∧ ir'.1 = ir.1
          ∧ (pd.cell_at ir.2 "rain" = F (Fin 0) →
             pd.cell_at ir'.2 "did_it_rain" = F (Fin 0))
          ∧ (pd.cell_at ir.2 "rain" ≠ F (Fin 0) →
             pd.cell_at ir'.2 "did_it_rain" = F (Fin 1))
          ∧ ∀ c, c ≠ "did_it_rain" → ir'.2 !! c = ir.2 !! c.
Proof.
  intros Hh Hc. eexists. split; [by apply add_did_it_rain_ok|]. cbn.
  split; [case_decide; set_solver|].
  split; [intros c Hin; case_decide; set_solver|].
  split; [by rewrite length_fmap|].
  intros i ir Hi. eexists. rewrite list_lookup_fmap, Hi. cbn.
  split; [done|]. split; [done|].
  cbn [fst snd]. rewrite !cell_at_insert_eq.
  destruct (where_eq_zero (pd.cell_at ir.2 "rain")) as [H0 H1].
  split; [exact H0|]. split; [exact H1|].
  intros c Hne. by rewrite lookup_insert_ne.
Qed.

Lemma add_did_it_rain_spec_witness :
  ∃ T' : pd.DataFrame,
    add_did_it_rain 0 {[0 := sample_df]}
    = Ok (0, <[0 := T']> {[0 := sample_df]})
    ∧ "did_it_rain" ∈ pd.columns T'
    ∧ (∀ c, c ∈ pd.columns sample_df → c ∈ pd.columns T')
    ∧ length (pd.rows T') = length (pd.rows sample_df)
    ∧ ∀ (i : nat) (ir : pd.row), pd.rows sample_df !! i = Some ir →
        ∃ ir' : pd.row,
          pd.rows T' !! i = Some ir'
          ∧ ir'.1 = ir.1
          ∧ (pd.cell_at ir.2 "rain" = F (Fin 0) →
             pd.cell_at ir'.2 "did_it_rain" = F (Fin 0))
          ∧ (pd.cell_at ir.2 "rain" ≠ F (Fin 0) →
             pd.cell_at ir'.2 "did_it_rain" = F (Fin 1))
          ∧ ∀ c, c ≠ "did_it_rain" → ir'.2 !! c = ir.2 !! c.
Proof.
  apply (add_did_it_rain_spec {[0 := sample_df]} 0 sample_df).
  - apply lookup_singleton_eq.
  - cbn. unfold schema. set_solver.
Defined.

(** ** In-place updates and new objects *)

Lemma new_inv (d : pd.DataFrame) (h h' : store) (l : nat) :
  new d h = Ok (l, h') → l = fresh (dom h) ∧ h' = <[l := d]> h.
Proof. unfold new. by intros [= <- <-]. Qed.

Lemma update_inv (d : pd.DataFrame) (h h' : store) (l : nat) (u : unit) :
  update l d h = Ok (u, h') → h' = <[l := d]> h.
Proof. unfold update. by intros [= <-]. Qed.

Lemma ret_inv {A} (a b : A) (h h' : store) :
  (mret a : M A) h = Ok (b, h') → b = a ∧ h' = h.
Proof. unfold mret, M_ret. by intros [= <- <-]. Qed.

(** Takes a successful run apart, call by call. *)
Ltac inv_run :=
  repeat match goal with
  | H : (_ ≫= _) _ = Ok _ |- _ =>
      let a := fresh "a" in let h := fresh "h" in let H' := fresh "H" in
      apply bind_inv in H as (a & h & H' & H)
  | H : load _ _ = Ok _ |- _ => apply load_inv in H as [H ->]
  | H : lift _ _ = Ok _ |- _ => apply lift_inv in H as [H ->]
  | H : new _ _ = Ok _ |- _ => apply new_inv in H as [-> ->]
  | H : update _ _ _ = Ok _ |- _ => apply update_inv in H as ->
  | H : mret _ _ = Ok _ |- _ => apply ret_inv in H as [-> ->]
  end.

Lemma drop_duplicates_inplace_inv (h h' : store) (df : nat) (u : unit) :
  drop_duplicates_inplace df h = Ok (u, h') →
  ∃ T, h !! df = Some T ∧ h' = <[df := pd.drop_duplicates T]> h.
Proof. unfold drop_duplicates_inplace. intros H. inv_run. eauto. Qed.

Lemma dropna_inplace_inv (h h' : store) (df : nat) (u : unit) :
  dropna_inplace df h = Ok (u, h') →
  ∃ T, h !! df = Some T ∧ h' = <[df := pd.dropna T]> h.
Proof. unfold dropna_inplace. intros H. inv_run. eauto. Qed.

Lemma setitem_inplace_inv (h h' : store) (df : nat) (c : string)
    (values : list cell) (u : unit) :
  setitem_inplace df c values h = Ok (u, h') →
  ∃ T T', h !! df = Some T ∧ pd.setitem T c values = Ok T'
          ∧ h' = <[df := T']> h.
Proof. unfold setitem_inplace. intros H. inv_run. eauto. Qed.

Lemma add_did_it_rain_inv (h h' : store) (dframe l : nat) :
  add_did_it_rain dframe h = Ok (l, h') →
  ∃ T T', h !! dframe = Some T ∧ l = dframe ∧ h' = <[dframe := T']> h.
Proof.
  unfold add_did_it_rain. intros H. inv_run.
  match goal with
  | H : setitem_inplace _ _ _ _ = Ok _ |- _ =>
      apply setitem_inplace_inv in H as (T & T' & HT & _ & ->)
  end. eauto.
Qed.

Lemma outlier_removal_inv (h h' : store) (dframe l : nat) (τ : R) :
  outlier_removal dframe τ h = Ok (l, h') →
  ∃ T T', h !! dframe = Some T ∧ l = fresh (dom h) ∧ h' = <[l := T']> h.
Proof. unfold outlier_removal. intros H. inv_run. eauto. Qed.

Lemma fresh_lookup_ne (h : store) (l : nat) :
  is_Some (h !! l) → fresh (dom h) ≠ l.
Proof.
  intros Hl Heq. apply elem_of_dom in Hl. rewrite <- Heq in Hl.
  by apply is_fresh in Hl.
Qed.

(** ** The hyperparameter sweep *)

Lemma sum_opp (a : list R) : np.sum (Ropp <$> a) = (- np.sum a)%R.
Proof.
  induction a as [|x a IH]; cbn.
  - lra.
  - unfold np.sum in IH. rewrite IH. lra.
Qed.

Lemma mean_opp (a : list R) : np.mean (Ropp <$> a) = (- np.mean a)%R.
Proof.
  unfold np.mean. rewrite sum_opp, length_fmap. unfold Rdiv. ring.
Qed.

(** The root of the negated mean of the negated errors is the root of the
    mean of the errors. *)
Lemma rmse_fold_mse (result : cv_scores) :
  np.sqrt (-1 * np.mean (test_neg_mean_squared_error result))
  = np.sqrt (np.mean (fold_mse result)).
Proof. unfold fold_mse. rewrite mean_opp. f_equal. ring. Qed.

Lemma foldl_preserve {A S} (f : S → A → S) (P : S → Prop) (l : list A) (s : S) :
  (∀ s y, P s → P (f s y)) → P s → P (foldl f s l).
Proof.
  intros Hf. revert s. induction l as [|y l IH]; intros s Hs; cbn; auto.
Qed.

Lemma foldl_establish {A S} (f : S → A → S) (Q : A → S → Prop)
    (l : list A) (s : S) (x : A) :
  (∀ s, Q x (f s x)) → (∀ s y, Q x s → Q x (f s y)) →
  x ∈ l → Q x (foldl f s l).
Proof.
  intros Hx Hf. revert s. induction l as [|y l IH]; intros s Hin; cbn.
  - by apply elem_of_nil in Hin.
  - apply elem_of_cons in Hin as [<-|Hin]; [|by apply IH].
    apply (foldl_preserve f (Q x)); auto.
Qed.

Section GridSearchFacts.

Context {World : Type}.
Variable cross_validate : Z → Z → World → cv_scores * World.

(** The entry of a hyperparameter tuple holds the metrics of one
    cross-validation of that tuple. *)
Definition recorded (st : gmap (Z * Z) (R * R) * World) (n_trees depth : Z) : Prop :=
  ∃ w0 : World,
    st.1 !! (n_trees, depth)
    = Some (np.mean (test_r2 (cross_validate n_trees depth w0).1),
            np.sqrt (-1 * np.mean (test_neg_mean_squared_error
                                     (cross_validate n_trees depth w0).1))).

Lemma sweep_body_records (st : gmap (Z * Z) (R * R) * World) (n_trees depth : Z) :
  recorded (sweep_body cross_validate n_trees depth st) n_trees depth.
Proof.
  exists st.2. unfold sweep_body.
  destruct (cross_validate n_trees depth st.2) as [result w]. cbn.
  by rewrite lookup_insert_eq.
Qed.

Lemma sweep_body_keeps (st : gmap (Z * Z) (R * R) * World)
    (n_trees depth n_trees' depth' : Z) :
  recorded st n_trees' depth' →
  recorded (sweep_body cross_validate n_trees depth st) n_trees' depth'.
Proof.
  intros Hrec.
  destruct (decide ((n_trees, depth) = (n_trees', depth'))) as [[= <- <-]|Hne].
  - apply sweep_body_records.
  - destruct Hrec as [w0 Hw0]. exists w0. unfold sweep_body.
    destruct (cross_validate n_trees depth st.2) as [result w]. cbn.
    by rewrite lookup_insert_ne.
Qed.

Lemma grid_search_records (tree_grid depth_grid : list Z) (w : World)
    (n_trees depth : Z) :
  n_trees ∈ tree_grid → depth ∈ depth_grid →
  recorded (grid_search cross_validate tree_grid depth_grid w) n_trees depth.
Proof.
  intros Ht Hd. unfold grid_search.
  apply (foldl_establish _ (λ t st, recorded st t depth)); [| |done].
  - intros st.
    apply (foldl_establish _ (λ d st, recorded st n_trees d)); [| |done].
    + intros st'. apply sweep_body_records.
    + intros st' d'. apply sweep_body_keeps.
  - intros st t' Hrec.
    apply (foldl_preserve _ (λ st, recorded st n_trees depth)); [|done].
    intros st' d'. apply sweep_body_keeps.
Qed.

End GridSearchFacts.

Lemma sqrt_11_not_3 : np.sqrt 11 ≠ 3%R.
Proof.
  unfold np.sqrt. intros H.
  assert (sqrt 11 * sqrt 11 = 11)%R as Hsq by (apply sqrt_sqrt; lra).
  rewrite H in Hsq. lra.
Qed.

Lemma sqrt_of_square (x : R) : (0 <= x)%R → np.sqrt (x * x) = x.
Proof. intros Hx. unfold np.sqrt. by apply sqrt_square. Qed.

(** C2: for every hyperparameter tuple of the grid, the sweep records
    the mean of the per-fold R² scores and, as RMSE, the square root of
    the mean of the per-fold mean squared errors of one cross-validation
    of that tuple.  When the fold errors are 1, 4, 9, 16 and 25 the
    recorded RMSE is sqrt(11), which is not 3, the mean of the roots. *)
Theorem grid_search_rmse {World : Type}
    (cross_validate : Z → Z → World → cv_scores * World)
    (tree_grid depth_grid : list Z) (w : World) (n_trees depth : Z) :
  n_trees ∈ tree_grid → depth ∈ depth_grid →
  ∃ (w0 : World) (r2 RMSE : R),
    (grid_search cross_validate tree_grid depth_grid w).1 !! (n_trees, depth)
    = Some (r2, RMSE)
    ∧ r2 = np.mean (test_r2 (cross_validate n_trees depth w0).1)
    ∧ RMSE = np.sqrt (np.mean (fold_mse (cross_validate n_trees depth w0).1))
    ∧ (fold_mse (cross_validate n_trees depth w0).1 = [1; 4; 9; 16; 25]%R →
       RMSE = np.sqrt 11
       ∧ RMSE ≠ 3%R
       ∧ np.mean (np.sqrt <$> fold_mse (cross_validate n_trees depth w0).1)
         = 3%R).
Proof.
  intros Ht Hd.
  destruct (grid_search_records cross_validate tree_grid depth_grid w
              n_trees depth Ht Hd) as [w0 Hw0].
  exists w0. eexists _, _. split; [exact Hw0|].
  split; [done|]. split; [apply rmse_fold_mse|].
  intros Hmse. rewrite rmse_fold_mse, Hmse.
  assert (np.mean [1; 4; 9; 16; 25]%R = 11%R) as ->.
  { unfold np.mean, np.sum. cbn. lra. }
  split; [done|]. split; [apply sqrt_11_not_3|].
  cbn [fmap list_fmap].
  replace 4%R with (2 * 2)%R by lra. replace 9%R with (3 * 3)%R by lra.
  replace 16%R with (4 * 4)%R by lra. replace 25%R with (5 * 5)%R by lra.
  replace 1%R with (1 * 1)%R at 1 by lra.
  rewrite !sqrt_of_square by lra.
  unfold np.mean, np.sum. cbn. lra.
Qed.

(** The stub's fold errors are 1, 4, 9, 16 and 25. *)
Lemma stub_fold_mse : fold_mse stub_scores = [1; 4; 9; 16; 25]%R.
Proof.
  unfold fold_mse, stub_scores. cbn.
  repeat f_equal; lra.
Qed.

Lemma grid_search_rmse_witness :
  ∃ r2 RMSE : R,
    (grid_search stub_cross_validate tree_grid depth_grid ()).1 !! (200, 5)%Z
    = Some (r2, RMSE)
    ∧ RMSE = np.sqrt 11 ∧ RMSE ≠ 3%R.
Proof.
  destruct (grid_search_rmse stub_cross_validate tree_grid depth_grid ()
              200 5) as (w0 & r2 & RMSE & Hrec & _ & _ & Hinst);
    [unfold tree_grid; set_solver|unfold depth_grid; set_solver|].
  exists r2, RMSE. split; [exact Hrec|].
  destruct (Hinst stub_fold_mse) as (H11 & H3 & _). by split.
Defined.


(** ** The splitter *)



Lemma length_iloc (T : pd.DataFrame) (positions : list nat) :
  Forall (λ i, i < length (pd.rows T)) positions →
  length (pd.rows (model_selection.iloc T positions)) = length positions.
Proof.
  cbn. induction 1 as [|i positions Hi _ IH]; [done|]. cbn.
  destruct (lookup_lt_is_Some_2 _ _ Hi) as [ir Hir]. rewrite Hir. cbn.
  by rewrite IH.
Qed.

(** *** The float64 product behind the test count *)

Lemma pow2_max_pos (k : Z) : (0 < 2 ^ Z.max 0 k)%Z.
Proof. apply Z.pow_pos_nonneg; lia. Qed.

Lemma round_half_even_upper (n d : Z) :
  (0 < d)%Z → (2 * np.round_half_even n d * d <= 2 * n + d)%Z.
Proof.
  intros Hd. unfold np.round_half_even.
  pose proof (Z.div_mod n d ltac:(lia)) as Hdm.
  pose proof (Z.mod_pos_bound n d Hd) as Hr.
  destruct (Z.compare_spec (2 * (n mod d)) d) as [He|Hl|Hg];
    [destruct (Z.even (n / d))|..]; nia.
Qed.

Lemma round_half_even_lower (n d : Z) :
  (0 < d)%Z → (n / d <= np.round_half_even n d)%Z.
Proof.
  intros Hd. unfold np.round_half_even.
  destruct (Z.compare_spec (2 * (n mod d)) d) as [He|Hl|Hg];
    [destruct (Z.even (n / d))|..]; lia.
Qed.

(** Rounding does not step over an integer. *)
Lemma round_half_even_le (n d K : Z) :
  (0 < d)%Z → (n <= K * d)%Z → (np.round_half_even n d <= K)%Z.
Proof.
  intros Hd HK. unfold np.round_half_even.
  pose proof (Z.div_mod n d ltac:(lia)) as Hdm.
  pose proof (Z.mod_pos_bound n d Hd) as Hr.
  assert (n / d <= K)%Z as Hf by nia.
  assert (0 < n mod d → n / d + 1 <= K)%Z as Hf1 by nia.
  destruct (Z.compare_spec (2 * (n mod d)) d) as [He|Hl|Hg];
    [destruct (Z.even (n / d))|..]; lia.
Qed.

Lemma exponent_spec (a b : Z) :
  (0 < a)%Z → (0 < b)%Z →
  let e := np.exponent a b in
  (2 ^ 52 * (np.scaled a b e).2 <= (np.scaled a b e).1
   ∧ (np.scaled a b e).1 < 2 ^ 53 * (np.scaled a b e).2)%Z.
Proof.
  intros Ha Hb. unfold np.exponent.
  pose proof (Z.log2_spec a Ha) as [Hla1 Hla2].
  pose proof (Z.log2_spec b Hb) as [Hlb1 Hlb2].
  pose proof (Z.log2_nonneg a) as Hla0.
  pose proof (Z.log2_nonneg b) as Hlb0.
  set (la := Z.log2 a) in *. set (lb := Z.log2 b) in *.
  rewrite Z.pow_succ_r in Hla2, Hlb2 by done.
  set (e1 := (la - lb - 53)%Z).
  assert (2 ^ 52 * (np.scaled a b e1).2 < (np.scaled a b e1).1
          ∧ (np.scaled a b e1).1 < 2 ^ 54 * (np.scaled a b e1).2)%Z as [HA HB].
  { unfold np.scaled. cbn [fst snd].
    destruct (Z_lt_le_dec e1 0) as [Hneg|Hpos].
    - rewrite (Z.max_l 0 e1), (Z.max_r 0 (- e1)) by lia.
      rewrite Z.pow_0_r, Z.mul_1_r.
      assert (2 ^ la * 2 ^ (- e1) = 2 ^ 53 * 2 ^ lb)%Z as Hp.
      { rewrite <- !Z.pow_add_r by lia. f_equal. lia. }
      pose proof (pow2_max_pos (- e1)) as Hpe.
      rewrite (Z.max_r 0 (- e1)) in Hpe by lia.
      change (2 ^ 54)%Z with (2 * 2 ^ 53)%Z. change (2 ^ 53)%Z with (2 * 2 ^ 52)%Z in *.
      nia.
    - rewrite (Z.max_r 0 e1), (Z.max_l 0 (- e1)) by lia.
      rewrite Z.pow_0_r, Z.mul_1_r.
      assert (2 ^ la = 2 ^ 53 * 2 ^ lb * 2 ^ e1)%Z as Hp.
      { rewrite <- !Z.pow_add_r by lia. f_equal. lia. }
      pose proof (pow2_max_pos e1) as Hpe.
      rewrite (Z.max_r 0 e1) in Hpe by lia.
      change (2 ^ 54)%Z with (2 * 2 ^ 53)%Z. change (2 ^ 53)%Z with (2 * 2 ^ 52)%Z in *.
      nia. }
  destruct (np.scaled a b e1) as [n1 d1] eqn:Hs1. cbn [fst snd] in HA, HB.
  destruct (Z.ltb_spec n1 (2 ^ 53 * d1)) as [Hlt|Hge].
  - cbn zeta. rewrite Hs1. cbn [fst snd]. lia.
  - cbn zeta. unfold np.scaled in *. cbn [fst snd].
    injection Hs1 as <- <-.
    destruct (Z_lt_le_dec e1 0) as [Hneg|Hpos].
    + rewrite (Z.max_l 0 (e1 + 1)), (Z.max_r 0 (- (e1 + 1))) by lia.
      rewrite (Z.max_l 0 e1), (Z.max_r 0 (- e1)) in HA, HB, Hge by lia.
      replace (- e1)%Z with (Z.succ (- (e1 + 1))) in HA, HB, Hge by lia.
      rewrite Z.pow_succ_r in HA, HB, Hge by lia.
      change (2 ^ 54)%Z with (2 * 2 ^ 53)%Z in *.
      change (2 ^ 53)%Z with (2 * 2 ^ 52)%Z in *. lia.
    + rewrite (Z.max_r 0 (e1 + 1)), (Z.max_l 0 (- (e1 + 1))) by lia.
      rewrite (Z.max_r 0 e1), (Z.max_l 0 (- e1)) in HA, HB, Hge by lia.
      replace (e1 + 1)%Z with (Z.succ e1) by lia.
      rewrite Z.pow_succ_r by lia.
      change (2 ^ 54)%Z with (2 * 2 ^ 53)%Z in *.
      change (2 ^ 53)%Z with (2 * 2 ^ 52)%Z in *. lia.
Qed.

Lemma nearest_float64_zero (x : Q) :
  Qnum x = 0%Z → np.nearest_float64 x = 0%Q.
Proof. intros H. unfold np.nearest_float64. by rewrite H. Qed.

(** The rounding of a positive rational [a / b], taken apart. *)
Lemma nearest_float64_unfold (x : Q) :
  (0 < x)%Q →
  let a := Qnum x in
  let b := Zpos (Qden x) in
  let e := np.exponent a b in
  let m := np.round_half_even (np.scaled a b e).1 (np.scaled a b e).2 in
  (0 < a)%Z
  ∧ np.nearest_float64 x
    = Qmake (m * 2 ^ Z.max 0 e) (Z.to_pos (2 ^ Z.max 0 (- e))).
Proof.
  intros Hx. cbn zeta.
  assert (0 < Qnum x)%Z as Ha.
  { unfold Qlt in Hx. cbn in Hx. lia. }
  split; [done|]. unfold np.nearest_float64.
  rewrite (Z.abs_eq (Qnum x)) by lia.
  destruct (Z.eqb_spec (Qnum x) 0) as [H0|_]; [lia|].
  destruct (np.scaled (Qnum x) (Z.pos (Qden x)) _) as [n d].
  cbn [fst snd]. rewrite Z.sgn_pos by done. by rewrite Z.mul_1_l.
Qed.

Lemma nearest_float64_pos (x : Q) : (0 < x)%Q → (0 < np.nearest_float64 x)%Q.
Proof.
  intros Hx. destruct (nearest_float64_unfold x Hx) as [Ha ->].
  pose proof (exponent_spec (Qnum x) (Zpos (Qden x)) Ha eq_refl) as [Hlo _].
  set (e := np.exponent _ _) in *.
  pose proof (pow2_max_pos e) as Hq. pose proof (pow2_max_pos (- e)) as Hp.
  unfold np.scaled in *. cbn [fst snd] in *.
  set (n := (Qnum x * 2 ^ Z.max 0 (- e))%Z) in *.
  set (d := (Z.pos (Qden x) * 2 ^ Z.max 0 e)%Z) in *.
  assert (0 < d)%Z as Hd by (unfold d; lia).
  pose proof (round_half_even_lower n d Hd) as Hm.
  assert (2 ^ 52 <= n / d)%Z as Hf.
  { apply Z.div_le_lower_bound; lia. }
  unfold Qlt. cbn [Qnum Qden]. rewrite Z.mul_1_r, Z.mul_0_l.
  apply Z.mul_pos_pos; lia.
Qed.

(** A number below [2^53 / 2^j] has an exponent of at most [- j]. *)
Lemma exponent_le (a b j : Z) :
  (0 < a)%Z → (0 < b)%Z → (0 <= j)%Z → (a * 2 ^ j < 2 ^ 53 * b)%Z →
  (np.exponent a b <= - j)%Z.
Proof.
  intros Ha Hb Hj Hlt.
  pose proof (exponent_spec a b Ha Hb) as [Hlo _].
  set (e := np.exponent a b) in *. unfold np.scaled in Hlo. cbn [fst snd] in Hlo.
  destruct (Z_lt_le_dec (- j) e) as [Hbig|]; [exfalso|done].
  change (2 ^ 53)%Z with (2 * 2 ^ 52)%Z in Hlt.
  destruct (Z_lt_le_dec e 0) as [Hneg|Hpos].
  - rewrite (Z.max_l 0 e), (Z.max_r 0 (- e)), Z.pow_0_r, Z.mul_1_r in Hlo by lia.
    assert (2 * 2 ^ (- e) <= 2 ^ j)%Z as Hpow.
    { rewrite <- Z.pow_succ_r by lia. apply Z.pow_le_mono_r; lia. }
    nia.
  - rewrite (Z.max_r 0 e), (Z.max_l 0 (- e)), Z.pow_0_r, Z.mul_1_r in Hlo by lia.
    assert (2 <= 2 ^ e * 2 ^ j)%Z as Hpow.
    { rewrite <- Z.pow_add_r by lia. change 2%Z with (2 ^ 1)%Z at 1.
      apply Z.pow_le_mono_r; lia. }
    pose proof (pow2_max_pos j) as Hpj. rewrite Z.max_r in Hpj by done.
    nia.
Qed.

(** Rounding to the nearest float64 does not step over a number
    [k / 2^j] with [k < 2^53] (such a number is a float64). *)
Lemma nearest_float64_le_dyadic (x : Q) (k j : Z) :
  (0 < x)%Q → (0 <= j)%Z → (k < 2 ^ 53)%Z →
  (x <= k # Z.to_pos (2 ^ j))%Q →
  (np.nearest_float64 x <= k # Z.to_pos (2 ^ j))%Q.
Proof.
  intros Hx Hj Hk Hle. destruct (nearest_float64_unfold x Hx) as [Ha ->].
  pose proof (pow2_max_pos j) as Hpj. rewrite Z.max_r in Hpj by done.
  unfold Qle in Hle. cbn [Qnum Qden] in Hle. rewrite Z2Pos.id in Hle by done.
  set (a := Qnum x) in *. set (b := Z.pos (Qden x)) in *.
  assert (0 < b)%Z as Hb by done.
  assert (0 < k)%Z as Hk0 by nia.
  assert (np.exponent a b <= - j)%Z as He.
  { apply exponent_le; try done. nia. }
  set (e := np.exponent a b) in *.
  unfold np.scaled. cbn [fst snd].
  rewrite (Z.max_l 0 e), (Z.max_r 0 (- e)), Z.pow_0_r, !Z.mul_1_r by lia.
  assert (2 ^ (- e) = 2 ^ (- e - j) * 2 ^ j)%Z as Hsplit.
  { rewrite <- Z.pow_add_r by lia. f_equal. lia. }
  assert (0 < 2 ^ (- e - j))%Z as Hpd by (apply Z.pow_pos_nonneg; lia).
  assert (0 < 2 ^ (- e))%Z as Hpe by (apply Z.pow_pos_nonneg; lia).
  pose proof (round_half_even_le (a * 2 ^ (- e)) b (k * 2 ^ (- e - j)) Hb) as Hm.
  unfold Qle. cbn [Qnum Qden]. rewrite !Z2Pos.id by done.
  rewrite Hsplit in *. nia.
Qed.

(** The relative error of the rounding is at most [2^-53]. *)
Lemma nearest_float64_upper (x : Q) :
  (0 < x)%Q →
  (inject_Z (2 ^ 53) * np.nearest_float64 x <= inject_Z (2 ^ 53 + 1) * x)%Q.
Proof.
  intros Hx. destruct (nearest_float64_unfold x Hx) as [Ha ->].
  pose proof (exponent_spec (Qnum x) (Zpos (Qden x)) Ha eq_refl) as [Hlo _].
  set (e := np.exponent _ _) in *.
  pose proof (pow2_max_pos e) as Hq. pose proof (pow2_max_pos (- e)) as Hp.
  unfold np.scaled in *. cbn [fst snd] in *.
  set (a := Qnum x) in *. set (b := Z.pos (Qden x)) in *.
  assert (0 < b)%Z as Hb by done.
  set (P := (2 ^ Z.max 0 (- e))%Z) in *. set (S := (2 ^ Z.max 0 e)%Z) in *.
  assert (0 < b * S)%Z as Hd by lia.
  pose proof (round_half_even_upper (a * P) (b * S) Hd) as Hm.
  set (m := np.round_half_even (a * P) (b * S)) in *.
  unfold Qle, Qmult, inject_Z. cbn [Qnum Qden].
  rewrite !Pos2Z.inj_mul, Z2Pos.id by done. fold b.
  change (Z.pos 1) with 1%Z. rewrite !Z.mul_1_l.
  change (2 ^ 53)%Z with (2 * 2 ^ 52)%Z. nia.
Qed.


Section Splitter.

Variable permutation : Z → nat → list nat.
Hypothesis permutation_spec : ∀ seed n, permutation seed n ≡ₚ seq 0 n.


(** What [train_test_split] returns and stores. *)
Lemma train_test_split_ok (h : store) (df : nat) (T : pd.DataFrame)
    (test_size : Q) (seed : Z) :
  h !! df = Some T →
  (0 < test_size)%Q → (test_size < 1)%Q →
  model_selection.n_test test_size (length (pd.rows T)) < length (pd.rows T) →
  let ind := model_selection.shuffle_split permutation (length (pd.rows T))
                                           test_size seed in
  let train := fresh (dom h) in
  let h1 := <[train := model_selection.iloc T ind.1]> h in
  let test := fresh (dom h1) in
  train_test_split permutation df test_size seed h
  = Ok ((train, test), <[test := model_selection.iloc T ind.2]> h1).
Proof.
  intros Hh H0 H1 Hlt. cbn zeta. unfold train_test_split.
  erewrite bind_ok; [|by apply load_ok].
  erewrite bind_ok.
  2:{ apply lift_ok. unfold model_selection.validate.
      rewrite decide_True by done. rewrite decide_False by lia. done. }
  destruct (model_selection.shuffle_split _ _ _ _) as [ind_train ind_test].
  done.
Qed.

End Splitter.



Lemma sample_permutation_spec (seed : Z) (n : nat) :
  sample_permutation seed n ≡ₚ seq 0 n.
Proof.
  unfold sample_permutation. destruct (Z.even seed); [done|].
  apply reverse_Permutation.
Qed.


Lemma six_rows_length : length (pd.rows six_rows) = 6.
Proof. unfold six_rows. cbn [pd.rows]. by rewrite length_fmap, length_seq. Qed.




Lemma hundred_rows_length : length (pd.rows hundred_rows) = 100.
Proof. unfold hundred_rows. cbn [pd.rows]. by rewrite length_fmap, length_seq. Qed.

(** The count is taken from the float64 product: 0.07 of a hundred rows
    are eight rows, because the float64 product 0.07 × 100 lies just
    above 7, where the exact product is 7. *)
Lemma test_count_float_product :
  model_selection.n_test (7 # 100) (length (pd.rows hundred_rows)) = 8
  ∧ Qceiling ((7 # 100) * inject_Z (Z.of_nat (length (pd.rows hundred_rows))))
    = 7%Z.
Proof. rewrite hundred_rows_length. split; by vm_compute. Qed.

(** Without a seed the call draws from the global generator and advances
    it: two calls in a row then split the same Table differently, where
    two seeded calls do not. *)
Lemma unseeded_split_differs :
  ∃ (train test train2 test2 : nat) (g' g'' : Z) (h' h'' : store),
    train_test_split_any sample_generator 0 (1 # 5) None 0%Z {[0 := six_rows]}
    = Ok ((train, test, g'), h')
    ∧ train_test_split_any sample_generator 0 (1 # 5) None g' h'
      = Ok ((train2, test2, g''), h'')
    ∧ g' ≠ 0%Z
    ∧ pd.index <$> h'' !! test = Some [0; 1]
    ∧ pd.index <$> h'' !! test2 = Some [5; 4].
Proof.
  eexists _, _, _, _, _, _, _, _.
  split; [by vm_compute|]. split; [by vm_compute|].
  split; [done|]. split; by vm_compute.
Qed.

(** ** The store operations, step by step *)

Lemma column_run (l : nat) (c : string) (h : store) :
  column l c h
  = match h !! l with
    | Some T => match pd.getitem T c with
                | Ok s => Ok (s.*2, h)
                | Raise e => Raise e
                end
    | None => Raise KeyError
    end.
Proof.
  unfold column, mbind, M_bind, load, lift.
  destruct (h !! l) as [T|]; [|done]. by destruct (pd.getitem T c).
Qed.

Lemma setitem_inplace_run (l : nat) (c : string) (values : list cell) (h : store) :
  setitem_inplace l c values h
  = match h !! l with
    | Some T => match pd.setitem T c values with
                | Ok T' => Ok ((), <[l := T']> h)
                | Raise e => Raise e
                end
    | None => Raise KeyError
    end.
Proof.
  unfold setitem_inplace, mbind, M_bind, load, lift.
  destruct (h !! l) as [T|]; [|done]. by destruct (pd.setitem T c values).
Qed.

Lemma dropna_inplace_run (l : nat) (h : store) :
  dropna_inplace l h
  = match h !! l with
    | Some T => Ok ((), <[l := pd.dropna T]> h)
    | None => Raise KeyError
    end.
Proof.
  unfold dropna_inplace, mbind, M_bind, load.
  by destruct (h !! l) as [T|].
Qed.

Lemma outlier_removal_run (l : nat) (τ : R) (h : store) :
  outlier_removal l τ h
  = match h !! l with
    | Some T => match outliers_removed T τ with
                | Ok T' => Ok (fresh (dom h), <[fresh (dom h) := T']> h)
                | Raise e => Raise e
                end
    | None => Raise KeyError
    end.
Proof.
  unfold outlier_removal, outliers_removed, mbind, M_bind, res_bind, load, lift.
  destruct (h !! l) as [T|]; [|done].
  destruct (pd.getitem T "FFMC") as [ffmc|]; [|done].
  by destruct (res_mapM _ ffmc).
Qed.

Lemma add_did_it_rain_run (l : nat) (h : store) :
  add_did_it_rain l h
  = match h !! l with
    | Some T => match rain_frame T with
                | Ok T' => Ok (l, <[l := T']> h)
                | Raise e => Raise e
                end
    | None => Raise KeyError
    end.
Proof.
  unfold add_did_it_rain, rain_frame.
  unfold mbind at 1 2 3. unfold M_bind, load, lift.
  destruct (h !! l) as [T|] eqn:Hl; [|done].
  unfold mbind, res_bind.
  destruct (pd.getitem T "rain") as [rain|]; [|done].
  rewrite setitem_inplace_run, Hl.
  by destruct (pd.setitem T "did_it_rain" _).
Qed.

(** ** Which steps work in place *)

(** The encoding of a text column with the values sep, aug, missing and
    sep: the indicator columns come in the order aug, sep, after the
    other column, and the row with the missing value holds 0 in both. *)
Lemma get_dummies_months (repr : R → string) :
  pd.get_dummies repr months "month"
  = Ok {| pd.columns := ["area"; "month_aug"; "month_sep"];
          pd.rows :=
            [(0, {["area" := F (Fin 1); "month_aug" := F (Fin 0);
                   "month_sep" := F (Fin 1)]});
             (1, {["area" := F (Fin 2); "month_aug" := F (Fin 1);
                   "month_sep" := F (Fin 0)]});
             (2, {["area" := F (Fin 3); "month_aug" := F (Fin 0);
                   "month_sep" := F (Fin 0)]});
             (3, {["area" := F (Fin 4); "month_aug" := F (Fin 0);
                   "month_sep" := F (Fin 1)]})] |}.
Proof. by vm_compute. Qed.

Lemma get_dummies_inv (repr : R → string) (h h' : store) (df l : nat)
    (c : string) :
  get_dummies repr df c h = Ok (l, h') →
  ∃ T T', h !! df = Some T ∧ pd.get_dummies repr T c = Ok T'
          ∧ l = fresh (dom h) ∧ h' = <[l := T']> h.
Proof. unfold get_dummies. intros H. inv_run. by eexists _, _. Qed.

Lemma returns_new_table_fresh (h : store) (df : nat) (T T' : pd.DataFrame) :
  h !! df = Some T →
  is_Some (h !! df) ∧ h !! fresh (dom h) = None
  ∧ is_Some (<[fresh (dom h) := T']> h !! fresh (dom h))
  ∧ ∀ l', l' ≠ fresh (dom h) → <[fresh (dom h) := T']> h !! l' = h !! l'.
Proof.
  intros Hh. split; [by eexists|].
  split; [apply not_elem_of_dom, is_fresh|].
  split; [rewrite lookup_insert_eq; by eexists|].
  intros l' Hne. by rewrite lookup_insert_ne.
Qed.

(** The claim of the specification fails for the in-place steps:
    [add_did_it_rain] adds its column to the Table it is handed, and
    [drop_duplicates(inplace=True)] removes the duplicates from it. *)
Lemma inplace_steps_mutate :
  ¬ leaves_argument_unchanged add_did_it_rain
  ∧ ¬ leaves_argument_unchanged drop_duplicates_inplace.
Proof.
  split; intros Hclaim.
  - pose proof (add_did_it_rain_ok {[0 := sample_df]} 0 sample_df) as Hrun.
    specialize (Hclaim _ _ 0 sample_df _ (lookup_singleton_eq _ _)
                  (Hrun (lookup_singleton_eq _ _) ltac:(cbn; unfold schema; set_solver))).
    rewrite lookup_insert_eq in Hclaim. injection Hclaim as Hcols _.
    discriminate Hcols.
  - pose proof (drop_duplicates_inplace_ok {[0 := sample_df]} 0 sample_df
                  (lookup_singleton_eq _ _)) as Hrun.
    specialize (Hclaim _ _ 0 sample_df _ (lookup_singleton_eq _ _) Hrun).
    rewrite lookup_insert_eq in Hclaim. apply (inj Some) in Hclaim.
    pose proof (keep_first_NoDup schema [] (pd.rows sample_df)) as Hnd.
    change (pd.keep_first schema [] (pd.rows sample_df))
      with (pd.rows (pd.drop_duplicates sample_df)) in Hnd.
    rewrite Hclaim in Hnd. unfold sample_df in Hnd.
    cbn [pd.rows] in Hnd. rewrite !fmap_cons in Hnd.
    apply NoDup_cons in Hnd as [Hnd _]. apply Hnd.
    right. by left.
Qed.

(** C8, as the code has it: the steps fall in two groups.
    [outlier_removal] and the encoding step [pd.get_dummies] leave the
    Table they are handed, and every other Table, as it was, and return
    a new Table.  [drop_duplicates(inplace=True)], the removal of a
    column with [drop(..., inplace=True)], [dropna(inplace=True)], a
    column assignment (which is how the imputed and the normalized
    values are written back) and [add_did_it_rain] work in place: the
    caller's Table is replaced, under its reference, by the deduplicated
    Table, the Table without the column, the Table without the rows that
    have a missing value, the Table with the assigned column and the
    Table with the ['did_it_rain'] column, respectively, and nothing else
    in the store changes; [add_did_it_rain] returns the very Table it was
    handed. *)
Theorem frame_effects (τ : R) (c : string) (values : list cell)
    (repr : R → string) :
  leaves_argument_unchanged (λ df, outlier_removal df τ)
  ∧ returns_new_table (λ df, outlier_removal df τ)
  ∧ leaves_argument_unchanged (λ df, get_dummies repr df c)
  ∧ returns_new_table (λ df, get_dummies repr df c)
  ∧ updates_in_place drop_duplicates_inplace (λ T, Ok (pd.drop_duplicates T))
  ∧ updates_in_place (λ df, drop_column_inplace df c) (λ T, drop_column T c)
  ∧ updates_in_place dropna_inplace (λ T, Ok (pd.dropna T))
  ∧ updates_in_place (λ df, setitem_inplace df c values)
                     (λ T, pd.setitem T c values)
  ∧ updates_in_place add_did_it_rain rain_frame
  ∧ (∀ (h h' : store) (df l : nat),
       add_did_it_rain df h = Ok (l, h') → l = df).
Proof.
  split; [|split; [|split; [|split; [|split; [|split; [|split; [|split;
    [|split]]]]]]]].
  - intros h h' df T l Hh (T0 & T' & _ & -> & ->)%outlier_removal_inv.
    rewrite lookup_insert_ne; [done|]. by apply fresh_lookup_ne.
  - intros h h' df l (T0 & T' & HT0 & -> & ->)%outlier_removal_inv.
    by apply (returns_new_table_fresh h df T0).
  - intros h h' df T l Hh (T0 & T' & _ & _ & -> & ->)%get_dummies_inv.
    rewrite lookup_insert_ne; [done|]. by apply fresh_lookup_ne.
  - intros h h' df l (T0 & T' & HT0 & _ & -> & ->)%get_dummies_inv.
    by apply (returns_new_table_fresh h df T0).
  - intros h h' df a (T & HT & ->)%drop_duplicates_inplace_inv.
    by exists T, (pd.drop_duplicates T).
  - intros h h' df a Hrun. unfold drop_column_inplace in Hrun. inv_run.
    by eexists _, _.
  - intros h h' df a (T & HT & ->)%dropna_inplace_inv.
    by exists T, (pd.dropna T).
  - intros h h' df a (T & T' & HT & HT' & ->)%setitem_inplace_inv.
    by exists T, T'.
  - intros h h' df l Hrun. rewrite add_did_it_rain_run in Hrun.
    destruct (h !! df) as [T|]; [|done].
    destruct (rain_frame T) as [T'|] eqn:HT'; [|done].
    injection Hrun as <- <-. by exists T, T'.
  - by intros h h' df l (T & T' & _ & -> & _)%add_did_it_rain_inv.
Qed.

Lemma frame_effects_witness :
  ∃ (l : nat) (h' : store),
    outlier_removal 0 120 {[0 := sample_df]} = Ok (l, h')
    ∧ h' !! 0 = Some sample_df.
Proof.
  destruct (outlier_removal_ok {[0 := sample_df]} 0 sample_df 120
              (lookup_singleton_eq _ _)
              ltac:(cbn; unfold schema; set_solver)
              (sample_df_numeric "FFMC")) as (labels & Hrun & _).
  eexists _, _. split; [exact Hrun|].
  exact (proj1 (frame_effects 120 "DC" [] (λ _, "")) _ _ 0 sample_df _
           (lookup_singleton_eq _ _) Hrun).
Defined.

(** ** The cells, as functions of the Table their variable refers to *)

Lemma cell_impute_train_run (nb : Notebook) (T : pd.DataFrame) :
  objects nb !! df_train nb = Some T →
  cell_impute_train nb
  = match fit_imputer T with
    | Ok statistics_ =>
        match impute_frame (Some statistics_) T with
        | Ok T' => Ok (mkNotebook (<[df_train nb := T']> (objects nb))
                         (df_train nb) (df_test nb)
                         (Some statistics_) (normalizer nb))
        | Raise e => Raise e
        end
    | Raise e => Raise e
    end.
Proof.
  intros Hl. unfold cell_impute_train, fit_imputer, impute_frame.
  unfold mbind, res_bind. rewrite column_run, Hl.
  destruct (pd.getitem T "DC") as [X|] eqn:HX; [|done].
  destruct (sklearn.Imputer_fit X.*2) as [statistics_|]; [|done].
  rewrite column_run, Hl, HX.
  destruct (sklearn.Imputer_transform _ _) as [Xt|]; [|done].
  rewrite setitem_inplace_run, Hl.
  by destruct (pd.setitem T "DC" _).
Qed.

Lemma cell_dropna_train_run (nb : Notebook) (T : pd.DataFrame) :
  objects nb !! df_train nb = Some T →
  cell_dropna_train nb
  = Ok (mkNotebook (<[df_train nb := pd.dropna T]> (objects nb))
          (df_train nb) (df_test nb) (imp nb) (normalizer nb)).
Proof.
  intros Hl. unfold cell_dropna_train, mbind, res_bind.
  by rewrite dropna_inplace_run, Hl.
Qed.

Lemma cell_outliers_train_run (nb : Notebook) (T : pd.DataFrame) :
  objects nb !! df_train nb = Some T →
  cell_outliers_train nb
  = match outliers_removed T 120 with
    | Ok T' => Ok (mkNotebook (<[fresh (dom (objects nb)) := T']> (objects nb))
                     (fresh (dom (objects nb))) (df_test nb)
                     (imp nb) (normalizer nb))
    | Raise e => Raise e
    end.
Proof.
  intros Hl. unfold cell_outliers_train, mbind, res_bind.
  rewrite outlier_removal_run, Hl.
  by destruct (outliers_removed T 120).
Qed.

Lemma cell_normalize_train_run (nb : Notebook) (T : pd.DataFrame) :
  objects nb !! df_train nb = Some T →
  cell_normalize_train nb
  = match fit_scaler T with
    | Ok p =>
        match scale_frame (Some p) T with
        | Ok T' => Ok (mkNotebook (<[df_train nb := T']> (objects nb))
                         (df_train nb) (df_test nb) (imp nb) (Some p))
        | Raise e => Raise e
        end
    | Raise e => Raise e
    end.
Proof.
  intros Hl. unfold cell_normalize_train, fit_scaler, scale_frame.
  unfold mbind, res_bind. rewrite column_run, Hl.
  destruct (pd.getitem T "DC") as [X|] eqn:HX; [|done].
  destruct (sklearn.StandardScaler_fit X.*2) as [p|]; [|done].
  rewrite column_run, Hl, HX.
  destruct (sklearn.StandardScaler_transform _ _) as [Xt|]; [|done].
  rewrite setitem_inplace_run, Hl.
  by destruct (pd.setitem T "DC" _).
Qed.

Lemma cell_rain_train_run (nb : Notebook) (T : pd.DataFrame) :
  objects nb !! df_train nb = Some T →
  cell_rain_train nb
  = match rain_frame T with
    | Ok T' => Ok (mkNotebook (<[df_train nb := T']> (objects nb))
                     (df_train nb) (df_test nb) (imp nb) (normalizer nb))
    | Raise e => Raise e
    end.
Proof.
  intros Hl. unfold cell_rain_train, mbind, res_bind.
  rewrite add_did_it_rain_run, Hl.
  by destruct (rain_frame T).
Qed.

(** The training cells together: the outcome is a function of the
    training Table, and no other Table of the store is touched. *)
Lemma prepare_train_run (nb : Notebook) (T : pd.DataFrame) :
  objects nb !! df_train nb = Some T →
  match train_prepared T with
  | Ok (T', statistics_, p) =>
      ∃ (h' : store) (l : nat),
        prepare_train nb
        = Ok (mkNotebook h' l (df_test nb) (Some statistics_) (Some p))
        ∧ h' !! l = Some T'
        ∧ objects nb !! l = None
        ∧ ∀ l', l' ≠ df_train nb → is_Some (objects nb !! l') →
                h' !! l' = objects nb !! l'
  | Raise e => prepare_train nb = Raise e
  end.
Proof.
  intros Hl. unfold train_prepared, prepare_train. unfold mbind, res_bind.
  rewrite (cell_impute_train_run nb T Hl).
  destruct (fit_imputer T) as [statistics_|]; [|done].
  destruct (impute_frame (Some statistics_) T) as [T1|]; [|done].
  rewrite (cell_dropna_train_run _ T1) by apply lookup_insert_eq.
  cbn [objects df_train df_test imp normalizer].
  rewrite (cell_outliers_train_run _ (pd.dropna T1)) by apply lookup_insert_eq.
  cbn [objects df_train df_test imp normalizer].
  destruct (outliers_removed (pd.dropna T1) 120) as [T2|]; [|done].
  set (h2 := <[df_train nb := pd.dropna T1]> (<[df_train nb := T1]> (objects nb))).
  set (l := fresh (dom h2)).
  rewrite (cell_normalize_train_run _ T2) by apply lookup_insert_eq.
  cbn [objects df_train df_test imp normalizer].
  destruct (fit_scaler T2) as [p|]; [|done].
  destruct (scale_frame (Some p) T2) as [T3|]; [|done].
  rewrite (cell_rain_train_run _ T3) by apply lookup_insert_eq.
  cbn [objects df_train df_test imp normalizer].
  destruct (rain_frame T3) as [T4|]; [|done].
  assert (h2 !! l = None) as Hfresh by apply not_elem_of_dom, is_fresh.
  eexists _, l. split; [done|].
  split; [apply lookup_insert_eq|].
  split.
  - unfold h2 in Hfresh.
    destruct (decide (l = df_train nb)) as [Heq|Hne].
    + rewrite Heq, lookup_insert_eq in Hfresh. done.
    + by rewrite !lookup_insert_ne in Hfresh.
  - intros l' Hne Hsome.
    assert (l ≠ l') as Hll.
    { intros <-. unfold h2 in Hfresh.
      rewrite !lookup_insert_ne in Hfresh by done.
      rewrite Hfresh in Hsome. by destruct Hsome. }
    rewrite !lookup_insert_ne by done. unfold h2.
    by rewrite !lookup_insert_ne.
Qed.

Lemma train_prepared_statistics (T T' : pd.DataFrame) (statistics_ : float64)
    (p : sklearn.ScalerParams) :
  train_prepared T = Ok (T', statistics_, p) →
  train_statistics T = Ok (statistics_, p).
Proof.
  unfold train_prepared, train_statistics, mbind, res_bind.
  destruct (fit_imputer T) as [m|]; [|done].
  destruct (impute_frame (Some m) T) as [T1|]; [|done].
  destruct (outliers_removed (pd.dropna T1) 120) as [T2|]; [|done].
  destruct (fit_scaler T2) as [p'|]; [|done].
  destruct (scale_frame (Some p') T2) as [T3|]; [|done].
  destruct (rain_frame T3) as [T4|]; [|done].
  by intros [= _ -> ->].
Qed.

(** The test cell: the outcome is a function of the test Table and of the
    fitted objects, which it hands on as they are. *)
Lemma prepare_test_run (nb : Notebook) (T : pd.DataFrame) :
  objects nb !! df_test nb = Some T →
  match test_prepared (imp nb) (normalizer nb) T with
  | Ok T' =>
      ∃ (h' : store) (l : nat),
        prepare_test nb
        = Ok (mkNotebook h' (df_train nb) l (imp nb) (normalizer nb))
        ∧ h' !! l = Some T'
        ∧ objects nb !! l = None
        ∧ ∀ l', l' ≠ df_test nb → is_Some (objects nb !! l') →
                h' !! l' = objects nb !! l'
  | Raise e => prepare_test nb = Raise e
  end.
Proof.
  intros Hl. unfold test_prepared, prepare_test, impute_frame, scale_frame.
  unfold mbind, res_bind. rewrite column_run, Hl.
  destruct (pd.getitem T "DC") as [X|]; [|done].
  destruct (sklearn.Imputer_transform (imp nb) X.*2) as [Xt|]; [|done].
  rewrite setitem_inplace_run, Hl.
  destruct (pd.setitem T "DC" _) as [T1|]; [|done].
  rewrite dropna_inplace_run, lookup_insert_eq.
  rewrite outlier_removal_run, lookup_insert_eq.
  destruct (outliers_removed (pd.dropna T1) 120) as [T2|]; [|done].
  set (h2 := <[df_test nb := pd.dropna T1]> (<[df_test nb := T1]> (objects nb))).
  set (l := fresh (dom h2)).
  rewrite column_run, lookup_insert_eq.
  destruct (pd.getitem T2 "DC") as [X2|]; [|done].
  destruct (sklearn.StandardScaler_transform (normalizer nb) X2.*2) as [Xt2|];
    [|done].
  rewrite setitem_inplace_run, lookup_insert_eq.
  destruct (pd.setitem T2 "DC" _) as [T3|]; [|done].
  rewrite add_did_it_rain_run, lookup_insert_eq.
  destruct (rain_frame T3) as [T4|]; [|done].
  assert (h2 !! l = None) as Hfresh by apply not_elem_of_dom, is_fresh.
  eexists _, l. split; [done|].
  split; [apply lookup_insert_eq|].
  split.
  - unfold h2 in Hfresh.
    destruct (decide (l = df_test nb)) as [Heq|Hne].
    + rewrite Heq, lookup_insert_eq in Hfresh. done.
    + by rewrite !lookup_insert_ne in Hfresh.
  - intros l' Hne Hsome.
    assert (l ≠ l') as Hll.
    { intros <-. unfold h2 in Hfresh.
      rewrite !lookup_insert_ne in Hfresh by done.
      rewrite Hfresh in Hsome. by destruct Hsome. }
    rewrite !lookup_insert_ne by done. unfold h2.
    by rewrite !lookup_insert_ne.
Qed.

(** ** Fitting and transforming a column *)

Lemma getitem_cells (T : pd.DataFrame) (c : string) :
  ((λ ir : pd.row, (ir.1, pd.cell_at ir.2 c)) <$> pd.rows T).*2 = column_of T c.
Proof. unfold column_of. by rewrite <- list_fmap_compose. Qed.

Lemma numeric_column_Forall (T : pd.DataFrame) (c : string) :
  numeric_column T c → Forall numeric (column_of T c).
Proof.
  intros Hnum. unfold column_of. apply Forall_fmap, Forall_forall.
  intros ir Hin. by apply Hnum.
Qed.

Lemma to_float_ok (X : list cell) :
  Forall numeric X → res_mapM sklearn.to_float X = Ok (float_of <$> X).
Proof.
  induction 1 as [|v X [x ->] _ IH]; [done|]. cbn. by rewrite IH.
Qed.

Lemma check_array_ok (X : list cell) :
  Forall numeric X → X ≠ [] → sklearn.check_array X = Ok (float_of <$> X).
Proof.
  intros Hnum Hne. unfold sklearn.check_array. rewrite to_float_ok by done.
  cbn. rewrite decide_False; [done|]. by destruct X.
Qed.

Lemma check_array_nil : sklearn.check_array [] = Raise ValueError.
Proof. done. Qed.

Lemma compressed_floats (X : list cell) :
  np.compressed (float_of <$> X) = observed X.
Proof.
  induction X as [|[[x|]|s] X IH]; cbn; by rewrite ?IH.
Qed.

Lemma nanmean_observed (X : list cell) :
  np.nanmean (float_of <$> X)
  = match observed X with [] => NaN | xs => Fin (np.mean xs) end.
Proof. unfold np.nanmean. rewrite compressed_floats. by destruct (observed X). Qed.

Lemma column_of_nonempty (T : pd.DataFrame) (c : string) :
  pd.rows T ≠ [] → column_of T c ≠ [].
Proof. unfold column_of. by destruct (pd.rows T). Qed.

Lemma ravel_singletons {A} (f : A → float64) (a : list A) :
  sklearn.ravel ((λ x, [f x]) <$> a) = f <$> a.
Proof.
  unfold sklearn.ravel. induction a as [|x a IH]; [done|]. cbn. by rewrite IH.
Qed.

Lemma ravel_nils {A} (a : list A) :
  sklearn.ravel ((λ _, []) <$> a) = [].
Proof. unfold sklearn.ravel. induction a as [|x a IH]; [done|]. by cbn. Qed.

Lemma setitem_map_column (T : pd.DataFrame) (c : string) (f : float64 → float64) :
  c ∈ pd.columns T →
  pd.setitem T c (F <$> (f <$> (float_of <$> column_of T c)))
  = Ok (map_column c f T).
Proof.
  intros Hc. unfold pd.setitem, column_of.
  rewrite decide_True by (by rewrite !length_fmap).
  rewrite decide_True by done. unfold map_column. do 2 f_equal.
  induction (pd.rows T) as [|ir rs IH]; [done|]. cbn. by rewrite IH.
Qed.

Lemma fit_imputer_ok (T : pd.DataFrame) :
  "DC" ∈ pd.columns T → numeric_column T "DC" → pd.rows T ≠ [] →
  fit_imputer T = Ok (np.nanmean (float_of <$> column_of T "DC")).
Proof.
  intros Hc Hnum Hne. unfold fit_imputer. rewrite getitem_ok by done. cbn.
  rewrite getitem_cells. unfold sklearn.Imputer_fit.
  rewrite check_array_ok; [done| |].
  - by apply numeric_column_Forall.
  - by apply column_of_nonempty.
Qed.

Lemma impute_frame_ok (T : pd.DataFrame) (m : R) :
  "DC" ∈ pd.columns T → numeric_column T "DC" → pd.rows T ≠ [] →
  impute_frame (Some (Fin m)) T = Ok (map_column "DC" (sklearn.impute m) T).
Proof.
  intros Hc Hnum Hne. unfold impute_frame. rewrite getitem_ok by done. cbn.
  rewrite getitem_cells. unfold sklearn.Imputer_transform.
  rewrite check_array_ok;
    [|by apply numeric_column_Forall|by apply column_of_nonempty].
  cbn. rewrite ravel_singletons. by apply setitem_map_column.
Qed.

(** With nothing observed at [fit] the transformed array has no column,
    and the assignment of its (empty) ravel fails. *)
Lemma impute_frame_nan (T : pd.DataFrame) :
  "DC" ∈ pd.columns T → numeric_column T "DC" → pd.rows T ≠ [] →
  impute_frame (Some NaN) T = Raise ValueError.
Proof.
  intros Hc Hnum Hne. unfold impute_frame. rewrite getitem_ok by done. cbn.
  rewrite getitem_cells. unfold sklearn.Imputer_transform.
  rewrite check_array_ok;
    [|by apply numeric_column_Forall|by apply column_of_nonempty].
  cbn. rewrite ravel_nils. unfold pd.setitem.
  rewrite decide_False; [done|]. cbn. by destruct (pd.rows T).
Qed.

Lemma fit_scaler_ok (T : pd.DataFrame) :
  "DC" ∈ pd.columns T → numeric_column T "DC" → pd.rows T ≠ [] →
  fit_scaler T
  = Ok {| sklearn.mean_ := np.nanmean (float_of <$> column_of T "DC");
          sklearn.scale_ :=
            sklearn.handle_zeros_in_scale
              (sklearn.fsqrt (np.nanvar (float_of <$> column_of T "DC"))) |}.
Proof.
  intros Hc Hnum Hne. unfold fit_scaler. rewrite getitem_ok by done. cbn.
  rewrite getitem_cells. unfold sklearn.StandardScaler_fit.
  rewrite check_array_ok; [done| |].
  - by apply numeric_column_Forall.
  - by apply column_of_nonempty.
Qed.

Lemma scale_frame_ok (T : pd.DataFrame) (p : sklearn.ScalerParams) :
  "DC" ∈ pd.columns T → numeric_column T "DC" → pd.rows T ≠ [] →
  scale_frame (Some p) T = Ok (map_column "DC" (sklearn.standardize p) T).
Proof.
  intros Hc Hnum Hne. unfold scale_frame. rewrite getitem_ok by done. cbn.
  rewrite getitem_cells. unfold sklearn.StandardScaler_transform.
  rewrite check_array_ok;
    [|by apply numeric_column_Forall|by apply column_of_nonempty].
  cbn. rewrite ravel_singletons. by apply setitem_map_column.
Qed.

(** ** Imputation *)


Lemma sample_df_DC : observed (column_of sample_df "DC") = [10; 20; 10]%R.
Proof.
  unfold column_of, sample_df. cbn [pd.rows fmap list_fmap snd].
  by rewrite !mkrow_DC.
Qed.




(** ** Normalization *)

(** What the normalization cell does on the training Table. *)
Lemma cell_normalize_train_ok (nb : Notebook) (T : pd.DataFrame) :
  objects nb !! df_train nb = Some T →
  "DC" ∈ pd.columns T → numeric_column T "DC" → pd.rows T ≠ [] →
  let p := {| sklearn.mean_ := np.nanmean (float_of <$> column_of T "DC");
              sklearn.scale_ :=
                sklearn.handle_zeros_in_scale
                  (sklearn.fsqrt (np.nanvar (float_of <$> column_of T "DC"))) |} in
  cell_normalize_train nb
  = Ok (mkNotebook
          (<[df_train nb := map_column "DC" (sklearn.standardize p) T]>
             (objects nb))
          (df_train nb) (df_test nb) (imp nb) (Some p)).
Proof.
  intros Hl Hc Hnum Hne p. rewrite (cell_normalize_train_run nb T Hl).
  rewrite fit_scaler_ok by done. fold p. by rewrite scale_frame_ok.
Qed.

(** C4, as the code has it: the normalization cell learns the mean and
    the standard deviation of the DC column from the rows of the training
    Table (the test Table is not read) and replaces every DC value [x] of
    the training Table by [(x - mean) / scale], where [scale] is the
    standard deviation when that is not zero, and 1 when it is zero.  The
    cell does not fail on a zero standard deviation: every value then
    becomes [(x - mean) / 1]. *)
Theorem normalization_spec (nb : Notebook) (T : pd.DataFrame) :
  objects nb !! df_train nb = Some T →
  "DC" ∈ pd.columns T → numeric_column T "DC" → pd.rows T ≠ [] →
  ∃ p : sklearn.ScalerParams,
    cell_normalize_train nb
    = Ok (mkNotebook
            (<[df_train nb := map_column "DC" (sklearn.standardize p) T]>
               (objects nb))
            (df_train nb) (df_test nb) (imp nb) (Some p))
    ∧ sklearn.mean_ p = np.nanmean (float_of <$> column_of T "DC")
    ∧ (∀ std : R,
         sklearn.fsqrt (np.nanvar (float_of <$> column_of T "DC")) = Fin std →
         (std ≠ 0%R → sklearn.scale_ p = Fin std)
         ∧ (std = 0%R → sklearn.scale_ p = Fin 1))
    ∧ (∀ x mean scale : R,
         sklearn.mean_ p = Fin mean → sklearn.scale_ p = Fin scale →
         sklearn.standardize p (Fin x) = Fin ((x - mean) / scale)).
Proof.
  intros Hl Hc Hnum Hne. eexists. split.
  { by apply cell_normalize_train_ok. }
  cbn [sklearn.mean_ sklearn.scale_]. split; [done|]. split.
  - intros std ->. cbn. split; intros Hstd.
    + by rewrite decide_False.
    + by rewrite decide_True.
  - intros x mean scale Hm Hs. unfold sklearn.standardize.
    cbn [sklearn.mean_ sklearn.scale_]. by rewrite Hm, Hs.
Qed.

Lemma constant_df_DC : float_of <$> column_of constant_df "DC" = [Fin 5; Fin 5].
Proof.
  unfold column_of, constant_df. cbn [pd.rows fmap list_fmap snd].
  by rewrite !mkrow_DC.
Qed.

Lemma constant_df_std :
  sklearn.fsqrt (np.nanvar (float_of <$> column_of constant_df "DC")) = Fin 0.
Proof.
  rewrite constant_df_DC. unfold sklearn.fsqrt, np.nanvar, np.sqrt. cbn.
  f_equal. rewrite <- sqrt_0. f_equal. unfold np.mean, np.sum. cbn. field.
Qed.

(** The claim of the specification fails on a constant column: the
    standard deviation learned from DC = [5, 5] is zero, and the cell
    returns, with scale 1, where the claim wants a division-by-zero
    error. *)
Lemma zero_std_does_not_fail :
  sklearn.fsqrt (np.nanvar (float_of <$> column_of constant_df "DC")) = Fin 0
  ∧ ∃ nb' : Notebook,
      cell_normalize_train (notebook constant_df sample_test) = Ok nb'
      ∧ (sklearn.scale_ <$> normalizer nb') = Some (Fin 1).
Proof.
  split; [apply constant_df_std|].
  eexists. split.
  - apply (cell_normalize_train_ok (notebook constant_df sample_test) constant_df).
    + done.
    + cbn. unfold schema. set_solver.
    + numeric_rows.
    + done.
  - cbn [normalizer fmap option_fmap option_map sklearn.scale_].
    rewrite constant_df_std. cbn. by rewrite decide_True.
Qed.

Lemma normalization_spec_witness :
  ∃ p : sklearn.ScalerParams,
    cell_normalize_train (notebook constant_df sample_test)
    = Ok (mkNotebook
            (<[0 := map_column "DC" (sklearn.standardize p) constant_df]>
               {[0 := constant_df; 1 := sample_test]})
            0 1 None (Some p))
    ∧ sklearn.scale_ p = Fin 1.
Proof.
  destruct (normalization_spec (notebook constant_df sample_test) constant_df)
    as (p & Hrun & _ & Hscale & _).
  - done.
  - cbn. unfold schema. set_solver.
  - numeric_rows.
  - done.
  - exists p. split; [exact Hrun|].
    by apply (Hscale 0%R constant_df_std).
Defined.

(** ** When the preparation succeeds *)

Lemma outliers_removed_ok (T : pd.DataFrame) (τ : R) :
  "FFMC" ∈ pd.columns T → numeric_column T "FFMC" →
  ∃ labels : list nat,
    outliers_removed T τ = Ok (pd.drop T labels)
    ∧ ∀ l, l ∈ labels ↔
           ∃ ir : pd.row, ir ∈ pd.rows T ∧ ir.1 = l
                          ∧ exceeds (pd.cell_at ir.2 "FFMC") τ.
Proof.
  intros Hc Hnum.
  destruct (rows_to_remove_ok "FFMC" τ (pd.rows T) Hnum) as (mask & Hmask & Hl).
  exists (pd.mask_index mask). split; [|done].
  unfold outliers_removed. rewrite getitem_ok by done. cbn.
  by rewrite Hmask.
Qed.

Lemma rain_frame_ok (T : pd.DataFrame) :
  "rain" ∈ pd.columns T → ∃ T', rain_frame T = Ok T'.
Proof.
  intros Hc. unfold rain_frame. rewrite getitem_ok by done. cbn.
  unfold pd.setitem. rewrite decide_True by (by rewrite !length_fmap).
  by eexists.
Qed.

Lemma impute_is_finite (m : R) (x : float64) : ∃ y, sklearn.impute m x = Fin y.
Proof. destruct x; by eexists. Qed.

(** Imputation, [dropna] and the outlier filter on a preparable Table. *)
Lemma cleaning_ok (T : pd.DataFrame) (m : R) :
  preparable T →
  ∃ T2 : pd.DataFrame,
    impute_frame (Some (Fin m)) T = Ok (map_column "DC" (sklearn.impute m) T)
    ∧ outliers_removed (pd.dropna (map_column "DC" (sklearn.impute m) T)) 120
      = Ok T2
    ∧ pd.columns T2 = pd.columns T
    ∧ numeric_column T2 "DC"
    ∧ pd.rows T2 ≠ [].
Proof.
  intros (Hdc & Hffmc & Hrain & Hndc & Hnffmc & Hnd & ir & Hin & Hna & Hle).
  set (T1 := map_column "DC" (sklearn.impute m) T).
  assert (∀ ir1 : pd.row, ir1 ∈ pd.rows T1 →
            ∃ ir0 : pd.row, ir0 ∈ pd.rows T ∧ ir1.1 = ir0.1
              ∧ (∃ y, pd.cell_at ir1.2 "DC" = F (Fin y))
              ∧ ∀ c, c ≠ "DC" → pd.cell_at ir1.2 c = pd.cell_at ir0.2 c)
    as Hrows.
  { intros ir1 (ir0 & -> & Hin0)%list_elem_of_fmap. exists ir0.
    split; [done|]. split; [done|]. cbn [fst snd]. split.
    - rewrite cell_at_insert_eq.
      destruct (impute_is_finite m (float_of (pd.cell_at ir0.2 "DC"))) as [y ->].
      by exists y.
    - intros c Hne. by rewrite cell_at_insert_ne. }
  assert (numeric_column (pd.dropna T1) "FFMC") as Hnum1.
  { intros ir1 [_ Hin1]%list_elem_of_filter.
    destruct (Hrows ir1 Hin1) as (ir0 & Hin0 & _ & _ & Heq).
    rewrite Heq by done. by apply Hnffmc. }
  destruct (outliers_removed_ok (pd.dropna T1) 120 Hffmc Hnum1)
    as (labels & Hrun & Hl).
  exists (pd.drop (pd.dropna T1) labels).
  split. { apply impute_frame_ok; [done..|]. intros Hnil. rewrite Hnil in Hin.
           by apply elem_of_nil in Hin. }
  split; [done|]. split; [done|]. split.
  - intros ir1 [_ [_ Hin1]%list_elem_of_filter]%list_elem_of_filter.
    destruct (Hrows ir1 Hin1) as (_ & _ & _ & [y Hy] & _).
    rewrite Hy. by eexists.
  - set (ir1 := (ir.1, <["DC" := F (sklearn.impute m
                                      (float_of (pd.cell_at ir.2 "DC")))]> ir.2)
                : pd.row).
    assert (ir1 ∈ pd.rows T1) as Hin1.
    { apply list_elem_of_fmap. by exists ir. }
    assert (ir1 ∈ pd.rows (pd.dropna T1)) as Hin2.
    { apply list_elem_of_filter. split; [|done].
      unfold pd.has_na, pd.row_values.
      intros (c & Hc & Hcin)%list_elem_of_fmap. cbn [pd.columns T1 map_column] in Hcin.
      destruct (decide (c = "DC")) as [->|Hne].
      - unfold ir1 in Hc. cbn [snd] in Hc. rewrite cell_at_insert_eq in Hc.
        destruct (impute_is_finite m (float_of (pd.cell_at ir.2 "DC"))) as [y Hy].
        rewrite Hy in Hc. discriminate.
      - unfold ir1 in Hc. cbn [snd] in Hc.
        rewrite cell_at_insert_ne in Hc by done. by eapply Hna. }
    assert (ir1 ∈ pd.rows (pd.drop (pd.dropna T1) labels)) as Hin3.
    { apply list_elem_of_filter. split; [|done].
      intros (ir' & [_ Hin']%list_elem_of_filter & Heq & He)%Hl.
      destruct (Hrows ir' Hin') as (ir0 & Hin0 & Hlab & _ & Hcells).
      assert (ir0 = ir) as ->.
      { apply (NoDup_index_inj (pd.rows T)); [done..|].
        rewrite <- Hlab, Heq. done. }
      rewrite Hcells in He by done. by eapply exceeds_at_most. }
    intros Hnil. rewrite Hnil in Hin3. by apply elem_of_nil in Hin3.
Qed.

(** The training cells succeed on a preparable Table with an observed DC
    value. *)
Lemma train_prepared_ok (T : pd.DataFrame) :
  preparable T → observed (column_of T "DC") ≠ [] →
  ∃ (T' : pd.DataFrame) (p : sklearn.ScalerParams),
    train_prepared T
    = Ok (T', Fin (np.mean (observed (column_of T "DC"))), p).
Proof.
  intros Hprep Hobs.
  destruct (cleaning_ok T (np.mean (observed (column_of T "DC"))) Hprep)
    as (T2 & Himp & Hout & Hcols & Hnum & Hne).
  destruct Hprep as (Hdc & Hffmc & Hrain & Hndc & _).
  assert (pd.rows T ≠ []) as HT.
  { intros Hnil. apply Hobs. unfold column_of. by rewrite Hnil. }
  unfold train_prepared.
  rewrite fit_imputer_ok, nanmean_observed by done.
  destruct (observed (column_of T "DC")) as [|x xs] eqn:Hx; [done|].
  cbn. rewrite Himp. cbn. rewrite Hout. cbn.
  rewrite fit_scaler_ok by (by rewrite ?Hcols). cbn.
  rewrite scale_frame_ok by (by rewrite ?Hcols). cbn.
  destruct (rain_frame_ok (map_column "DC"
      (sklearn.standardize
         {| sklearn.mean_ := np.nanmean (float_of <$> column_of T2 "DC");
            sklearn.scale_ := sklearn.handle_zeros_in_scale
              (sklearn.fsqrt (np.nanvar (float_of <$> column_of T2 "DC"))) |})
      T2)) as [T4 HT4].
  { cbn. by rewrite Hcols. }
  rewrite HT4. cbn. by eexists _, _.
Qed.

(** The test cell succeeds on a preparable Table once the objects are
    fitted. *)
Lemma test_prepared_ok (T : pd.DataFrame) (m : R) (p : sklearn.ScalerParams) :
  preparable T →
  ∃ T' : pd.DataFrame, test_prepared (Some (Fin m)) (Some p) T = Ok T'.
Proof.
  intros Hprep.
  destruct (cleaning_ok T m Hprep) as (T2 & Himp & Hout & Hcols & Hnum & Hne).
  destruct Hprep as (Hdc & Hffmc & Hrain & Hndc & _).
  unfold test_prepared. rewrite Himp. cbn. rewrite Hout. cbn.
  rewrite scale_frame_ok by (by rewrite ?Hcols). cbn.
  apply rain_frame_ok. cbn. by rewrite Hcols.
Qed.

(** ** No leakage from the test set *)

Lemma to_float_inv (X : list cell) (a : list float64) :
  res_mapM sklearn.to_float X = Ok a → Forall numeric X ∧ a = float_of <$> X.
Proof.
  revert a. induction X as [|v X IH]; intros a; cbn.
  - by intros [= <-].
  - destruct v as [x|s]; cbn; [|done].
    destruct (res_mapM sklearn.to_float X) as [a'|]; cbn; [|done].
    intros [= <-]. destruct (IH a' eq_refl) as [Hnum ->].
    split; [|done]. constructor; [by eexists|done].
Qed.

Lemma check_array_inv (X : list cell) (a : list float64) :
  sklearn.check_array X = Ok a →
  Forall numeric X ∧ X ≠ [] ∧ a = float_of <$> X.
Proof.
  unfold sklearn.check_array.
  destruct (res_mapM sklearn.to_float X) as [a'|] eqn:Ha; cbn; [|done].
  case_decide as Hnil; [done|]. intros [= <-].
  destruct (to_float_inv X a' Ha) as [Hnum ->].
  split; [done|]. split; [|done]. intros ->. by apply Hnil.
Qed.

Lemma fit_imputer_inv (T : pd.DataFrame) (statistics_ : float64) :
  fit_imputer T = Ok statistics_ →
  "DC" ∈ pd.columns T ∧ numeric_column T "DC" ∧ pd.rows T ≠ []
  ∧ statistics_ = np.nanmean (float_of <$> column_of T "DC").
Proof.
  unfold fit_imputer.
  destruct (pd.getitem T "DC") as [X|] eqn:HX; cbn; [|done].
  apply getitem_inv in HX as [Hc ->]. rewrite getitem_cells.
  unfold sklearn.Imputer_fit.
  destruct (sklearn.check_array (column_of T "DC")) as [a|] eqn:Ha; cbn; [|done].
  apply check_array_inv in Ha as (Hnum & Hne & ->). intros [= <-].
  split; [done|]. split; [|split; [|done]].
  - intros ir Hin. rewrite Forall_forall in Hnum. apply Hnum.
    unfold column_of. apply list_elem_of_fmap. by exists ir.
  - intros Hnil. apply Hne. unfold column_of. by rewrite Hnil.
Qed.

(** In a run that succeeds, the imputation statistic is the mean of the
    observed DC values of the training Table. *)
Lemma train_prepared_mean (T T' : pd.DataFrame) (statistics_ : float64)
    (p : sklearn.ScalerParams) :
  train_prepared T = Ok (T', statistics_, p) →
  observed (column_of T "DC") ≠ []
  ∧ statistics_ = Fin (np.mean (observed (column_of T "DC"))).
Proof.
  unfold train_prepared.
  destruct (fit_imputer T) as [m|] eqn:Hfit; cbn; [|done].
  apply fit_imputer_inv in Hfit as (Hc & Hnum & Hne & ->).
  rewrite nanmean_observed.
  destruct (observed (column_of T "DC")) as [|x xs] eqn:Hobs.
  - by rewrite impute_frame_nan.
  - destruct (impute_frame _ T) as [T1|]; cbn; [|done].
    destruct (outliers_removed _ 120) as [T2|]; cbn; [|done].
    destruct (fit_scaler T2) as [p'|]; cbn; [|done].
    destruct (scale_frame _ T2) as [T3|]; cbn; [|done].
    destruct (rain_frame T3) as [T4|]; cbn; [|done].
    by intros [= _ <- _].
Qed.

(** C1: run the training cells and then the test cell in two notebooks
    that hold the same training Table and any two test Tables.  In both,
    the fitted imputation statistic and the fitted normalization mean and
    scale are the same, and they are the statistics computed from the
    training Table alone ([train_statistics]); the imputation statistic
    is the mean of the observed DC values of the training rows; and the
    test Table is transformed with exactly these values. *)
Theorem no_leakage (nbA nbB nbA' nbB' : Notebook) (T : pd.DataFrame) :
  objects nbA !! df_train nbA = Some T →
  objects nbB !! df_train nbB = Some T →
  prepare_train nbA ≫= prepare_test = Ok nbA' →
  prepare_train nbB ≫= prepare_test = Ok nbB' →
  ∃ (statistics_ : float64) (p : sklearn.ScalerParams),
    train_statistics T = Ok (statistics_, p)
    ∧ imp nbA' = Some statistics_ ∧ normalizer nbA' = Some p
    ∧ imp nbB' = Some statistics_ ∧ normalizer nbB' = Some p
    ∧ statistics_ = Fin (np.mean (observed (column_of T "DC")))
    ∧ ∀ T_test : pd.DataFrame,
        objects nbA !! df_test nbA = Some T_test →
        df_test nbA ≠ df_train nbA →
        ∃ T' : pd.DataFrame,
          test_prepared (Some statistics_) (Some p) T_test = Ok T'
          ∧ objects nbA' !! df_test nbA' = Some T'.
Proof.
  intros HA HB HrunA HrunB.
  pose proof (prepare_train_run nbA T HA) as PA.
  pose proof (prepare_train_run nbB T HB) as PB.
  unfold mbind, res_bind in HrunA, HrunB.
  destruct (train_prepared T) as [[[T1 m] p]|e] eqn:Htp.
  2:{ by rewrite PA in HrunA. }
  destruct PA as (hA & lA & HpA & HlA & HfreshA & HothersA).
  destruct PB as (hB & lB & HpB & HlB & HfreshB & HothersB).
  rewrite HpA in HrunA. rewrite HpB in HrunB.
  exists m, p.
  split; [by eapply train_prepared_statistics|].
  assert (∀ nb nb', prepare_test nb = Ok nb' →
            imp nb' = imp nb ∧ normalizer nb' = normalizer nb) as Hkeep.
  { intros nb nb' Hrun. unfold prepare_test, mbind, res_bind in Hrun.
    repeat case_match; simplify_eq; done. }
  destruct (Hkeep _ _ HrunA) as [-> ->].
  destruct (Hkeep _ _ HrunB) as [-> ->].
  cbn [imp normalizer].
  split; [done|]. split; [done|]. split; [done|]. split; [done|].
  split; [by eapply train_prepared_mean|].
  intros T_test Htest Hne.
  pose proof (prepare_test_run
                (mkNotebook hA lA (df_test nbA) (Some m) (Some p)) T_test) as PT.
  cbn [objects df_train df_test imp normalizer] in PT.
  rewrite HothersA in PT by done. specialize (PT Htest).
  destruct (test_prepared (Some m) (Some p) T_test) as [T'|e].
  2:{ rewrite PT in HrunA. done. }
  destruct PT as (h' & l & Hp & Hl & _). rewrite Hp in HrunA.
  injection HrunA as <-. by exists T'.
Qed.

(** From a preparable training Table with an observed DC value and a
    preparable test Table, held by different objects, the cells run to
    the end. *)
Lemma pipeline_ok (nb : Notebook) (T T_test : pd.DataFrame) :
  objects nb !! df_train nb = Some T →
  objects nb !! df_test nb = Some T_test →
  df_test nb ≠ df_train nb →
  preparable T → observed (column_of T "DC") ≠ [] → preparable T_test →
  ∃ nb' : Notebook, prepare_train nb ≫= prepare_test = Ok nb'.
Proof.
  intros Htrain Htest Hne Hprep Hobs Hprep_test.
  pose proof (prepare_train_run nb T Htrain) as PT.
  destruct (train_prepared_ok T Hprep Hobs) as (T' & p & Htp).
  rewrite Htp in PT. destruct PT as (h1 & l1 & Hrun1 & _ & _ & Hothers).
  unfold mbind, res_bind. rewrite Hrun1.
  pose proof (prepare_test_run
                (mkNotebook h1 l1 (df_test nb)
                   (Some (Fin (np.mean (observed (column_of T "DC")))))
                   (Some p)) T_test) as PT.
  cbn [objects df_train df_test imp normalizer] in PT.
  rewrite Hothers in PT by done. specialize (PT Htest).
  destruct (test_prepared_ok T_test (np.mean (observed (column_of T "DC"))) p
              Hprep_test) as [T2 HT2].
  rewrite HT2 in PT. destruct PT as (h' & l & Hp & _). by eexists.
Qed.

Lemma preparable_mkrows (rs : list pd.row) (l : nat) (ffmc : R) (dc : float64)
    (rain area : R) :
  (∀ ir : pd.row, ir ∈ rs → ∃ f d r a, ir.2 = mkrow f d r a) →
  NoDup rs.*1 →
  (l, mkrow (Fin ffmc) dc (Fin rain) (Fin area)) ∈ rs →
  (ffmc <= 120)%R →
  preparable {| pd.columns := schema; pd.rows := rs |}.
Proof.
  intros Hrows Hnd Hin Hle. unfold preparable, schema. cbn [pd.columns pd.rows].
  split; [set_solver|]. split; [set_solver|]. split; [set_solver|].
  assert (∀ c, numeric_column {| pd.columns := schema; pd.rows := rs |} c)
    as Hnum.
  { intros c ir Hir. destruct (Hrows ir Hir) as (f & d & r & a & ->).
    apply mkrow_numeric. }
  split; [apply Hnum|]. split; [apply Hnum|]. split; [done|].
  eexists. split; [exact Hin|]. cbn [snd]. split.
  - intros c Hc Hne.
    repeat (apply elem_of_cons in Hc as [->|Hc]);
      [..|by apply elem_of_nil in Hc];
      rewrite ?mkrow_FFMC, ?mkrow_rain, ?mkrow_area; done.
  - exists ffmc. by rewrite mkrow_FFMC.
Qed.

Ltac mkrow_rows :=
  let ir := fresh "ir" in let Hin := fresh "Hin" in
  intros ir Hin;
  repeat (apply elem_of_cons in Hin as [->|Hin]);
  [..|by apply elem_of_nil in Hin]; by eexists _, _, _, _.

Lemma sample_df_preparable : preparable sample_df.
Proof.
  apply (preparable_mkrows _ 0 90 (Fin 10) 0 0).
  - mkrow_rows.
  - cbn. apply NoDup_ListNoDup. repeat constructor; cbn; lia.
  - by left.
  - lra.
Qed.

Lemma sample_test_preparable : preparable sample_test.
Proof.
  apply (preparable_mkrows _ 5 80 (Fin 400) 0 0).
  - mkrow_rows.
  - cbn. apply NoDup_ListNoDup. repeat constructor; cbn; lia.
  - right. by left.
  - lra.
Qed.

Lemma other_test_preparable : preparable other_test.
Proof.
  apply (preparable_mkrows _ 4 70 (Fin 1000) 3 9).
  - mkrow_rows.
  - cbn. apply NoDup_ListNoDup. repeat constructor; cbn; lia.
  - by left.
  - lra.
Qed.

Lemma sample_test_DC : observed (column_of sample_test "DC") = [400]%R.
Proof.
  unfold column_of, sample_test. cbn [pd.rows fmap list_fmap snd].
  by rewrite !mkrow_DC.
Qed.

(** The naive mean of the sample test set is not the training mean. *)
Lemma sample_means_differ :
  np.mean (observed (column_of sample_test "DC"))
  ≠ np.mean (observed (column_of sample_df "DC")).
Proof.
  rewrite sample_test_DC, sample_df_DC. unfold np.mean, np.sum. cbn. lra.
Qed.

Lemma no_leakage_witness :
  ∃ (nbA' nbB' : Notebook) (statistics_ : float64) (p : sklearn.ScalerParams),
    prepare_train (notebook sample_df sample_test) ≫= prepare_test = Ok nbA'
    ∧ prepare_train (notebook sample_df other_test) ≫= prepare_test = Ok nbB'
    ∧ train_statistics sample_df = Ok (statistics_, p)
    ∧ imp nbA' = Some statistics_ ∧ normalizer nbA' = Some p
    ∧ imp nbB' = Some statistics_ ∧ normalizer nbB' = Some p
    ∧ statistics_ = Fin (np.mean [10; 20; 10]%R)
    ∧ ∃ T' : pd.DataFrame,
        test_prepared (Some statistics_) (Some p) sample_test = Ok T'
        ∧ objects nbA' !! df_test nbA' = Some T'.
Proof.
  destruct (pipeline_ok (notebook sample_df sample_test) sample_df sample_test)
    as [nbA' HA];
    [done|done|done|apply sample_df_preparable|by rewrite sample_df_DC
    |apply sample_test_preparable|].
  destruct (pipeline_ok (notebook sample_df other_test) sample_df other_test)
    as [nbB' HB];
    [done|done|done|apply sample_df_preparable|by rewrite sample_df_DC
    |apply other_test_preparable|].
  destruct (no_leakage (notebook sample_df sample_test)
              (notebook sample_df other_test) nbA' nbB' sample_df
              eq_refl eq_refl HA HB)
    as (m & p & Hstat & HiA & HnA & HiB & HnB & Hm & Htest).
  exists nbA', nbB', m, p.
  rewrite sample_df_DC in Hm.
  repeat (split; [done|]).
  by apply Htest.
Defined.

(** * Further properties of the notebooks' code *)

(** ** Rows with missing values *)

Lemma has_na_iff (cols : list string) (r : gmap string cell) :
  pd.has_na cols r ↔ ∃ c, c ∈ cols ∧ pd.cell_at r c = F NaN.
Proof.
  unfold pd.has_na, pd.row_values. rewrite list_elem_of_fmap.
  split; intros (c & H1 & H2); exists c; by split.
Qed.

Lemma filter_fixed {A} (P : A → Prop) `{∀ x, Decision (P x)} (l : list A) :
  (∀ x, x ∈ l → P x) → filter P l = l.
Proof.
  induction l as [|x l IH]; intros Hall; [done|].
  rewrite filter_cons, decide_True by (apply Hall; by left).
  f_equal. apply IH. intros y Hy. apply Hall. by right.
Qed.

(** X1: [dropna(inplace=True)] leaves in the Table exactly the rows that have
    no missing value in any column, in their order, and a second
    [dropna] changes nothing. *)
Theorem dropna_spec (h : store) (df : nat) (T : pd.DataFrame) :
  h !! df = Some T →
  ∃ T' : pd.DataFrame,
    dropna_inplace df h = Ok ((), <[df := T']> h)
    ∧ pd.columns T' = pd.columns T
    ∧ (∀ ir : pd.row,
         ir ∈ pd.rows T' ↔
         ir ∈ pd.rows T ∧ ∀ c, c ∈ pd.columns T → pd.cell_at ir.2 c ≠ F NaN)
    ∧ pd.rows T' `sublist_of` pd.rows T
    ∧ dropna_inplace df (<[df := T']> h) = Ok ((), <[df := T']> h).
Proof.
  intros Hh. exists (pd.dropna T).
  split; [by apply dropna_inplace_ok|]. split; [done|].
  assert (∀ ir : pd.row,
            ir ∈ pd.rows (pd.dropna T) ↔
            ir ∈ pd.rows T ∧ ∀ c, c ∈ pd.columns T → pd.cell_at ir.2 c ≠ F NaN)
    as Hrows.
  { intros ir. cbn. rewrite list_elem_of_filter, has_na_iff. split.
    - intros [Hna Hin]. split; [done|]. intros c Hc Hnan. apply Hna. eauto.
    - intros [Hin Hna]. split; [|done]. intros (c & Hc & Hnan). by eapply Hna. }
  split; [exact Hrows|]. split; [apply sublist_filter|].
  rewrite (dropna_inplace_ok _ df (pd.dropna T)) by apply lookup_insert_eq.
  rewrite insert_insert_eq. do 3 f_equal.
  unfold pd.dropna. cbn [pd.columns pd.rows].
  f_equal. apply filter_fixed. intros ir Hin.
  by apply list_elem_of_filter in Hin as [Hna _].
Qed.

Lemma dropna_spec_witness :
  ∃ T' : pd.DataFrame,
    dropna_inplace 0 {[0 := sample_df]} = Ok ((), <[0 := T']> {[0 := sample_df]})
    ∧ pd.columns T' = pd.columns sample_df
    ∧ (∀ ir : pd.row,
         ir ∈ pd.rows T' ↔
         ir ∈ pd.rows sample_df
         ∧ ∀ c, c ∈ pd.columns sample_df → pd.cell_at ir.2 c ≠ F NaN)
    ∧ pd.rows T' `sublist_of` pd.rows sample_df
    ∧ dropna_inplace 0 (<[0 := T']> {[0 := sample_df]})
      = Ok ((), <[0 := T']> {[0 := sample_df]}).
Proof.
  apply (dropna_spec {[0 := sample_df]} 0 sample_df).
  apply lookup_singleton_eq.
Defined.

(** ** Deduplication, again *)

Lemma keep_first_fixed (cols : list string) (seen : list (list cell))
    (rs : list pd.row) :
  NoDup ((λ ir : pd.row, pd.row_values cols ir.2) <$> rs) →
  (∀ ir : pd.row, ir ∈ rs → pd.row_values cols ir.2 ∉ seen) →
  pd.keep_first cols seen rs = rs.
Proof.
  revert seen. induction rs as [|ir rs IH]; intros seen Hnd Hseen; [done|].
  rewrite fmap_cons in Hnd. apply NoDup_cons in Hnd as [Hir Hnd].
  cbn. rewrite decide_False by (apply Hseen; by left).
  f_equal. apply IH; [done|].
  intros ir' Hin [Heq|Hs]%elem_of_cons.
  - apply Hir. rewrite <- Heq. apply list_elem_of_fmap. by exists ir'.
  - apply (Hseen ir'); [by right|done].
Qed.

Lemma drop_duplicates_fixed (T : pd.DataFrame) :
  NoDup ((λ ir : pd.row, pd.row_values (pd.columns T) ir.2) <$> pd.rows T) →
  pd.drop_duplicates T = T.
Proof.
  intros Hnd. destruct T as [cols rs]. unfold pd.drop_duplicates. cbn in *.
  f_equal. apply keep_first_fixed; [done|].
  intros ir _ Hin. by apply elem_of_nil in Hin.
Qed.

(** X2: [drop_duplicates(inplace=True)] always keeps the first row, leaves a
    Table without duplicate rows as it is, and changes nothing when the
    cell is run a second time. *)
Theorem drop_duplicates_again (h : store) (df : nat) (T : pd.DataFrame) :
  h !! df = Some T →
  ∃ T' : pd.DataFrame,
    drop_duplicates_inplace df h = Ok ((), <[df := T']> h)
    ∧ head (pd.rows T') = head (pd.rows T)
    ∧ (NoDup ((λ ir : pd.row, pd.row_values (pd.columns T) ir.2) <$> pd.rows T)
       → T' = T)
    ∧ drop_duplicates_inplace df (<[df := T']> h) = Ok ((), <[df := T']> h).
Proof.
  intros Hh. exists (pd.drop_duplicates T).
  split; [by apply drop_duplicates_inplace_ok|].
  split. { cbn. destruct (pd.rows T) as [|ir rs]; [done|]. cbn.
           rewrite decide_False; [done|]. apply not_elem_of_nil. }
  split; [apply drop_duplicates_fixed|].
  rewrite (drop_duplicates_inplace_ok _ df (pd.drop_duplicates T))
    by apply lookup_insert_eq.
  rewrite insert_insert_eq. do 3 f_equal.
  apply drop_duplicates_fixed. cbn. apply keep_first_NoDup.
Qed.

Lemma drop_duplicates_again_witness :
  ∃ T' : pd.DataFrame,
    drop_duplicates_inplace 0 {[0 := sample_df]}
    = Ok ((), <[0 := T']> {[0 := sample_df]})
    ∧ head (pd.rows T') = head (pd.rows sample_df)
    ∧ (NoDup ((λ ir : pd.row, pd.row_values (pd.columns sample_df) ir.2)
                <$> pd.rows sample_df)
       → T' = sample_df)
    ∧ drop_duplicates_inplace 0 (<[0 := T']> {[0 := sample_df]})
      = Ok ((), <[0 := T']> {[0 := sample_df]}).
Proof.
  apply (drop_duplicates_again {[0 := sample_df]} 0 sample_df).
  apply lookup_singleton_eq.
Defined.

(** ** The outlier filter, again *)

Lemma rows_to_remove_inv (c : string) (τ : R) (rs : list pd.row)
    (mask : list (nat * bool)) :
  res_mapM (λ iv : nat * cell, b ← pd.gt iv.2 τ; Ok (iv.1, b))
           ((λ ir : pd.row, (ir.1, pd.cell_at ir.2 c)) <$> rs) = Ok mask →
  ∀ ir : pd.row, ir ∈ rs → numeric (pd.cell_at ir.2 c).
Proof.
  revert mask. induction rs as [|ir rs IH]; intros mask Hrun ir' Hin.
  - by apply elem_of_nil in Hin.
  - rewrite fmap_cons in Hrun. cbn in Hrun.
    destruct (pd.cell_at ir.2 c) as [x|s] eqn:Hcell; [|done].
    assert (∃ b, pd.gt (F x) τ = Ok b) as [b Hb] by (destruct x; by eexists).
    rewrite Hb in Hrun. cbn in Hrun.
    destruct (res_mapM _ _) as [mask'|] eqn:Hmask; [|done].
    apply elem_of_cons in Hin as [->|Hin].
    + rewrite Hcell. by eexists.
    + by eapply IH.
Qed.

Lemma outliers_removed_inv (T T' : pd.DataFrame) (τ : R) :
  outliers_removed T τ = Ok T' →
  "FFMC" ∈ pd.columns T ∧ numeric_column T "FFMC"
  ∧ ∃ labels : list nat,
      T' = pd.drop T labels
      ∧ ∀ l, l ∈ labels ↔
             ∃ ir : pd.row, ir ∈ pd.rows T ∧ ir.1 = l
                            ∧ exceeds (pd.cell_at ir.2 "FFMC") τ.
Proof.
  intros Hrun. unfold outliers_removed in Hrun.
  destruct (pd.getitem T "FFMC") as [ffmc|] eqn:Hget; [|done].
  apply getitem_inv in Hget as [Hc ->]. cbn in Hrun.
  destruct (res_mapM _ _) as [mask|] eqn:Hmask; [|done].
  pose proof (rows_to_remove_inv "FFMC" τ (pd.rows T) mask Hmask) as Hnum.
  split; [done|]. split; [done|].
  destruct (outliers_removed_ok T τ Hc Hnum) as (labels & Hok & Hl).
  exists labels. split; [|done].
  unfold outliers_removed in Hok. rewrite getitem_ok in Hok by done.
  cbn in Hok. rewrite Hmask in Hok. cbn in Hok, Hrun. congruence.
Qed.

(** A Table in which no FFMC value exceeds the threshold passes the
    filter unchanged. *)
Lemma outliers_removed_fixed (T : pd.DataFrame) (τ : R) :
  "FFMC" ∈ pd.columns T → numeric_column T "FFMC" →
  (∀ ir : pd.row, ir ∈ pd.rows T → ¬ exceeds (pd.cell_at ir.2 "FFMC") τ) →
  outliers_removed T τ = Ok T.
Proof.
  intros Hc Hnum Hall.
  destruct (outliers_removed_ok T τ Hc Hnum) as (labels & -> & Hl).
  f_equal. destruct T as [cols rs]. unfold pd.drop. cbn in *. f_equal.
  apply filter_fixed. intros ir Hin (ir' & Hin' & _ & He)%Hl.
  by apply (Hall ir').
Qed.

(** X3: Filtering twice: after [outlier_removal] at threshold [τ], a second
    [outlier_removal] at any threshold [τ' ≥ τ] (the same one included)
    returns a new Table equal to the first result, and leaves the first
    result in place. *)
Theorem outlier_removal_twice (h h1 : store) (dframe l1 : nat) (τ τ' : R) :
  outlier_removal dframe τ h = Ok (l1, h1) →
  (τ <= τ')%R →
  ∃ T1 : pd.DataFrame,
    h1 !! l1 = Some T1
    ∧ outlier_removal l1 τ' h1
      = Ok (fresh (dom h1), <[fresh (dom h1) := T1]> h1).
Proof.
  intros Hrun Hle. rewrite outlier_removal_run in Hrun.
  destruct (h !! dframe) as [T|] eqn:Hh; [|done].
  destruct (outliers_removed T τ) as [T1|] eqn:Hout; [|done].
  injection Hrun as <- <-. exists T1.
  split; [apply lookup_insert_eq|].
  rewrite outlier_removal_run, lookup_insert_eq.
  apply outliers_removed_inv in Hout as (Hc & Hnum & labels & -> & Hl).
  rewrite outliers_removed_fixed; [done|done| |].
  - intros ir [_ Hin]%list_elem_of_filter. by apply Hnum.
  - intros ir [Hnot Hin]%list_elem_of_filter (x & Hx & Hgt).
    apply Hnot, Hl. exists ir. split; [done|]. split; [done|].
    exists x. split; [done|]. lra.
Qed.

Lemma outlier_removal_twice_witness :
  ∃ (l1 : nat) (h1 : store) (T1 : pd.DataFrame),
    outlier_removal 0 120 {[0 := sample_df]} = Ok (l1, h1)
    ∧ h1 !! l1 = Some T1
    ∧ outlier_removal l1 150 h1
      = Ok (fresh (dom h1), <[fresh (dom h1) := T1]> h1).
Proof.
  destruct (outlier_removal_ok {[0 := sample_df]} 0 sample_df 120
              (lookup_singleton_eq _ _)
              ltac:(cbn; unfold schema; set_solver)
              (sample_df_numeric "FFMC")) as (labels & Hrun & _).
  destruct (outlier_removal_twice _ _ 0 _ 120 150 Hrun ltac:(lra))
    as (T1 & H1 & H2).
  by eexists _, _, T1.
Defined.

(** The filter's failures: without an FFMC column [outlier_removal]
    raises [KeyError]; with a text cell in the FFMC column it raises
    [TypeError]. *)
Lemma rows_to_remove_text (c : string) (τ : R) (rs : list pd.row) :
  (∃ (ir : pd.row) (s : string), ir ∈ rs ∧ pd.cell_at ir.2 c = Str s) →
  res_mapM (λ iv : nat * cell, b ← pd.gt iv.2 τ; Ok (iv.1, b))
           ((λ ir : pd.row, (ir.1, pd.cell_at ir.2 c)) <$> rs)
  = Raise TypeError.
Proof.
  induction rs as [|ir rs IH]; intros (ir' & s & Hin & Hs).
  - by apply elem_of_nil in Hin.
  - rewrite fmap_cons. cbn.
    destruct (pd.cell_at ir.2 c) as [x|s'] eqn:Hcell; [|done].
    apply elem_of_cons in Hin as [->|Hin]; [congruence|].
    assert (∃ b, pd.gt (F x) τ = Ok b) as [b ->] by (destruct x; by eexists).
    cbn. rewrite IH; [done|]. by exists ir', s.
Qed.

(** X4: [outlier_removal] fails with a [KeyError] on a Table without an
    ['FFMC'] column, and with a [TypeError] on a Table whose ['FFMC']
    column holds a text value in some row. *)
Theorem outlier_removal_errors (h : store) (dframe : nat) (T : pd.DataFrame)
    (τ : R) :
  h !! dframe = Some T →
  ("FFMC" ∉ pd.columns T → outlier_removal dframe τ h = Raise KeyError)
  ∧ ("FFMC" ∈ pd.columns T →
     (∃ (ir : pd.row) (s : string),
        ir ∈ pd.rows T ∧ pd.cell_at ir.2 "FFMC" = Str s) →
     outlier_removal dframe τ h = Raise TypeError).
Proof.
  intros Hh. rewrite outlier_removal_run, Hh. unfold outliers_removed. split.
  - intros Hc. unfold pd.getitem. by rewrite decide_False.
  - intros Hc Htext. rewrite getitem_ok by done. cbn.
    by rewrite rows_to_remove_text.
Qed.

Lemma outlier_removal_errors_witness :
  outlier_removal 0 120
    {[0 := {| pd.columns := ["month"];
              pd.rows := [(0, {["month" := Str "aug"]})] |}]}
  = Raise KeyError
  ∧ outlier_removal 0 120
      {[0 := {| pd.columns := ["FFMC"];
                pd.rows := [(0, {["FFMC" := F (Fin 90)]});
                            (1, {["FFMC" := Str "high"]})] |}]}
    = Raise TypeError.
Proof.
  split.
  - apply (outlier_removal_errors _ 0 _ 120 (lookup_singleton_eq _ _)).
    cbn. intros [Heq|Hin]%elem_of_cons; [discriminate|].
    by apply elem_of_nil in Hin.
  - apply (outlier_removal_errors _ 0 _ 120 (lookup_singleton_eq _ _)).
    + cbn. set_solver.
    + exists (1, {["FFMC" := Str "high"]}), "high". split; [|done].
      right. by left.
Defined.

(** ** The derived feature, again *)

(** X5: Running [add_did_it_rain] a second time on the Table changes
    nothing. *)
Theorem add_did_it_rain_twice (h : store) (dframe : nat) (T : pd.DataFrame) :
  h !! dframe = Some T →
  "rain" ∈ pd.columns T →
  ∃ h1 : store,
    add_did_it_rain dframe h = Ok (dframe, h1)
    ∧ add_did_it_rain dframe h1 = Ok (dframe, h1).
Proof.
  intros Hh Hc. eexists. split; [by apply add_did_it_rain_ok|].
  erewrite add_did_it_rain_ok; [|apply lookup_insert_eq|].
  2:{ cbn. case_decide; [done|]. apply elem_of_app. by left. }
  rewrite insert_insert_eq. do 3 f_equal. cbn [pd.columns pd.rows]. f_equal.
  - destruct (decide ("did_it_rain" ∈ pd.columns T)) as [Hin|Hnin].
    + by rewrite decide_True.
    + rewrite decide_True; [done|]. apply elem_of_app. right. by left.
  - rewrite <- list_fmap_compose. apply list_fmap_ext. intros i ir _. cbn.
    rewrite cell_at_insert_ne by done. by rewrite insert_insert_eq.
Qed.

Lemma add_did_it_rain_twice_witness :
  ∃ h1 : store,
    add_did_it_rain 0 {[0 := sample_df]} = Ok (0, h1)
    ∧ add_did_it_rain 0 h1 = Ok (0, h1).
Proof.
  apply (add_did_it_rain_twice {[0 := sample_df]} 0 sample_df).
  - apply lookup_singleton_eq.
  - cbn. unfold schema. set_solver.
Defined.

(** ** What imputation leaves behind *)

Lemma column_of_map_column (c : string) (f : float64 → float64)
    (T : pd.DataFrame) :
  column_of (map_column c f T) c = (λ v, F (f (float_of v))) <$> column_of T c.
Proof.
  unfold column_of, map_column. cbn [pd.rows].
  rewrite <- !list_fmap_compose. apply list_fmap_ext. intros i ir _. cbn.
  by rewrite cell_at_insert_eq.
Qed.

Lemma INR_length_pos {A} (l : list A) : l ≠ [] → (0 < INR (length l))%R.
Proof. intros Hne. destruct l; [done|]. apply lt_0_INR. cbn. lia. Qed.

(** Imputing with [m] adds [m] once for every missing value. *)
Lemma imputed_sum (m : R) (X : list cell) :
  Forall numeric X →
  ∃ k : nat,
    length X = length (observed X) + k
    ∧ observed ((λ v, F (sklearn.impute m (float_of v))) <$> X)
      = (λ v, match float_of v with Fin x => x | NaN => m end) <$> X
    ∧ np.sum ((λ v, match float_of v with Fin x => x | NaN => m end) <$> X)
      = (np.sum (observed X) + INR k * m)%R.
Proof.
  induction 1 as [|v X [x ->] _ (k & Hlen & Hobs & Hsum)].
  - exists 0. cbn. split; [done|]. split; [done|]. lra.
  - rewrite !fmap_cons. destruct x as [x|].
    + exists k.
      change (observed (F (Fin x) :: X)) with (x :: observed X).
      change (observed (F (sklearn.impute m (float_of (F (Fin x)))) :: ?l))
        with (x :: observed l).
      cbn [length float_of]. split; [lia|]. split; [by rewrite Hobs|].
      unfold np.sum in *. cbn [foldr]. rewrite Hsum. ring.
    + exists (S k).
      change (observed (F NaN :: X)) with (observed X).
      change (observed (F (sklearn.impute m (float_of (F NaN))) :: ?l))
        with (m :: observed l).
      cbn [length float_of]. split; [lia|]. split; [by rewrite Hobs|].
      unfold np.sum in *. cbn [foldr]. rewrite Hsum, S_INR. ring.
Qed.

Lemma imputed_mean (X : list cell) :
  Forall numeric X → observed X ≠ [] →
  let m := np.mean (observed X) in
  length (observed ((λ v, F (sklearn.impute m (float_of v))) <$> X)) = length X
  ∧ np.mean (observed ((λ v, F (sklearn.impute m (float_of v))) <$> X)) = m.
Proof.
  intros Hnum Hne m.
  destruct (imputed_sum m X Hnum) as (k & Hlen & -> & Hsum).
  split; [by rewrite length_fmap|].
  unfold np.mean at 1. rewrite Hsum, length_fmap, Hlen, plus_INR.
  pose proof (INR_length_pos (observed X) Hne) as Hpos.
  pose proof (pos_INR k) as Hk.
  unfold m, np.mean. field. split; lra.
Qed.

Lemma cell_impute_train_ok (nb : Notebook) (T : pd.DataFrame) :
  objects nb !! df_train nb = Some T →
  "DC" ∈ pd.columns T → numeric_column T "DC" →
  observed (column_of T "DC") ≠ [] →
  cell_impute_train nb
  = Ok (mkNotebook
          (<[df_train nb :=
               map_column "DC"
                 (sklearn.impute (np.mean (observed (column_of T "DC")))) T]>
             (objects nb))
          (df_train nb) (df_test nb)
          (Some (Fin (np.mean (observed (column_of T "DC")))))
          (normalizer nb)).
Proof.
  intros Hl Hc Hnum Hobs. rewrite (cell_impute_train_run nb T Hl).
  assert (pd.rows T ≠ []) as Hne.
  { intros Hnil. apply Hobs. unfold column_of. by rewrite Hnil. }
  rewrite fit_imputer_ok, nanmean_observed by done.
  destruct (observed (column_of T "DC")) as [|x xs] eqn:Hx; [done|].
  by rewrite impute_frame_ok.
Qed.

(** X6: After the imputation cell no DC value of the training Table is
    missing: a missing value has become the training mean, every other
    value and every other column is as before, and the mean of the DC
    column is still the training mean. *)
Theorem imputation_result (nb : Notebook) (T : pd.DataFrame) :
  objects nb !! df_train nb = Some T →
  "DC" ∈ pd.columns T → numeric_column T "DC" →
  observed (column_of T "DC") ≠ [] →
  ∃ (nb' : Notebook) (T' : pd.DataFrame) (m : R),
    cell_impute_train nb = Ok nb'
    ∧ objects nb' !! df_train nb' = Some T'
    ∧ m = np.mean (observed (column_of T "DC"))
    ∧ imp nb' = Some (Fin m)
    ∧ (∀ (i : nat) (ir : pd.row), pd.rows T !! i = Some ir →
         ∃ ir' : pd.row,
           pd.rows T' !! i = Some ir'
           ∧ ir'.1 = ir.1
           ∧ (pd.cell_at ir.2 "DC" = F NaN → pd.cell_at ir'.2 "DC" = F (Fin m))
           ∧ (∀ x, pd.cell_at ir.2 "DC" = F (Fin x) →
                   pd.cell_at ir'.2 "DC" = F (Fin x))
           ∧ ∀ c, c ≠ "DC" → ir'.2 !! c = ir.2 !! c)
    ∧ length (observed (column_of T' "DC")) = length (pd.rows T')
    ∧ np.mean (observed (column_of T' "DC")) = m.
Proof.
  intros Hl Hc Hnum Hobs.
  eexists _, _, _. split; [by apply cell_impute_train_ok|].
  cbn [objects df_train imp]. split; [apply lookup_insert_eq|].
  split; [done|]. split; [done|]. split.
  - intros i ir Hi. eexists. cbn [map_column pd.rows].
    rewrite list_lookup_fmap, Hi. split; [done|]. cbn [fst snd].
    split; [done|].
    rewrite cell_at_insert_eq. split; [|split].
    + by intros ->.
    + by intros x ->.
    + intros c Hne. by rewrite lookup_insert_ne.
  - rewrite column_of_map_column.
    destruct (imputed_mean (column_of T "DC")
                (numeric_column_Forall T "DC" Hnum) Hobs) as [Hlen Hmean].
    split; [|exact Hmean].
    rewrite Hlen. unfold column_of, map_column. cbn. by rewrite !length_fmap.
Qed.

Lemma imputation_result_witness :
  ∃ (nb' : Notebook) (T' : pd.DataFrame) (m : R),
    cell_impute_train (notebook sample_df sample_test) = Ok nb'
    ∧ objects nb' !! df_train nb' = Some T'
    ∧ m = np.mean [10; 20; 10]%R
    ∧ imp nb' = Some (Fin m)
    ∧ length (observed (column_of T' "DC")) = length (pd.rows T')
    ∧ np.mean (observed (column_of T' "DC")) = m.
Proof.
  destruct (imputation_result (notebook sample_df sample_test) sample_df)
    as (nb' & T' & m & Hrun & HT' & Hm & Himp & _ & Hlen & Hmean).
  - done.
  - cbn. unfold schema. set_solver.
  - apply sample_df_numeric.
  - by rewrite sample_df_DC.
  - rewrite sample_df_DC in Hm. by exists nb', T', m.
Defined.

(** ** The prepared Tables *)

Lemma impute_frame_inv (T T1 : pd.DataFrame) (m : R) :
  impute_frame (Some (Fin m)) T = Ok T1 →
  "DC" ∈ pd.columns T ∧ numeric_column T "DC" ∧ pd.rows T ≠ []
  ∧ T1 = map_column "DC" (sklearn.impute m) T.
Proof.
  intros Hrun.
  assert ("DC" ∈ pd.columns T ∧ numeric_column T "DC" ∧ pd.rows T ≠ [])
    as (Hc & Hnum & Hne).
  { unfold impute_frame in Hrun.
    destruct (pd.getitem T "DC") as [X|] eqn:HX; [|done].
    apply getitem_inv in HX as [Hc ->]. cbn in Hrun.
    rewrite getitem_cells in Hrun. unfold sklearn.Imputer_transform in Hrun.
    destruct (sklearn.check_array (column_of T "DC")) as [a|] eqn:Ha; [|done].
    apply check_array_inv in Ha as (Hnum & Hne & _).
    split; [done|]. split.
    - intros ir Hin. rewrite Forall_forall in Hnum. apply Hnum.
      unfold column_of. apply list_elem_of_fmap. by exists ir.
    - intros Hnil. apply Hne. unfold column_of. by rewrite Hnil. }
  rewrite impute_frame_ok in Hrun by done. by injection Hrun as <-.
Qed.

Lemma fit_scaler_inv (T : pd.DataFrame) (p : sklearn.ScalerParams) :
  fit_scaler T = Ok p →
  "DC" ∈ pd.columns T ∧ numeric_column T "DC" ∧ pd.rows T ≠ []
  ∧ p = {| sklearn.mean_ := np.nanmean (float_of <$> column_of T "DC");
           sklearn.scale_ :=
             sklearn.handle_zeros_in_scale
               (sklearn.fsqrt (np.nanvar (float_of <$> column_of T "DC"))) |}.
Proof.
  intros Hrun.
  assert ("DC" ∈ pd.columns T ∧ numeric_column T "DC" ∧ pd.rows T ≠ [])
    as (Hc & Hnum & Hne).
  { unfold fit_scaler in Hrun.
    destruct (pd.getitem T "DC") as [X|] eqn:HX; [|done].
    apply getitem_inv in HX as [Hc ->]. cbn in Hrun.
    rewrite getitem_cells in Hrun. unfold sklearn.StandardScaler_fit in Hrun.
    destruct (sklearn.check_array (column_of T "DC")) as [a|] eqn:Ha; [|done].
    apply check_array_inv in Ha as (Hnum & Hne & _).
    split; [done|]. split.
    - intros ir Hin. rewrite Forall_forall in Hnum. apply Hnum.
      unfold column_of. apply list_elem_of_fmap. by exists ir.
    - intros Hnil. apply Hne. unfold column_of. by rewrite Hnil. }
  rewrite fit_scaler_ok in Hrun by done. by injection Hrun as <-.
Qed.

Lemma scale_frame_inv (T T' : pd.DataFrame) (p : sklearn.ScalerParams) :
  scale_frame (Some p) T = Ok T' →
  "DC" ∈ pd.columns T ∧ numeric_column T "DC" ∧ pd.rows T ≠ []
  ∧ T' = map_column "DC" (sklearn.standardize p) T.
Proof.
  intros Hrun.
  assert ("DC" ∈ pd.columns T ∧ numeric_column T "DC" ∧ pd.rows T ≠ [])
    as (Hc & Hnum & Hne).
  { unfold scale_frame in Hrun.
    destruct (pd.getitem T "DC") as [X|] eqn:HX; [|done].
    apply getitem_inv in HX as [Hc ->]. cbn in Hrun.
    rewrite getitem_cells in Hrun.
    unfold sklearn.StandardScaler_transform in Hrun.
    destruct (sklearn.check_array (column_of T "DC")) as [a|] eqn:Ha; [|done].
    apply check_array_inv in Ha as (Hnum & Hne & _).
    split; [done|]. split.
    - intros ir Hin. rewrite Forall_forall in Hnum. apply Hnum.
      unfold column_of. apply list_elem_of_fmap. by exists ir.
    - intros Hnil. apply Hne. unfold column_of. by rewrite Hnil. }
  rewrite scale_frame_ok in Hrun by done. by injection Hrun as <-.
Qed.

Lemma rain_frame_explicit (T : pd.DataFrame) :
  "rain" ∈ pd.columns T →
  rain_frame T
  = Ok {| pd.columns := if decide ("did_it_rain" ∈ pd.columns T)
                        then pd.columns T
                        else pd.columns T ++ ["did_it_rain"];
          pd.rows := (λ ir : pd.row,
            (ir.1, <["did_it_rain" :=
                      pd.where_ pd.eq_zero (F (Fin 1))
                                (pd.cell_at ir.2 "rain")]> ir.2))
            <$> pd.rows T |}.
Proof.
  intros Hc. unfold rain_frame. rewrite getitem_ok by done. cbn.
  unfold pd.setitem. rewrite decide_True by (by rewrite !length_fmap).
  by rewrite setitem_from_column.
Qed.

Lemma rain_frame_inv (T T' : pd.DataFrame) :
  rain_frame T = Ok T' → "rain" ∈ pd.columns T.
Proof.
  unfold rain_frame. destruct (pd.getitem T "rain") as [X|] eqn:HX; [|done].
  by apply getitem_inv in HX as [Hc _].
Qed.

Lemma where_eq_zero_not_nan (v : cell) :
  pd.where_ pd.eq_zero (F (Fin 1)) v ≠ F NaN.
Proof.
  unfold pd.where_. destruct (pd.eq_zero v) eqn:Hz; [|done].
  by destruct v as [[x|]|s].
Qed.

Lemma fmap_fst_relabel (g : pd.row → gmap string cell) (rs : list pd.row) :
  ((λ ir : pd.row, (ir.1, g ir)) <$> rs).*1 = rs.*1.
Proof. rewrite <- list_fmap_compose. by apply list_fmap_ext. Qed.

(** The cleaning steps and the two transforms, on any Table they accept:
    the outcome has no missing value outside the DC column and no
    outlier, and its rows carry labels of the input, in the input's
    order.  The DC column is left out: its values come out of the
    scaler's arithmetic. *)
Lemma prepared_clean (T T1 T2 T3 T4 : pd.DataFrame) (m : R)
    (p : sklearn.ScalerParams) :
  impute_frame (Some (Fin m)) T = Ok T1 →
  outliers_removed (pd.dropna T1) 120 = Ok T2 →
  scale_frame (Some p) T2 = Ok T3 →
  rain_frame T3 = Ok T4 →
  (∀ ir : pd.row, ir ∈ pd.rows T4 →
     ∀ c, c ∈ pd.columns T4 → c ≠ "DC" → pd.cell_at ir.2 c ≠ F NaN)
  ∧ (∀ ir : pd.row, ir ∈ pd.rows T4 →
       ¬ exceeds (pd.cell_at ir.2 "FFMC") 120)
  ∧ pd.index T4 `sublist_of` pd.index T
  ∧ "did_it_rain" ∈ pd.columns T4
  ∧ (∀ c, c ∈ pd.columns T → c ∈ pd.columns T4)
  ∧ length (pd.rows T4) = length (pd.rows T2).
Proof.
  intros H1 H2 H3 H4.
  apply impute_frame_inv in H1 as (Hdc & Hnum & Hne & ->).
  apply outliers_removed_inv in H2 as (Hffmc & Hnffmc & labels & -> & Hl).
  set (T1 := map_column "DC" (sklearn.impute m) T) in *.
  set (T2 := pd.drop (pd.dropna T1) labels) in *.
  assert (∀ ir2 : pd.row, ir2 ∈ pd.rows T2 →
            (∀ c, c ∈ pd.columns T → pd.cell_at ir2.2 c ≠ F NaN)
            ∧ ¬ exceeds (pd.cell_at ir2.2 "FFMC") 120) as Hrows2.
  { intros ir2 [Hlab [Hna Hin1]%list_elem_of_filter]%list_elem_of_filter.
    split.
    - intros c Hc Hnan. apply Hna, has_na_iff. by exists c.
    - intros He. apply Hlab, Hl. exists ir2. split; [|done].
      by apply list_elem_of_filter. }
  assert ("rain" ∈ pd.columns T3) as Hrain by (by eapply rain_frame_inv).
  apply scale_frame_inv in H3 as (_ & _ & _ & ->).
  rewrite rain_frame_explicit in H4 by done. injection H4 as <-.
  cbn [pd.columns pd.rows map_column pd.index].
  assert (pd.columns T2 = pd.columns T) as Hcols by done.
  split; [|split; [|split; [|split; [|split]]]].
  - intros ir4 (ir3 & -> & (ir2 & -> & Hin2)%list_elem_of_fmap)%list_elem_of_fmap
           c Hc Hne2.
    destruct (Hrows2 ir2 Hin2) as (Hna & _). cbn [fst snd].
    destruct (decide (c = "did_it_rain")) as [->|Hne1].
    { rewrite cell_at_insert_eq. apply where_eq_zero_not_nan. }
    rewrite cell_at_insert_ne by done.
    rewrite cell_at_insert_ne by done. apply Hna.
    rewrite ?Hcols in Hc. case_decide; [done|].
    apply elem_of_app in Hc as [Hc|Hc]; [done|].
    apply elem_of_cons in Hc as [->|Hc]; [done|by apply elem_of_nil in Hc].
  - intros ir4 (ir3 & -> & (ir2 & -> & Hin2)%list_elem_of_fmap)%list_elem_of_fmap.
    destruct (Hrows2 ir2 Hin2) as (_ & Hex). cbn [fst snd].
    by rewrite !cell_at_insert_ne.
  - unfold pd.index. cbn [pd.rows]. rewrite !fmap_fst_relabel.
    etransitivity.
    + apply fmap_sublist. etransitivity; apply sublist_filter.
    + by rewrite fmap_fst_relabel.
  - rewrite ?Hcols. case_decide; [done|]. apply elem_of_app. right. by left.
  - intros c Hc. rewrite ?Hcols. case_decide; [done|]. apply elem_of_app. by left.
  - by rewrite !length_fmap.
Qed.

(** What [train_prepared] is made of. *)
Lemma train_prepared_inv (T T' : pd.DataFrame) (statistics_ : float64)
    (p : sklearn.ScalerParams) :
  train_prepared T = Ok (T', statistics_, p) →
  ∃ (m : R) (T1 T2 T3 : pd.DataFrame),
    statistics_ = Fin m
    ∧ impute_frame (Some (Fin m)) T = Ok T1
    ∧ outliers_removed (pd.dropna T1) 120 = Ok T2
    ∧ fit_scaler T2 = Ok p
    ∧ scale_frame (Some p) T2 = Ok T3
    ∧ rain_frame T3 = Ok T'.
Proof.
  intros Hrun. destruct (train_prepared_mean T T' statistics_ p Hrun) as [_ ->].
  unfold train_prepared in Hrun.
  destruct (fit_imputer T) as [m'|] eqn:Hfit; cbn in Hrun; [|done].
  destruct (impute_frame (Some m') T) as [T1|] eqn:H1; cbn in Hrun; [|done].
  destruct (outliers_removed _ 120) as [T2|] eqn:H2; cbn in Hrun; [|done].
  destruct (fit_scaler T2) as [p'|] eqn:Hp; cbn in Hrun; [|done].
  destruct (scale_frame _ T2) as [T3|] eqn:H3; cbn in Hrun; [|done].
  destruct (rain_frame T3) as [T4|] eqn:H4; cbn in Hrun; [|done].
  injection Hrun as <- -> <-. by eexists _, T1, T2, T3.
Qed.

(** X8: After the training cells the training Table has at least one
    row, no missing value in any column other than DC and no FFMC value
    above 120; each of its rows carries the index label of a row it
    started with, in the original order; it has the ['did_it_rain']
    column and every column it started with.  Nothing is said of the DC
    values: they come out of the scaler's floating-point arithmetic. *)
Theorem prepare_train_clean (nb nb' : Notebook) (T : pd.DataFrame) :
  objects nb !! df_train nb = Some T →
  prepare_train nb = Ok nb' →
  ∃ T' : pd.DataFrame,
    objects nb' !! df_train nb' = Some T'
    ∧ pd.rows T' ≠ []
    ∧ (∀ ir : pd.row, ir ∈ pd.rows T' →
         ∀ c, c ∈ pd.columns T' → c ≠ "DC" → pd.cell_at ir.2 c ≠ F NaN)
    ∧ (∀ ir : pd.row, ir ∈ pd.rows T' →
         ¬ exceeds (pd.cell_at ir.2 "FFMC") 120)
    ∧ pd.index T' `sublist_of` pd.index T
    ∧ "did_it_rain" ∈ pd.columns T'
    ∧ (∀ c, c ∈ pd.columns T → c ∈ pd.columns T').
Proof.
  intros Hl Hrun. pose proof (prepare_train_run nb T Hl) as PT.
  destruct (train_prepared T) as [[[T' m] p]|e] eqn:Htp.
  2:{ by rewrite PT in Hrun. }
  destruct PT as (h' & l & Hp & HT' & _). rewrite Hp in Hrun.
  injection Hrun as <-. exists T'. split; [exact HT'|].
  apply train_prepared_inv in Htp as (m0 & T1 & T2 & T3 & -> & H1 & H2 & Hfit & H3 & H4).
  destruct (prepared_clean T T1 T2 T3 T' m0 p H1 H2 H3 H4)
    as (Hna & Hout & Hidx & Hdid & Hcols & Hlen).
  split; [|done].
  apply fit_scaler_inv in Hfit as (_ & _ & Hne & _).
  intros Hnil. rewrite Hnil in Hlen. by destruct (pd.rows T2).
Qed.

Lemma prepare_train_clean_witness :
  ∃ (nb' : Notebook) (T' : pd.DataFrame),
    prepare_train (notebook sample_df sample_test) = Ok nb'
    ∧ objects nb' !! df_train nb' = Some T'
    ∧ pd.rows T' ≠ []
    ∧ (∀ ir : pd.row, ir ∈ pd.rows T' →
         ∀ c, c ∈ pd.columns T' → c ≠ "DC" → pd.cell_at ir.2 c ≠ F NaN)
    ∧ (∀ ir : pd.row, ir ∈ pd.rows T' →
         ¬ exceeds (pd.cell_at ir.2 "FFMC") 120)
    ∧ pd.index T' `sublist_of` [0; 1; 2; 3].
Proof.
  pose proof (prepare_train_run (notebook sample_df sample_test) sample_df
                eq_refl) as PT.
  destruct (train_prepared_ok sample_df sample_df_preparable)
    as (T0 & p & Htp); [by rewrite sample_df_DC|].
  rewrite Htp in PT. destruct PT as (h' & l & Hrun & _).
  destruct (prepare_train_clean (notebook sample_df sample_test) _ sample_df
              eq_refl Hrun) as (T' & HT' & Hne & Hna & Hout & Hidx & _).
  by eexists _, T'.
Defined.

(** The columns of a prepared Table: those it started with, followed by
    ['did_it_rain'] unless it was there already. *)
Lemma prepared_columns (T T1 T2 T3 T4 : pd.DataFrame) (m : R)
    (p : sklearn.ScalerParams) :
  impute_frame (Some (Fin m)) T = Ok T1 →
  outliers_removed (pd.dropna T1) 120 = Ok T2 →
  scale_frame (Some p) T2 = Ok T3 →
  rain_frame T3 = Ok T4 →
  pd.columns T4
  = if decide ("did_it_rain" ∈ pd.columns T) then pd.columns T
    else pd.columns T ++ ["did_it_rain"].
Proof.
  intros (_ & _ & _ & ->)%impute_frame_inv
         (_ & _ & labels & -> & _)%outliers_removed_inv H3 H4.
  assert ("rain" ∈ pd.columns T3) as Hrain by (by eapply rain_frame_inv).
  apply scale_frame_inv in H3 as (_ & _ & _ & ->).
  rewrite rain_frame_explicit in H4 by done. by injection H4 as <-.
Qed.

Lemma test_prepared_inv (T T' : pd.DataFrame) (m : R)
    (p : sklearn.ScalerParams) :
  test_prepared (Some (Fin m)) (Some p) T = Ok T' →
  ∃ T1 T2 T3 : pd.DataFrame,
    impute_frame (Some (Fin m)) T = Ok T1
    ∧ outliers_removed (pd.dropna T1) 120 = Ok T2
    ∧ scale_frame (Some p) T2 = Ok T3
    ∧ rain_frame T3 = Ok T'.
Proof.
  intros Hrun. unfold test_prepared in Hrun.
  destruct (impute_frame _ T) as [T1|] eqn:H1; cbn in Hrun; [|done].
  destruct (outliers_removed _ 120) as [T2|] eqn:H2; cbn in Hrun; [|done].
  destruct (scale_frame _ T2) as [T3|] eqn:H3; cbn in Hrun; [|done].
  by exists T1, T2, T3.
Qed.

(** X9: Run the training cells and then the test cell.  The test cell
    leaves the prepared training Table as the training cells produced
    it, and the two prepared Tables are distinct objects.  The prepared
    test Table has no missing value in any column other than DC and no
    FFMC value above 120; its rows carry index labels of the test Table
    it started from, in the original order; and when the two Tables
    started with the same columns they end with the same columns, in the
    same order.  Nothing is said of the DC values: they come out of the
    scaler's floating-point arithmetic. *)
Theorem prepare_test_clean (nb nb' : Notebook) (T T_test : pd.DataFrame) :
  objects nb !! df_train nb = Some T →
  objects nb !! df_test nb = Some T_test →
  df_test nb ≠ df_train nb →
  prepare_train nb ≫= prepare_test = Ok nb' →
  ∃ (nb1 : Notebook) (Ttr Tte : pd.DataFrame),
    prepare_train nb = Ok nb1
    ∧ df_train nb' = df_train nb1
    ∧ objects nb1 !! df_train nb1 = Some Ttr
    ∧ objects nb' !! df_train nb' = Some Ttr
    ∧ objects nb' !! df_test nb' = Some Tte
    ∧ df_test nb' ≠ df_train nb'
    ∧ (∀ ir : pd.row, ir ∈ pd.rows Tte →
         ∀ c, c ∈ pd.columns Tte → c ≠ "DC" → pd.cell_at ir.2 c ≠ F NaN)
    ∧ (∀ ir : pd.row, ir ∈ pd.rows Tte →
         ¬ exceeds (pd.cell_at ir.2 "FFMC") 120)
    ∧ pd.index Tte `sublist_of` pd.index T_test
    ∧ (pd.columns T_test = pd.columns T → pd.columns Tte = pd.columns Ttr).
Proof.
  intros Htrain Htest Hne Hrun.
  pose proof (prepare_train_run nb T Htrain) as PT.
  unfold mbind, res_bind in Hrun.
  destruct (train_prepared T) as [[[Ttr m] p]|e] eqn:Htp.
  2:{ by rewrite PT in Hrun. }
  destruct PT as (h1 & l1 & Hrun1 & Hl1 & Hfresh & Hothers).
  rewrite Hrun1 in Hrun.
  apply train_prepared_inv in Htp
    as (m0 & T1 & T2 & T3 & -> & H1 & H2 & Hfit & H3 & H4).
  set (nb1 := mkNotebook h1 l1 (df_test nb) (Some (Fin m0)) (Some p)) in *.
  assert (objects nb1 !! df_test nb1 = Some T_test) as Htest1.
  { cbn. by rewrite Hothers. }
  pose proof (prepare_test_run nb1 T_test Htest1) as PT.
  cbn [imp normalizer nb1] in PT.
  destruct (test_prepared (Some (Fin m0)) (Some p) T_test) as [Tte|e] eqn:Hte.
  2:{ by rewrite PT in Hrun. }
  destruct PT as (h' & l & Hrun2 & Hl & Hfresh2 & Hothers2).
  rewrite Hrun2 in Hrun. injection Hrun as <-.
  cbn [objects df_train df_test nb1] in *.
  assert (df_test nb ≠ l1) as Hne1 by (intros <-; congruence).
  assert (l ≠ l1) as Hne2 by (intros ->; congruence).
  exists nb1, Ttr, Tte.
  split; [done|]. split; [done|]. split; [done|].
  split; [by rewrite Hothers2|]. split; [done|]. split; [done|].
  apply test_prepared_inv in Hte as (U1 & U2 & U3 & G1 & G2 & G3 & G4).
  destruct (prepared_clean T_test U1 U2 U3 Tte m0 p G1 G2 G3 G4)
    as (Hna & Hout & Hidx & _).
  split; [done|]. split; [done|]. split; [done|].
  intros Hsame.
  rewrite (prepared_columns T_test U1 U2 U3 Tte m0 p G1 G2 G3 G4).
  rewrite (prepared_columns T T1 T2 T3 Ttr m0 p H1 H2 H3 H4).
  by rewrite Hsame.
Qed.

Lemma prepare_test_clean_witness :
  ∃ (nb' : Notebook) (Tte : pd.DataFrame),
    prepare_train (notebook sample_df sample_test) ≫= prepare_test = Ok nb'
    ∧ objects nb' !! df_test nb' = Some Tte
    ∧ df_test nb' ≠ df_train nb'
    ∧ (∀ ir : pd.row, ir ∈ pd.rows Tte →
         ∀ c, c ∈ pd.columns Tte → c ≠ "DC" → pd.cell_at ir.2 c ≠ F NaN)
    ∧ (∀ ir : pd.row, ir ∈ pd.rows Tte →
         ¬ exceeds (pd.cell_at ir.2 "FFMC") 120).
Proof.
  destruct (pipeline_ok (notebook sample_df sample_test) sample_df sample_test)
    as [nb' Hrun];
    [done|done|done|apply sample_df_preparable|by rewrite sample_df_DC
    |apply sample_test_preparable|].
  destruct (prepare_test_clean (notebook sample_df sample_test) nb'
              sample_df sample_test eq_refl eq_refl) as
    (nb1 & Ttr & Tte & _ & _ & _ & _ & HTte & Hne & Hna & Hout & _);
    [done|exact Hrun|].
  by exists nb', Tte.
Defined.

(** ** The hyperparameter sweep *)

Section GridSearchKeys.

Context {World : Type}.
Variable cross_validate : Z → Z → World → cv_scores * World.

(** The nested loops visit the tuples of the product row by row. *)
Lemma grid_search_flat (tree_grid depth_grid : list Z)
    (st : gmap (Z * Z) (R * R) * World) :
  foldl (λ st n_trees,
           foldl (λ st depth, sweep_body cross_validate n_trees depth st)
                 st depth_grid) st tree_grid
  = foldl (λ st k, sweep_body cross_validate k.1 k.2 st) st
          (n_trees ← tree_grid; depth ← depth_grid; [(n_trees, depth)]).
Proof.
  revert st. induction tree_grid as [|t ts IH]; intros st; [done|].
  cbn [foldl]. rewrite IH. rewrite bind_cons, foldl_app. f_equal.
  clear. revert st. induction depth_grid as [|d ds IH]; intros st; [done|].
  cbn [foldl]. rewrite IH. done.
Qed.

Lemma sweep_dom (ks : list (Z * Z)) (st : gmap (Z * Z) (R * R) * World) :
  dom (foldl (λ st k, sweep_body cross_validate k.1 k.2 st) st ks).1
  = dom st.1 ∪ list_to_set ks.
Proof.
  revert st. induction ks as [|k ks IH]; intros st.
  - cbn [foldl]. by rewrite list_to_set_nil, (right_id_L ∅ (∪)).
  - cbn [foldl]. rewrite IH. unfold sweep_body.
    destruct (cross_validate k.1 k.2 st.2) as [result w]. cbn [fst].
    rewrite dom_insert_L, list_to_set_cons. destruct k as [t d]. cbn [fst snd].
    by rewrite (assoc_L (∪)), (comm_L (∪) (dom st.1) {[(t, d)]}).
Qed.

Lemma grid_search_dom (tree_grid depth_grid : list Z) (w : World) :
  dom (grid_search cross_validate tree_grid depth_grid w).1
  = list_to_set (n_trees ← tree_grid; depth ← depth_grid; [(n_trees, depth)]).
Proof.
  unfold grid_search. rewrite grid_search_flat, sweep_dom. cbn [fst].
  by rewrite dom_empty_L, (left_id_L ∅ (∪)).
Qed.

Lemma elem_of_grid (tree_grid depth_grid : list Z) (k : Z * Z) :
  k ∈ (n_trees ← tree_grid; depth ← depth_grid; [(n_trees, depth)])
  ↔ k.1 ∈ tree_grid ∧ k.2 ∈ depth_grid.
Proof.
  rewrite list_elem_of_bind. split.
  - intros (t & (d & ->%list_elem_of_singleton & Hd)%list_elem_of_bind & Ht).
    done.
  - intros [Ht Hd]. exists k.1. split; [|done].
    apply list_elem_of_bind. exists k.2. split; [|done].
    destruct k. by apply list_elem_of_singleton.
Qed.

Lemma NoDup_grid (tree_grid depth_grid : list Z) :
  NoDup tree_grid → NoDup depth_grid →
  NoDup (n_trees ← tree_grid; depth ← depth_grid; [(n_trees, depth)]).
Proof.
  intros Ht Hd. induction Ht as [|t ts Hnin Ht IH]; [constructor|].
  rewrite bind_cons. apply NoDup_app. split; [|split; [|done]].
  - clear -Hd. induction Hd as [|d ds Hnin Hd IH]; [constructor|].
    rewrite bind_cons. cbn [app]. constructor; [|done].
    intros (d' & [= <-]%list_elem_of_singleton & Hin)%list_elem_of_bind. done.
  - intros k (d & ->%list_elem_of_singleton & _)%list_elem_of_bind
             [Hin _]%elem_of_grid. done.
Qed.

End GridSearchKeys.

(** X10: The sweep records a result for exactly the tuples of the Cartesian
    product of the two grids, whatever the outcomes of the
    cross-validations; when no grid lists a value twice, the number of
    recorded results is the product of the grids' lengths. *)
Theorem grid_search_keys {World : Type}
    (cross_validate : Z → Z → World → cv_scores * World)
    (tree_grid depth_grid : list Z) (w : World) :
  (∀ n_trees depth : Z,
     is_Some ((grid_search cross_validate tree_grid depth_grid w).1
                !! (n_trees, depth))
     ↔ n_trees ∈ tree_grid ∧ depth ∈ depth_grid)
  ∧ (NoDup tree_grid → NoDup depth_grid →
     size (grid_search cross_validate tree_grid depth_grid w).1
     = length tree_grid * length depth_grid).
Proof.
  split.
  - intros n_trees depth. rewrite <- elem_of_dom, grid_search_dom.
    rewrite elem_of_list_to_set. apply (elem_of_grid _ _ (n_trees, depth)).
  - intros Ht Hd. rewrite <- size_dom, grid_search_dom.
    rewrite size_list_to_set by (by apply NoDup_grid).
    clear. induction tree_grid as [|t ts IH]; [done|].
    rewrite bind_cons, length_app, IH. cbn [length Nat.mul]. f_equal.
    clear. induction depth_grid as [|d ds IH]; [done|].
    rewrite bind_cons. cbn [app length]. by rewrite IH.
Qed.

Lemma grid_search_keys_witness :
  size (grid_search stub_cross_validate tree_grid depth_grid ()).1 = 12.
Proof.
  apply (grid_search_keys stub_cross_validate tree_grid depth_grid ()).
  - apply (bool_decide_unpack _). by vm_compute.
  - apply (bool_decide_unpack _). by vm_compute.
Defined.

(** ** [extract_info], whatever the shape of the response *)

Lemma res_mapM_app {A B} (f : A → res B) (l1 l2 : list A) :
  res_mapM f (l1 ++ l2)
  = (k1 ← res_mapM f l1; k2 ← res_mapM f l2; Ok (k1 ++ k2)).
Proof.
  induction l1 as [|a l1 IH]; cbn.
  - by destruct (res_mapM f l2).
  - destruct (f a) as [b|e]; cbn; [|done]. rewrite IH.
    destruct (res_mapM f l1) as [k1|e]; cbn; [|done].
    by destruct (res_mapM f l2).
Qed.

Lemma res_foldM_app {A B} (f : B → A → res B) (b : B) (l1 l2 : list A) :
  res_foldM f b (l1 ++ l2) = (b' ← res_foldM f b l1; res_foldM f b' l2).
Proof.
  revert b. induction l1 as [|a l1 IH]; intros b; cbn; [done|].
  destruct (f b a) as [b'|e]; cbn; [|done]. apply IH.
Qed.

(** A loop whose body only appends to the accumulator appends to it. *)
Lemma res_foldM_acc {A B} (f : list B → A → res (list B)) :
  (∀ acc a, f acc a = (ws ← f [] a; Ok (acc ++ ws))) →
  ∀ l acc, res_foldM f acc l = (ws ← res_foldM f [] l; Ok (acc ++ ws)).
Proof.
  intros Hf l. induction l as [|a l IH]; intros acc; cbn.
  - by rewrite app_nil_r.
  - rewrite (Hf acc a). destruct (f [] a) as [ws|e]; cbn; [|done].
    rewrite (IH (acc ++ ws)), (IH ws).
    destruct (res_foldM f [] l) as [ws'|e]; cbn; [|done].
    by rewrite app_assoc.
Qed.

Lemma words_of_line_acc (acc : list json) (word_metadata : json) :
  words_of_line acc word_metadata
  = (ws ← words_of_line [] word_metadata; Ok (acc ++ ws)).
Proof.
  unfold words_of_line.
  destruct (json_getitem word_metadata "words" ≫= json_iter) as [words|e];
    cbn; [|done].
  by rewrite !res_foldM_append.
Qed.

Lemma words_of_region_acc (acc : list json) (line : json) :
  words_of_region acc line = (ws ← words_of_region [] line; Ok (acc ++ ws)).
Proof.
  unfold words_of_region. destruct (json_iter line) as [lines|e]; cbn; [|done].
  apply (res_foldM_acc words_of_line words_of_line_acc).
Qed.

Lemma extract_info_unfold (analysis : json) :
  extract_info analysis
  = (regions ← json_getitem analysis "regions" ≫= json_iter;
     line_infos ← res_mapM (λ region, json_getitem region "lines") regions;
     res_foldM words_of_region [] line_infos).
Proof. done. Qed.

(** X11: The word entries of a response whose regions are those of one
    response followed by those of another are the word entries of the
    first followed by those of the second. *)
Theorem extract_info_app (a1 a2 a : json) (rs1 rs2 w1 w2 : list json) :
  json_getitem a1 "regions" = Ok (JList rs1) →
  json_getitem a2 "regions" = Ok (JList rs2) →
  json_getitem a "regions" = Ok (JList (rs1 ++ rs2)) →
  extract_info a1 = Ok w1 →
  extract_info a2 = Ok w2 →
  extract_info a = Ok (w1 ++ w2).
Proof.
  rewrite !extract_info_unfold. intros -> -> -> H1 H2. cbn in *.
  rewrite res_mapM_app.
  destruct (res_mapM _ rs1) as [l1|e]; cbn in *; [|done].
  destruct (res_mapM _ rs2) as [l2|e]; cbn in *; [|done].
  rewrite res_foldM_app, H1. cbn.
  rewrite (res_foldM_acc words_of_region words_of_region_acc), H2. done.
Qed.

Lemma extract_info_app_witness :
  extract_info (JDict [("regions", JList [sample_region; sample_region])])
  = Ok ([word "28,16,98,41" "NOTHING"; word "134,16,90,41" "EXISTS";
         word "27,66,71,52" "EXCEPT"]
        ++ [word "28,16,98,41" "NOTHING"; word "134,16,90,41" "EXISTS";
            word "27,66,71,52" "EXCEPT"]).
Proof.
  by apply (extract_info_app sample_analysis sample_analysis _
              [sample_region] [sample_region]).
Defined.

(** X12: [extract_info] looks up ['lines'] in every region before it reads
    any line: when a region has no usable ['lines'] entry and the regions
    before it have one, the call ends in that region's exception,
    whatever the lines of the earlier regions hold. *)
Theorem extract_info_first_error (analysis : json) (rs1 rs2 : list json)
    (region : json) (e : exn) :
  json_getitem analysis "regions" = Ok (JList (rs1 ++ region :: rs2)) →
  Forall (λ r, ∃ v, json_getitem r "lines" = Ok v) rs1 →
  json_getitem region "lines" = Raise e →
  extract_info analysis = Raise e.
Proof.
  rewrite extract_info_unfold. intros -> Hrs1 Hr. cbn.
  rewrite res_mapM_app.
  assert (∃ k1, res_mapM (λ r, json_getitem r "lines") rs1 = Ok k1) as [k1 ->].
  { induction Hrs1 as [|r rs [v Hv] _ [k IH]]; [by exists []|].
    exists (v :: k). cbn. by rewrite Hv, IH. }
  cbn. by rewrite Hr.
Qed.

Lemma extract_info_first_error_witness :
  extract_info broken_analysis = Raise KeyError.
Proof.
  apply (extract_info_first_error broken_analysis
           [JDict [("lines", JNum 1)]] [] (JDict [("boundingBox", JStr "0,0,1,1")])).
  - done.
  - constructor; [by exists (JNum 1)|constructor].
  - done.
Defined.

(** ** Column removal, and the feature matrix and target vector *)

Lemma drop_column_inplace_inv (h h' : store) (df : nat) (c : string) (u : unit) :
  drop_column_inplace df c h = Ok (u, h') →
  ∃ T T', h !! df = Some T ∧ drop_column T c = Ok T' ∧ h' = <[df := T']> h.
Proof.
  unfold drop_column_inplace. intros Hrun.
  apply bind_inv in Hrun as (T & h1 & [HT ->]%load_inv & Hrun).
  apply bind_inv in Hrun as (T' & h2 & [HT' ->]%lift_inv & Hrun).
  apply update_inv in Hrun. by exists T, T'.
Qed.

Lemma drop_column_inv (T T' : pd.DataFrame) (c : string) :
  drop_column T c = Ok T' →
  c ∈ pd.columns T
  ∧ T' = {| pd.columns := filter (λ c', c' ≠ c) (pd.columns T);
            pd.rows := (λ ir : pd.row, (ir.1, delete c ir.2)) <$> pd.rows T |}.
Proof. unfold drop_column. case_decide; [|done]. by intros [= <-]. Qed.

Lemma column_of_drop_column (T T' : pd.DataFrame) (c c' : string) :
  drop_column T c = Ok T' → c' ≠ c → column_of T' c' = column_of T c'.
Proof.
  intros [_ ->]%drop_column_inv Hne. unfold column_of. cbn [pd.rows].
  rewrite <- list_fmap_compose. apply list_fmap_ext. intros i ir _. cbn.
  unfold pd.cell_at. by rewrite lookup_delete_ne.
Qed.

(** X13: Cell [df.drop(labels=c, axis=1, inplace=True)].  It fails with a
    [KeyError] when the Table has no column [c].
    Otherwise it updates the Table in place: column [c] is gone and none
    of its values can be read any more, the other columns keep their
    order and their values, the rows keep their index labels, no other
    Table changes, and running the cell a second time fails with a
    [KeyError]. *)
Theorem drop_column_inplace_spec (h : store) (df : nat) (T : pd.DataFrame)
    (c : string) :
  h !! df = Some T →
  (c ∉ pd.columns T → drop_column_inplace df c h = Raise KeyError)
  ∧ (c ∈ pd.columns T →
     ∃ (h' : store) (T' : pd.DataFrame),
       drop_column_inplace df c h = Ok ((), h')
       ∧ h' !! df = Some T'
       ∧ (c ∉ pd.columns T')
       ∧ (pd.columns T' `sublist_of` pd.columns T)
       ∧ (∀ c', c' ≠ c → (c' ∈ pd.columns T' ↔ c' ∈ pd.columns T))
       ∧ (∀ c', c' ≠ c → column_of T' c' = column_of T c')
       ∧ (∀ ir : pd.row, ir ∈ pd.rows T' → ir.2 !! c = None)
       ∧ pd.index T' = pd.index T
       ∧ (∀ l, l ≠ df → h' !! l = h !! l)
       ∧ drop_column_inplace df c h' = Raise KeyError).
Proof.
  intros Hl. unfold drop_column_inplace. split.
  - intros Hc. rewrite (bind_ok _ _ _ _ _ (load_ok h df T Hl)).
    unfold drop_column. rewrite decide_False by done. done.
  - intros Hc. destruct (drop_column T c) as [T'|e] eqn:Hdrop.
    2:{ unfold drop_column in Hdrop. by rewrite decide_True in Hdrop. }
    exists (<[df := T']> h), T'.
    split.
    { rewrite (bind_ok _ _ _ _ _ (load_ok h df T Hl)).
      by rewrite (bind_ok _ _ _ _ _ (lift_ok _ T' h Hdrop)). }
    split; [apply lookup_insert_eq|].
    pose proof (column_of_drop_column T T' c) as Hcolumn.
    apply drop_column_inv in Hdrop as [_ HT'].
    assert (c ∉ pd.columns T') as Hgone.
    { rewrite HT'. cbn [pd.columns].
      intros [Hne _]%list_elem_of_filter. done. }
    split; [done|]. split; [rewrite HT'; apply sublist_filter|].
    split.
    { intros c' Hne. rewrite HT'. cbn [pd.columns].
      rewrite list_elem_of_filter. split; [by intros [_ ?]|done]. }
    split.
    { intros c' Hne. apply Hcolumn; [|done]. unfold drop_column.
      by rewrite decide_True, HT'. }
    split.
    { intros ir. rewrite HT'. cbn [pd.rows].
      intros (ir0 & -> & _)%list_elem_of_fmap. cbn [snd].
      apply lookup_delete_eq. }
    split.
    { rewrite HT'. unfold pd.index. cbn [pd.rows].
      rewrite <- list_fmap_compose. by apply list_fmap_ext. }
    split; [intros l Hne; by rewrite lookup_insert_ne|].
    rewrite (bind_ok _ _ _ _ _ (load_ok _ df T' (lookup_insert_eq _ _ _))).
    unfold drop_column. rewrite decide_False by done. done.
Qed.

Lemma drop_column_inplace_spec_witness :
  ∃ (h' : store) (T' : pd.DataFrame),
    drop_column_inplace 0 "rain" {[0 := sample_df]} = Ok ((), h')
    ∧ h' !! 0 = Some T'
    ∧ ("rain" ∉ pd.columns T')
    ∧ drop_column_inplace 0 "rain" h' = Raise KeyError.
Proof.
  destruct (drop_column_inplace_spec {[0 := sample_df]} 0 sample_df "rain"
              (lookup_singleton_eq _ _)) as [_ Hok].
  destruct Hok as (h' & T' & Hrun & HT' & Hgone & _ & _ & _ & _ & _ & _ & Hagain).
  { apply (bool_decide_unpack _). by vm_compute. }
  by exists h', T'.
Defined.

(** X14: The cells that define the feature matrix and the target vector,
    [X = df.drop("area", axis=1)] and [y = df["area"]].  Without an
    ['area'] column they fail with a [KeyError].  Otherwise the Table
    they read is left as it was and so is every other Table; the feature
    matrix is a new Table without the ['area'] column, whose other
    columns hold what they held in the Table; the target vector holds
    the ['area'] values; and the two are aligned row by row: the target
    carries the index labels of the feature matrix, in the same order. *)
Theorem features_target_spec (h : store) (df : nat) (T : pd.DataFrame) :
  h !! df = Some T →
  ("area" ∉ pd.columns T → features_target df h = Raise KeyError)
  ∧ ("area" ∈ pd.columns T →
     ∃ (h' : store) (X_ref : nat) (X : pd.DataFrame) (y : list (nat * cell)),
       features_target df h = Ok ((X_ref, y), h')
       ∧ h !! X_ref = None
       ∧ h' !! X_ref = Some X
       ∧ (∀ l, l ≠ X_ref → h' !! l = h !! l)
       ∧ ("area" ∉ pd.columns X)
       ∧ (∀ c, c ≠ "area" → (c ∈ pd.columns X ↔ c ∈ pd.columns T))
       ∧ (∀ c, c ≠ "area" → column_of X c = column_of T c)
       ∧ y.*2 = column_of T "area"
       ∧ y.*1 = pd.index X
       ∧ pd.index X = pd.index T).
Proof.
  intros Hl. unfold features_target. split.
  - intros Hc. rewrite (bind_ok _ _ _ _ _ (load_ok h df T Hl)).
    unfold drop_column. rewrite decide_False by done. done.
  - intros Hc. destruct (drop_column T "area") as [X|e] eqn:Hdrop.
    2:{ unfold drop_column in Hdrop. by rewrite decide_True in Hdrop. }
    exists (<[fresh (dom h) := X]> h), (fresh (dom h)), X,
           ((λ ir : pd.row, (ir.1, pd.cell_at ir.2 "area")) <$> pd.rows T).
    split.
    { rewrite (bind_ok _ _ _ _ _ (load_ok h df T Hl)).
      rewrite (bind_ok _ _ _ _ _ (lift_ok _ X h Hdrop)).
      unfold new at 1. unfold mbind at 1, M_bind.
      rewrite (bind_ok _ _ _ _ _ (lift_ok _ _ _ (getitem_ok T "area" Hc))).
      done. }
    split; [apply not_elem_of_dom, is_fresh|].
    split; [apply lookup_insert_eq|].
    split; [intros l Hne; by rewrite lookup_insert_ne|].
    pose proof (λ c, column_of_drop_column T X "area" c Hdrop) as Hcolumn.
    apply drop_column_inv in Hdrop as [_ ->]. cbn [pd.columns].
    split; [by intros [Hne _]%list_elem_of_filter|].
    split.
    { intros c Hne. rewrite list_elem_of_filter. split; [by intros [_ ?]|done]. }
    split; [done|].
    split; [apply getitem_cells|].
    unfold pd.index. cbn [pd.rows]. rewrite <- !list_fmap_compose.
    split; by apply list_fmap_ext.
Qed.

Lemma features_target_spec_witness :
  ∃ (h' : store) (X_ref : nat) (X : pd.DataFrame) (y : list (nat * cell)),
    features_target 0 {[0 := sample_df]} = Ok ((X_ref, y), h')
    ∧ h' !! X_ref = Some X
    ∧ h' !! 0 = Some sample_df
    ∧ ("area" ∉ pd.columns X)
    ∧ y.*1 = pd.index X.
Proof.
  destruct (features_target_spec {[0 := sample_df]} 0 sample_df
              (lookup_singleton_eq _ _)) as [_ Hok].
  destruct Hok as (h' & X_ref & X & y & Hrun & Hnew & HX & Hothers & Hgone
                   & _ & _ & _ & Hy & _).
  { apply (bool_decide_unpack _). by vm_compute. }
  exists h', X_ref, X, y.
  split; [done|]. split; [done|]. split; [|done].
  rewrite Hothers; [apply lookup_singleton_eq|].
  intros <-. by rewrite lookup_singleton_eq in Hnew.
Defined.

(** ** The categorical encoding *)

#[local] Instance level_le_total : Total pd.level_le.
Proof.
  intros [[x|]|s] [[y|]|t]; cbn; try (by left); try (by right).
  - destruct (Rle_or_lt x y) as [Hle|Hlt]; [by left|right; by apply Rlt_le].
  - apply String.leb_total.
Qed.

Lemma elem_of_levels (X : list cell) (v : cell) :
  v ∈ pd.levels X ↔ v ∈ X ∧ v ≠ F NaN.
Proof.
  unfold pd.levels.
  rewrite merge_sort_Permutation, elem_of_remove_dups, list_elem_of_filter.
  split; intros [? ?]; done.
Qed.

Lemma NoDup_levels (X : list cell) : NoDup (pd.levels X).
Proof.
  unfold pd.levels. rewrite merge_sort_Permutation. apply NoDup_remove_dups.
Qed.

Lemma indicators_lookup (repr : R → string) (c : string) (lvls : list cell)
    (v : cell) (r : gmap string cell) (lv : cell) :
  NoDup (pd.dummy_name repr c <$> lvls) → lv ∈ lvls →
  pd.indicators repr c lvls v r !! pd.dummy_name repr c lv
  = Some (F (Fin (if decide (v = lv) then 1 else 0))).
Proof.
  induction lvls as [|a lvls IH]; intros Hnd Hin.
  - by apply elem_of_nil in Hin.
  - rewrite fmap_cons in Hnd. apply NoDup_cons in Hnd as [Hnotin Hnd].
    cbn [pd.indicators foldr].
    apply elem_of_cons in Hin as [->|Hin]; [apply lookup_insert_eq|].
    rewrite lookup_insert_ne; [by apply IH|].
    intros Heq. apply Hnotin. rewrite Heq.
    apply list_elem_of_fmap. by exists lv.
Qed.

Lemma indicators_lookup_other (repr : R → string) (c : string)
    (lvls : list cell) (v : cell) (r : gmap string cell) (c' : string) :
  (∀ lv, lv ∈ lvls → c' ≠ pd.dummy_name repr c lv) →
  pd.indicators repr c lvls v r !! c' = r !! c'.
Proof.
  induction lvls as [|a lvls IH]; intros Hne; [done|].
  cbn [pd.indicators foldr]. rewrite lookup_insert_ne.
  - apply IH. intros lv Hin. apply Hne. by right.
  - intros Heq. apply (Hne a); [by left|done].
Qed.

(** The indicator columns of a text column have pairwise different
    names. *)
Lemma NoDup_dummy_names (repr : R → string) (c : string) (lvls : list cell) :
  NoDup lvls → (∀ v, v ∈ lvls → ∃ s, v = Str s) →
  NoDup (pd.dummy_name repr c <$> lvls).
Proof.
  intros Hnd Htext. apply NoDup_fmap_2_strong; [|done].
  intros u v [s ->]%Htext [t ->]%Htext Heq.
  unfold pd.dummy_name in Heq. cbn [pd.level_name] in Heq.
  apply String.app_inj in Heq. apply String.app_inj in Heq. by rewrite Heq.
Qed.

(** X17: the encoding cell [df = pd.get_dummies(df, columns=[c])] fails
    with a [KeyError] when the Table has no column [c].  Otherwise it
    returns a new Table with the index labels of the old one.  Its
    columns are the other columns, in their order, followed by one
    indicator column [c_v] for every category [v]; the categories are
    the values of column [c] that are not missing, each once, in sorted
    order.  When the indicator columns have pairwise different names, as
    they always have for a column of text, every row holds 1 in the
    indicator column of its own value and 0 in the others (a row whose
    value is missing holds 0 in all of them), and every cell of a column
    that is neither [c] nor named like an indicator is as it was. *)
Theorem get_dummies_spec (repr : R → string) (h : store) (df : nat)
    (T : pd.DataFrame) (c : string) :
  h !! df = Some T →
  (c ∉ pd.columns T → get_dummies repr df c h = Raise KeyError)
  ∧ (c ∈ pd.columns T →
     ∃ (l : nat) (T' : pd.DataFrame) (lvls : list cell),
       get_dummies repr df c h = Ok (l, <[l := T']> h)
       ∧ h !! l = None
       ∧ (∀ v, v ∈ lvls ↔ v ∈ column_of T c ∧ v ≠ F NaN)
       ∧ NoDup lvls
       ∧ Sorted pd.level_le lvls
       ∧ pd.columns T'
         = filter (λ c', c' ≠ c) (pd.columns T) ++ (pd.dummy_name repr c <$> lvls)
       ∧ pd.index T' = pd.index T
       ∧ ((∀ v, v ∈ column_of T c → v = F NaN ∨ ∃ s, v = Str s) →
          NoDup (pd.dummy_name repr c <$> lvls))
       ∧ (NoDup (pd.dummy_name repr c <$> lvls) →
          ∀ (i : nat) (ir : pd.row), pd.rows T !! i = Some ir →
            ∃ ir' : pd.row,
              pd.rows T' !! i = Some ir'
              ∧ ir'.1 = ir.1
              ∧ (∀ lv, lv ∈ lvls →
                   pd.cell_at ir'.2 (pd.dummy_name repr c lv)
                   = F (Fin (if decide (pd.cell_at ir.2 c = lv) then 1 else 0)))
              ∧ (∀ c', c' ≠ c →
                   (∀ lv, lv ∈ lvls → c' ≠ pd.dummy_name repr c lv) →
                   ir'.2 !! c' = ir.2 !! c'))).
Proof.
  intros Hl. unfold get_dummies. split.
  - intros Hc. rewrite (bind_ok _ _ _ _ _ (load_ok h df T Hl)).
    unfold pd.get_dummies. by rewrite decide_False.
  - intros Hc.
    set (lvls := pd.levels (column_of T c)).
    set (T' := {| pd.columns := filter (λ c', c' ≠ c) (pd.columns T)
                                ++ (pd.dummy_name repr c <$> lvls);
                  pd.rows := (λ ir : pd.row,
                                (ir.1, pd.indicators repr c lvls
                                         (pd.cell_at ir.2 c) (delete c ir.2)))
                             <$> pd.rows T |}).
    assert (pd.get_dummies repr T c = Ok T') as Hrun.
    { unfold pd.get_dummies. by rewrite decide_True. }
    exists (fresh (dom h)), T', lvls.
    split.
    { rewrite (bind_ok _ _ _ _ _ (load_ok h df T Hl)).
      by rewrite (bind_ok _ _ _ _ _ (lift_ok _ T' h Hrun)). }
    split; [apply not_elem_of_dom, is_fresh|].
    split; [intros v; apply elem_of_levels|].
    split; [apply NoDup_levels|].
    split; [apply Sorted_merge_sort, _|].
    split; [done|].
    split; [unfold pd.index, T'; cbn [pd.rows]; apply fmap_fst_relabel|].
    split.
    { intros Htext. apply NoDup_dummy_names; [apply NoDup_levels|].
      intros v [Hin Hnan]%elem_of_levels.
      by destruct (Htext v Hin) as [->|Hs]. }
    intros Hnd i ir Hi.
    exists (ir.1, pd.indicators repr c lvls (pd.cell_at ir.2 c) (delete c ir.2)).
    split; [unfold T'; cbn [pd.rows]; by rewrite list_lookup_fmap, Hi|].
    split; [done|]. cbn [fst snd]. split.
    + intros lv Hlv. unfold pd.cell_at at 1.
      by rewrite indicators_lookup.
    + intros c' Hne Hother.
      rewrite indicators_lookup_other by done. by rewrite lookup_delete_ne.
Qed.

Lemma get_dummies_spec_witness :
  ∃ (l : nat) (T' : pd.DataFrame) (lvls : list cell),
    get_dummies (λ _, "") 0 "month" {[0 := months]}
    = Ok (l, <[l := T']> {[0 := months]})
    ∧ (∀ v, v ∈ lvls ↔ v ∈ column_of months "month" ∧ v ≠ F NaN)
    ∧ pd.columns T'
      = filter (λ c', c' ≠ "month") (pd.columns months)
        ++ (pd.dummy_name (λ _, "") "month" <$> lvls)
    ∧ pd.index T' = pd.index months
    ∧ NoDup (pd.dummy_name (λ _, "") "month" <$> lvls).
Proof.
  destruct (get_dummies_spec (λ _, "") {[0 := months]} 0 months "month"
              (lookup_singleton_eq _ _)) as [_ Hok].
  destruct Hok as (l & T' & lvls & Hrun & _ & Hlv & _ & _ & Hcols & Hidx
                   & Hnames & _).
  { apply (bool_decide_unpack _). by vm_compute. }
  exists l, T', lvls.
  split; [exact Hrun|]. split; [exact Hlv|]. split; [exact Hcols|].
  split; [exact Hidx|]. apply Hnames.
  intros v Hin. unfold column_of, months in Hin. cbn [pd.rows] in Hin.
  rewrite !fmap_cons, fmap_nil in Hin. cbn [snd] in Hin.
  repeat (apply elem_of_cons in Hin as [->|Hin]);
    [right|right|left|right|by apply elem_of_nil in Hin];
    by (try done; eexists; by vm_compute).
Defined.

(** ** The splitter: when the call fails and when it succeeds *)

Lemma n_test_zero (test_size : Q) : model_selection.n_test test_size 0 = 0.
Proof.
  unfold model_selection.n_test.
  rewrite nearest_float64_zero; [done|]. cbn. apply Z.mul_0_r.
Qed.

Lemma n_test_pos (test_size : Q) (n : nat) :
  (0 < test_size)%Q → 1 ≤ n → 1 ≤ model_selection.n_test test_size n.
Proof.
  intros Hq Hn. unfold model_selection.n_test.
  set (x := (np.nearest_float64 test_size * inject_Z (Z.of_nat n))%Q).
  assert (0 < x)%Q as Hx.
  { unfold x. apply Qmult_lt_0_compat; [by apply nearest_float64_pos|].
    unfold Qlt, inject_Z. cbn. lia. }
  pose proof (Qle_ceiling (np.nearest_float64 x)) as Hc.
  pose proof (Qlt_le_trans _ _ _ (nearest_float64_pos x Hx) Hc) as Hpos.
  unfold Qlt, inject_Z in Hpos. cbn in Hpos. lia.
Qed.

(** A float64 product that is at most an integer below [2^53] has a
    ceiling of at most that integer. *)
Lemma ceiling_nearest_float64_le (x : Q) (k : Z) :
  (0 < x)%Q → (k < 2 ^ 53)%Z → (x <= inject_Z k)%Q →
  (Qceiling (np.nearest_float64 x) <= k)%Z.
Proof.
  intros Hx Hk Hle.
  rewrite <- (Qceiling_Z k). apply Qceiling_resp_le.
  apply (nearest_float64_le_dyadic x k 0 Hx); done.
Qed.

Lemma n_test_one (test_size : Q) :
  (0 < test_size)%Q → (test_size < 1)%Q → model_selection.n_test test_size 1 = 1.
Proof.
  intros H0 H1. pose proof (n_test_pos test_size 1 H0 (le_n 1)) as Hpos.
  unfold model_selection.n_test in *.
  set (x := (np.nearest_float64 test_size * inject_Z (Z.of_nat 1))%Q) in *.
  assert (np.nearest_float64 test_size <= inject_Z 1)%Q as Hr.
  { apply (nearest_float64_le_dyadic test_size 1 0 H0); [done|done|].
    by apply Qlt_le_weak. }
  assert (0 < x)%Q as Hx.
  { unfold x. apply Qmult_lt_0_compat; [by apply nearest_float64_pos|done]. }
  assert (x <= inject_Z 1)%Q as Hle.
  { unfold x. by rewrite Qmult_1_r. }
  pose proof (ceiling_nearest_float64_le x 1 Hx eq_refl Hle). lia.
Qed.

Lemma n_test_half (test_size : Q) (n : nat) :
  (0 < test_size)%Q → (test_size <= 1 # 2)%Q → 2 ≤ n →
  model_selection.n_test test_size n < n.
Proof.
  intros H0 Hq Hn. unfold model_selection.n_test.
  set (r := np.nearest_float64 test_size).
  assert (0 < r)%Q as Hr0 by (by apply nearest_float64_pos).
  assert (r <= 1 # 2)%Q as Hr.
  { apply (nearest_float64_le_dyadic test_size 1 1 H0); done. }
  set (x := (r * inject_Z (Z.of_nat n))%Q).
  assert (0 < inject_Z (Z.of_nat n))%Q as Hn0.
  { unfold Qlt, inject_Z. cbn. lia. }
  assert (0 < x)%Q as Hx by (by apply Qmult_lt_0_compat).
  assert (x <= (1 # 2) * inject_Z (Z.of_nat n))%Q as Hxn.
  { unfold x. apply Qmult_le_compat_r; [done|by apply Qlt_le_weak]. }
  set (k := ((Z.of_nat n + 1) / 2)%Z).
  assert (Z.of_nat n <= 2 * k ∧ k < Z.of_nat n)%Z as [Hk1 Hk2].
  { unfold k. pose proof (Z.div_mod (Z.of_nat n + 1) 2 ltac:(lia)).
    pose proof (Z.mod_pos_bound (Z.of_nat n + 1) 2 ltac:(lia)). lia. }
  destruct (Z_lt_le_dec k (2 ^ 53)) as [Hsmall|Hbig].
  - assert (x <= inject_Z k)%Q as Hle.
    { eapply Qle_trans; [exact Hxn|].
      unfold Qle, Qmult, inject_Z. cbn. lia. }
    pose proof (ceiling_nearest_float64_le x k Hx Hsmall Hle). lia.
  - pose proof (nearest_float64_upper x Hx) as Hup.
    pose proof (Qceiling_lt (np.nearest_float64 x)) as Hc.
    set (c := Qceiling (np.nearest_float64 x)) in *.
    assert (inject_Z 2 * inject_Z (2 ^ 53) * inject_Z (c - 1)
            < inject_Z (2 ^ 53 + 1) * inject_Z (Z.of_nat n))%Q as Hz.
    { change (inject_Z 2) with 2%Q. change (inject_Z (2 ^ 53)) with
        9007199254740992%Q in *. change (inject_Z (2 ^ 53 + 1)) with
        9007199254740993%Q in *. Lqa.lra. }
    rewrite <- !inject_Z_mult, <- Zlt_Qlt in Hz.
    change (2 ^ 53)%Z with 9007199254740992%Z in *. lia.
Qed.

Section SplitterDomain.

Variable permutation : Z → nat → list nat.
Hypothesis permutation_spec : ∀ seed n, permutation seed n ≡ₚ seq 0 n.

Lemma permutation_bound (seed : Z) (n : nat) :
  Forall (λ i, i < n) (permutation seed n).
Proof.
  rewrite (permutation_spec seed n). apply Forall_forall.
  intros i Hi%elem_of_seq. lia.
Qed.

(** X15: [train_test_split] fails with a [ValueError] when the fraction
    is 1 or more.  For a fraction above 0 and at most one half, as the
    notebook's 0.2, it succeeds on every Table of two or more rows, and
    then neither part is empty and both have the columns of the input. *)
Theorem train_test_split_domain (h : store) (df : nat) (T : pd.DataFrame)
    (test_size : Q) (seed : Z) :
  h !! df = Some T →
  ((1 <= test_size)%Q →
   train_test_split permutation df test_size seed h = Raise ValueError)
  ∧ ((0 < test_size)%Q → (test_size <= 1 # 2)%Q → 2 ≤ length (pd.rows T) →
     ∃ (train test : nat) (h' : store) (T_train T_test : pd.DataFrame),
       train_test_split permutation df test_size seed h
       = Ok ((train, test), h')
       ∧ h' !! train = Some T_train ∧ h' !! test = Some T_test
       ∧ pd.rows T_train ≠ [] ∧ pd.rows T_test ≠ []
       ∧ pd.columns T_train = pd.columns T
       ∧ pd.columns T_test = pd.columns T).
Proof.
  intros Hh. split.
  - intros Hq. unfold train_test_split.
    rewrite (bind_ok _ _ _ _ _ (load_ok h df T Hh)).
    unfold model_selection.validate. rewrite decide_False; [done|].
    intros [_ Hlt]. by apply Qlt_not_le in Hlt.
  - intros H0 Hhalf Hn.
    assert (test_size < 1)%Q as H1.
    { eapply Qle_lt_trans; [exact Hhalf|]. reflexivity. }
    pose proof (n_test_half test_size _ H0 Hhalf Hn) as Hlt.
    pose proof (n_test_pos test_size (length (pd.rows T)) H0) as Hpos.
    pose proof (train_test_split_ok permutation h df T test_size seed
                  Hh H0 H1 Hlt) as Hrun.
    cbn zeta in Hrun.
    set (ind := model_selection.shuffle_split permutation
                  (length (pd.rows T)) test_size seed) in *.
    set (train := fresh (dom h)) in *.
    set (h1 := <[train := model_selection.iloc T ind.1]> h) in *.
    set (test := fresh (dom h1)) in *.
    assert (h1 !! test = None) as Htest by apply not_elem_of_dom, is_fresh.
    assert (train ≠ test) as Hne.
    { intros Heq. rewrite <- Heq in Htest. unfold h1 in Htest.
      by rewrite lookup_insert_eq in Htest. }
    exists train, test, (<[test := model_selection.iloc T ind.2]> h1),
      (model_selection.iloc T ind.1), (model_selection.iloc T ind.2).
    split; [exact Hrun|].
    split.
    { rewrite lookup_insert_ne by (intros Heq; by apply Hne).
      apply lookup_insert_eq. }
    split; [apply lookup_insert_eq|].
    pose proof (permutation_bound seed (length (pd.rows T))) as Hbound.
    assert (length (permutation seed (length (pd.rows T)))
            = length (pd.rows T)) as Hlen.
    { by rewrite permutation_spec, length_seq. }
    split; [|split; [|done]].
    + intros Hnil. apply (f_equal length) in Hnil.
      rewrite length_iloc in Hnil.
      * unfold ind, model_selection.shuffle_split in Hnil. cbn [fst] in Hnil.
        rewrite length_take, length_drop, Hlen in Hnil. cbn in Hnil. lia.
      * unfold ind, model_selection.shuffle_split. cbn [fst].
        by apply Forall_take, Forall_drop.
    + intros Hnil. apply (f_equal length) in Hnil.
      rewrite length_iloc in Hnil.
      * unfold ind, model_selection.shuffle_split in Hnil. cbn [snd] in Hnil.
        rewrite length_take, Hlen in Hnil. cbn in Hnil. lia.
      * unfold ind, model_selection.shuffle_split. cbn [snd].
        by apply Forall_take.
Qed.

(** X16: with the validation of the sizes that scikit-learn has had since
    its release 0.21, [train_test_split] also fails with a [ValueError]
    when the fraction is 0 or less and, whatever the fraction, when the
    Table has no row or a single row: the training part would be empty. *)
Theorem train_test_split_empty_train (h : store) (df : nat)
    (T : pd.DataFrame) (test_size : Q) (seed : Z) :
  h !! df = Some T →
  (test_size <= 0)%Q ∨ length (pd.rows T) ≤ 1 →
  train_test_split permutation df test_size seed h = Raise ValueError.
Proof.
  intros Hh Hcase. unfold train_test_split.
  rewrite (bind_ok _ _ _ _ _ (load_ok h df T Hh)).
  unfold model_selection.validate.
  destruct (decide (0 < test_size ∧ test_size < 1)%Q) as [[H0 H1]|]; [|done].
  destruct Hcase as [Hq|Hn]; [by apply Qlt_not_le in H0|].
  rewrite decide_True; [done|].
  destruct (length (pd.rows T)) as [|[|n]]; [|by rewrite n_test_one|lia].
  by rewrite n_test_zero.
Qed.

End SplitterDomain.

Lemma train_test_split_domain_witness :
  ∃ (train test : nat) (h' : store) (T_train T_test : pd.DataFrame),
    train_test_split sample_permutation 0 (1 # 5) 42 {[0 := six_rows]}
    = Ok ((train, test), h')
    ∧ h' !! train = Some T_train ∧ h' !! test = Some T_test
    ∧ pd.rows T_train ≠ [] ∧ pd.rows T_test ≠ [].
Proof.
  destruct (train_test_split_domain sample_permutation sample_permutation_spec
              {[0 := six_rows]} 0 six_rows (1 # 5) 42
              (lookup_singleton_eq _ _)) as (_ & Hok).
  destruct Hok as (train & test & h' & T_train & T_test & Hrun & Htr & Hte
                   & Hntr & Hnte & _).
  - reflexivity.
  - by vm_compute.
  - rewrite six_rows_length. lia.
  - exists train, test, h', T_train, T_test.
    exact (conj Hrun (conj Htr (conj Hte (conj Hntr Hnte)))).
Defined.

Lemma train_test_split_empty_train_witness :
  train_test_split sample_permutation 0 (1 # 5) 42 {[0 := one_row]}
  = Raise ValueError.
Proof.
  apply (train_test_split_empty_train sample_permutation
           {[0 := one_row]} 0 one_row (1 # 5) 42 (lookup_singleton_eq _ _)).
  right. unfold one_row. cbn [pd.rows length]. lia.
Defined.
